(** * Advanced SQL Agent: a shallow embedding of [advancedSqlAgent.js]

    The development follows [src/v1/src/agents/advancedSqlAgent.js] and the
    handlers of [src/v1/src/routes/sql-agent.routes.js] ([/health], [/query],
    [/direct-sql], [/clear-cache], [/chat]) with their rate limiter.

    Conventions of the embedding.

    - A JavaScript string is a [string]: the UTF-8 text of the value.
      [includes] against an ASCII pattern, concatenation, [Buffer.from] and
      base64 are exact on it.  [lengthUnits] and [substringUnits] count
      UTF-16 code units, as [length] and [substring] do (a four-byte form is a
      surrogate pair; a pair that [substring] cuts leaves its high surrogate,
      written in the three-byte generalized form).  [String.length] and
      [substring0] count bytes: they are used on ASCII text (base64 text, the
      constant keywords) and to test for the empty string.
    - [String.prototype.toUpperCase] and [toLowerCase] are the engine's
      Unicode case mappings.  They are parameters of the development
      ([Section Guard], [Section Agent]); [asciiUpper] and [asciiLower] are
      their restrictions to ASCII text and are used to run examples.
    - [this] (the agent object) and the outside world (clock, connection
      pool, text-generation model) are threaded through a state-and-exception
      monad [M].  The world answers in the order it is asked; every call to
      the pool, to the timer and to the model is appended to [trace].
    - The database answers a statement with an array of rows or with an
      error; one request is followed from start to end, without interleaving
      with other requests.
    - A handler is entered with a parsed body and with the agent instance
      that [getSqlAgentInstance] returns; [new Date().toISOString()] is a
      reading of the clock. *)

From Stdlib Require Import String Ascii List ZArith QArith Lia Bool Arith PeanoNat.
From Stdlib Require Import DecimalString.
Import ListNotations.

Local Open Scope list_scope.
Local Open Scope string_scope.
Local Open Scope nat_scope.

(* ================================================================== *)
(** ** JavaScript strings *)
(* ================================================================== *)

Module Js.

(** The double-quote character, for template text that contains it. *)
Definition dq : string := String "034"%char EmptyString.

(** Line feed, for template text that spans lines. *)
Definition nl : string := String "010"%char EmptyString.

(** [s.includes(pat)] *)
Fixpoint includes (s pat : string) : bool :=
  if prefix pat s then true
  else match s with
       | EmptyString => false
       | String _ s' => includes s' pat
       end.

(** [s.substring(0, n)] on ASCII text: the first [n] bytes. *)
Definition substring0 (n : nat) (s : string) : string := substring 0 n s.

(** A byte that continues the UTF-8 form of a code point. *)
Definition isContinuation (c : ascii) : bool :=
  let n := nat_of_ascii c in (128 <=? n) && (n <? 192).

(** The first byte of a four-byte form: a code point from U+10000 on, which
    is two UTF-16 code units. *)
Definition isAstral (c : ascii) : bool := 240 <=? nat_of_ascii c.

(** [s.length]: one code unit for each code point, two for an astral one. *)
Fixpoint lengthUnits (s : string) : nat :=
  match s with
  | EmptyString => 0
  | String c rest =>
      (if isContinuation c then 0 else if isAstral c then 2 else 1) + lengthUnits rest
  end.

(** The high surrogate of the astral code point whose form is [c] followed by
    the first bytes of [rest], in the generalized three-byte form. *)
Definition highSurrogate (c : ascii) (rest : string) : string :=
  let b0 := nat_of_ascii c in
  let b1 := match rest with
            | String b _ => nat_of_ascii b
            | EmptyString => 0
            end in
  let b2 := match rest with
            | String _ (String b _) => nat_of_ascii b
            | _ => 0
            end in
  let high := b0 mod 8 * 256 + b1 mod 64 * 4 + b2 mod 64 / 16 - 64 in
  String (ascii_of_nat 237)
    (String (ascii_of_nat (160 + high / 64))
       (String (ascii_of_nat (128 + high mod 64)) EmptyString)).

(** [s.substring(0, n)]: the first [n] code units.  Continuation bytes go
    with the code point taken before them. *)
Fixpoint substringUnits (n : nat) (s : string) : string :=
  match s with
  | EmptyString => EmptyString
  | String c rest =>
      if isContinuation c then String c (substringUnits n rest)
      else
        match n with
        | O => EmptyString
        | S n' =>
            if isAstral c then
              match n' with
              | O => highSurrogate c rest
              | S n'' => String c (substringUnits n'' rest)
              end
            else String c (substringUnits n' rest)
        end
  end.

(** ASCII fragments of the case mappings. *)
Definition upperChar (c : ascii) : ascii :=
  let n := nat_of_ascii c in
  if (97 <=? n) && (n <=? 122) then ascii_of_nat (n - 32) else c.

Definition lowerChar (c : ascii) : ascii :=
  let n := nat_of_ascii c in
  if (65 <=? n) && (n <=? 90) then ascii_of_nat (n + 32) else c.

Fixpoint mapString (f : ascii -> ascii) (s : string) : string :=
  match s with
  | EmptyString => EmptyString
  | String c s' => String (f c) (mapString f s')
  end.

Definition asciiUpper : string -> string := mapString upperChar.
Definition asciiLower : string -> string := mapString lowerChar.

(** Decimal rendering of numbers inside template literals. *)
Definition showNat (n : nat) : string := NilZero.string_of_uint (Nat.to_uint n).
Definition showZ (z : Z) : string := NilZero.string_of_int (Z.to_int z).

End Js.

Import Js.

(* ================================================================== *)
(** ** Exceptions *)
(* ================================================================== *)

Inductive ErrorKind := Error | TypeError | ReferenceError.

(** A thrown value: an [Error] object with the fields the agent reads
    ([message], [code] as set by the database driver, [status] as set by the
    model client). *)
Record JsError := mkError {
  kind : ErrorKind;
  message : string;
  code : option string;
  status : option nat
}.

Definition newError (msg : string) : JsError := mkError Error msg None None.

Inductive Outcome (A : Type) :=
| Return (a : A)
| Throw (e : JsError).
Arguments Return {A} a.
Arguments Throw {A} e.

(* ================================================================== *)
(** ** Query Guard *)
(* ================================================================== *)

Definition dangerousKeywords : list string :=
  ["DROP"; "DELETE"; "TRUNCATE"; "ALTER"; "CREATE"; "INSERT"; "UPDATE"].

(** [for (const keyword of keywords) if (queryUpper.includes(keyword)) throw]:
    the first keyword, in list order, that occurs in the text. *)
Fixpoint firstProhibited (queryUpper : string) (keywords : list string) : option string :=
  match keywords with
  | [] => None
  | keyword :: rest =>
      if includes queryUpper keyword then Some keyword
      else firstProhibited queryUpper rest
  end.

Section Guard.

Variable toUpperCase : string -> string.

(** [validateAndOptimizeQuery(query)], lines 582-603. *)
Definition validateAndOptimizeQuery (query : string) : Outcome string :=
  let queryUpper := toUpperCase query in
  match firstProhibited queryUpper dangerousKeywords with
  | Some keyword =>
      Throw (newError ("Query contains prohibited keyword: " ++ keyword))
  | None =>
      if negb (includes queryUpper "LIMIT") && includes queryUpper "SELECT" then
        if negb (includes queryUpper "COUNT(") && negb (includes queryUpper "SUM(")
           && negb (includes queryUpper "AVG(") && negb (includes queryUpper "GROUP BY")
        then Return (query ++ " LIMIT 100")
        else Return query
      else Return query
  end.

End Guard.

(* ================================================================== *)
(** ** [Map]: keyed entries in insertion order *)
(* ================================================================== *)

(** A JavaScript [Map] iterates in insertion order; [set] on a key that is
    present keeps its position, [set] on a new key appends. *)
Module JsMap.

Definition t (V : Type) : Type := list (string * V).

Definition empty {V : Type} : t V := [].

Fixpoint get {V : Type} (k : string) (m : t V) : option V :=
  match m with
  | [] => None
  | (k', v) :: rest => if String.eqb k' k then Some v else get k rest
  end.

Definition has {V : Type} (k : string) (m : t V) : bool :=
  match get k m with Some _ => true | None => false end.

Fixpoint set {V : Type} (k : string) (v : V) (m : t V) : t V :=
  match m with
  | [] => [(k, v)]
  | (k', v') :: rest =>
      if String.eqb k' k then (k, v) :: rest else (k', v') :: set k v rest
  end.

Fixpoint delete {V : Type} (k : string) (m : t V) : t V :=
  match m with
  | [] => []
  | (k', v') :: rest =>
      if String.eqb k' k then rest else (k', v') :: delete k rest
  end.

Definition size {V : Type} (m : t V) : nat := length m.

Definition keys {V : Type} (m : t V) : list string := map fst m.

(** [m.keys().next().value]: the oldest key, [undefined] on an empty map. *)
Definition firstKey {V : Type} (m : t V) : option string :=
  match m with
  | [] => None
  | (k, _) :: _ => Some k
  end.

End JsMap.

(* ================================================================== *)
(** ** Data model *)
(* ================================================================== *)

Inductive SqlValue :=
| SqlNull
| SqlNumber (z : Z)
| SqlText (s : string).

(** One result row: column name and value, in column order. *)
Definition Row : Type := list (string * SqlValue).

Record ColumnInfo := mkColumn {
  COLUMN_NAME : string;
  DATA_TYPE : string;
  IS_NULLABLE : string;
  COLUMN_KEY : string;
  COLUMN_DEFAULT : option string;
  COLUMN_COMMENT : string
}.

Record TableSchema := mkSchema {
  name : string;
  comment : string;
  columns : list ColumnInfo
}.

Record CacheEntry := mkEntry {
  result : list Row;
  timestamp : Z
}.

Module History.
Record entry := mk {
  timestamp : Z;
  query : string;
  success : bool;
  executionTime : Z;
  rowCount : nat;
  error : option string
}.
End History.

Record Metrics := mkMetrics {
  totalQueries : nat;
  successfulQueries : nat;
  failedQueries : nat;
  averageExecutionTime : Q;
  cacheHits : nat
}.

(** The fields of [this] that the pipeline reads or writes.  The running
    average is kept as an exact rational. *)
Record Agent := mkAgent {
  queryCache : JsMap.t CacheEntry;
  cacheTimeout : Z;
  queryHistory : list History.entry;
  maxHistorySize : nat;
  metrics : Metrics;
  tableSchemas : JsMap.t TableSchema
}.

(** The agent as the constructor leaves it, with the schemas that
    [loadTableSchemas] found. *)
Definition newAgent (schemas : JsMap.t TableSchema) : Agent :=
  mkAgent JsMap.empty 300000%Z [] 1000 (mkMetrics 0 0 0 0%Q 0) schemas.

(* ================================================================== *)
(** ** The outside world *)
(* ================================================================== *)

Inductive DbAnswer :=
| DbRows (rows : list Row)
| DbError (e : JsError).

Inductive LlmAnswer :=
| LlmText (text : string)
| LlmError (e : JsError).

Inductive PoolAnswer :=
| PoolRecreated
| PoolEndFailed
| PoolInitFailed.

Inductive Event :=
| EvExecute (sql : string)      (* connectionPool.execute(sql, params) *)
| EvSleep (ms : Z)              (* setTimeout(resolve, ms) *)
| EvPoolEnd                     (* connectionPool.end() *)
| EvPoolInit                    (* initializeDatabase() *)
| EvGenerate.                   (* model.generateContent(prompt) *)

(** The world is an oracle: [clock n] is the n-th reading of [Date.now()],
    [database n sql] the driver's answer to the n-th [execute], [pool n] the
    fate of the n-th attempt to recreate the pool, [llm n] the model's n-th
    reply.  The counters say how much of each has been consumed. *)
Record World := mkWorld {
  clock : nat -> Z;
  ticks : nat;
  database : nat -> string -> DbAnswer;
  dbCalls : nat;
  pool : nat -> PoolAnswer;
  poolCalls : nat;
  llm : nat -> LlmAnswer;
  llmCalls : nat;
  trace : list Event
}.

Definition freshWorld (clock : nat -> Z) (database : nat -> string -> DbAnswer)
    (pool : nat -> PoolAnswer) (llm : nat -> LlmAnswer) : World :=
  mkWorld clock 0 database 0 pool 0 llm 0 [].

(** The process: the agent instance, the router's module-level
    [rateLimitMap], and the world. *)
Record State := mkState {
  self : Agent;
  rateLimitMap : JsMap.t (list Z);
  world : World
}.

(* ================================================================== *)
(** ** The monad of agent methods *)
(* ================================================================== *)

Definition M (A : Type) : Type := State -> Outcome A * State.

Definition ret {A : Type} (a : A) : M A := fun s => (Return a, s).

Definition throw {A : Type} (e : JsError) : M A := fun s => (Throw e, s).

Definition bind {A B : Type} (c : M A) (k : A -> M B) : M B :=
  fun s =>
    match c s with
    | (Return a, s') => k a s'
    | (Throw e, s') => (Throw e, s')
    end.

(** [try { c } catch (error) { handler(error) }] *)
Definition try_catch {A : Type} (c : M A) (handler : JsError -> M A) : M A :=
  fun s =>
    match c s with
    | (Return a, s') => (Return a, s')
    | (Throw e, s') => handler e s'
    end.

Definition lift {A : Type} (o : Outcome A) : M A := fun s => (o, s).

Definition getSelf : M Agent := fun s => (Return (self s), s).

Definition modifySelf (f : Agent -> Agent) : M unit :=
  fun s => (Return tt, mkState (f (self s)) (rateLimitMap s) (world s)).

Definition modifyWorld (f : World -> World) : M unit :=
  fun s => (Return tt, mkState (self s) (rateLimitMap s) (f (world s))).

Definition getRateLimitMap : M (JsMap.t (list Z)) :=
  fun s => (Return (rateLimitMap s), s).

Definition modifyRateLimitMap (f : JsMap.t (list Z) -> JsMap.t (list Z)) : M unit :=
  fun s => (Return tt, mkState (self s) (f (rateLimitMap s)) (world s)).

Definition getWorld : M World := fun s => (Return (world s), s).

Declare Scope js_scope.
Delimit Scope js_scope with js.
Notation "x <- c ;; k" := (bind c (fun x => k))
  (at level 100, c at next level, right associativity) : js_scope.
Notation "c ;; k" := (bind c (fun _ => k))
  (at level 100, right associativity) : js_scope.
Local Open Scope js_scope.

(** *** World calls *)

Definition log (e : Event) (w : World) : World :=
  mkWorld (clock w) (ticks w) (database w) (dbCalls w) (pool w) (poolCalls w)
          (llm w) (llmCalls w) (trace w ++ [e])%list.

(** [Date.now()] *)
Definition Date_now : M Z :=
  w <- getWorld ;;
  modifyWorld (fun w =>
    mkWorld (clock w) (S (ticks w)) (database w) (dbCalls w) (pool w) (poolCalls w)
            (llm w) (llmCalls w) (trace w)) ;;
  ret (clock w (ticks w)).

(** [await this.connectionPool.execute(sql, params)], destructured to its rows. *)
Definition pool_execute (sql : string) : M (list Row) :=
  w <- getWorld ;;
  modifyWorld (fun w =>
    log (EvExecute sql)
      (mkWorld (clock w) (ticks w) (database w) (S (dbCalls w)) (pool w) (poolCalls w)
               (llm w) (llmCalls w) (trace w))) ;;
  match database w (dbCalls w) sql with
  | DbRows rows => ret rows
  | DbError e => throw e
  end.

(** [await new Promise(resolve => setTimeout(resolve, ms))] *)
Definition sleep (ms : Z) : M unit := modifyWorld (log (EvSleep ms)).

(** [await this.connectionPool.end(); await this.initializeDatabase();] *)
Definition recreatePool : M unit :=
  w <- getWorld ;;
  modifyWorld (fun w =>
    mkWorld (clock w) (ticks w) (database w) (dbCalls w) (pool w) (S (poolCalls w))
            (llm w) (llmCalls w) (trace w)) ;;
  modifyWorld (log EvPoolEnd) ;;
  match pool w (poolCalls w) with
  | PoolEndFailed => throw (newError "pool end failed")
  | PoolInitFailed =>
      modifyWorld (log EvPoolInit) ;; throw (newError "pool initialization failed")
  | PoolRecreated => modifyWorld (log EvPoolInit)
  end.

(** [await this.model.generateContent(prompt)] followed by
    [(await result.response).text()].  The prompt only reaches the model,
    whose reply is arbitrary, so its text is not built. *)
Definition generateContent : M string :=
  w <- getWorld ;;
  modifyWorld (fun w =>
    log EvGenerate
      (mkWorld (clock w) (ticks w) (database w) (dbCalls w) (pool w) (poolCalls w)
               (llm w) (S (llmCalls w)) (trace w))) ;;
  match llm w (llmCalls w) with
  | LlmText text => ret text
  | LlmError e => throw e
  end.

(* ================================================================== *)
(** ** Execution with retry: [executeQuery] *)
(* ================================================================== *)

Definition maxRetries : nat := 3.

Definition codeIs (e : JsError) (c : string) : bool :=
  match code e with
  | Some c' => String.eqb c' c
  | None => false
  end.

(** [error.status === n] *)
Definition statusIs (e : JsError) (n : nat) : bool :=
  match status e with
  | Some n' => n' =? n
  | None => false
  end.

(** [error.code === 'ECONNRESET' || ... || error.code === 'EPIPE'] *)
Definition isConnectionError (error : JsError) : bool :=
  codeIs error "ECONNRESET" || codeIs error "PROTOCOL_CONNECTION_LOST"
  || codeIs error "ETIMEDOUT" || codeIs error "EPIPE".

(** The [while (retryCount < maxRetries)] loop of lines 74-107.  [fuel]
    bounds the number of iterations; a loop that ends without [return] makes
    the method return [undefined], which is [None]. *)
Fixpoint executeQuery_loop (fuel : nat) (retryCount : nat) (sql : string)
    : M (option (list Row)) :=
  match fuel with
  | O => ret None
  | S fuel' =>
      if retryCount <? maxRetries then
        try_catch
          (rows <- pool_execute sql ;;
           ret (Some rows))
          (fun error =>
             if isConnectionError error && (retryCount <? maxRetries - 1) then
               let retryCount := retryCount + 1 in
               sleep (2 ^ Z.of_nat retryCount * 1000)%Z ;;
               (if retryCount =? 2 then
                  try_catch recreatePool (fun poolError => ret tt)
                else ret tt) ;;
               executeQuery_loop fuel' retryCount sql
             else throw error)
      else ret None
  end.

Definition executeQuery (sql : string) : M (option (list Row)) :=
  executeQuery_loop (S maxRetries) 0 sql.

(* ================================================================== *)
(** ** Cache keys *)
(* ================================================================== *)

Definition base64Alphabet : string :=
  "ABCDEFGHIJKLMNOPQRSTUVWXYZabcdefghijklmnopqrstuvwxyz0123456789+/".

Definition base64Digit (n : nat) : ascii :=
  match String.get n base64Alphabet with
  | Some c => c
  | None => "="%char
  end.

(** [buffer.toString('base64')]: three bytes become four digits, the tail is
    padded with [=]. *)
Fixpoint base64 (bytes : string) : string :=
  match bytes with
  | EmptyString => EmptyString
  | String a EmptyString =>
      let a := nat_of_ascii a in
      String (base64Digit (a / 4))
        (String (base64Digit (a mod 4 * 16)) "==")
  | String a (String b EmptyString) =>
      let a := nat_of_ascii a in
      let b := nat_of_ascii b in
      String (base64Digit (a / 4))
        (String (base64Digit (a mod 4 * 16 + b / 16))
           (String (base64Digit (b mod 16 * 4)) "="))
  | String a (String b (String c rest)) =>
      let a := nat_of_ascii a in
      let b := nat_of_ascii b in
      let c := nat_of_ascii c in
      String (base64Digit (a / 4))
        (String (base64Digit (a mod 4 * 16 + b / 16))
           (String (base64Digit (b mod 16 * 4 + c / 64))
              (String (base64Digit (c mod 64)) (base64 rest))))
  end.

(** [Buffer.from(query).toString('base64').substring(0, 50)] *)
Definition generateCacheKey (query : string) : string :=
  substring0 50 (base64 query).

(* ================================================================== *)
(** ** Metrics and history *)
(* ================================================================== *)

Definition withCache (f : JsMap.t CacheEntry -> JsMap.t CacheEntry) (a : Agent) : Agent :=
  mkAgent (f (queryCache a)) (cacheTimeout a) (queryHistory a) (maxHistorySize a)
          (metrics a) (tableSchemas a).

Definition withHistory (f : list History.entry -> list History.entry) (a : Agent) : Agent :=
  mkAgent (queryCache a) (cacheTimeout a) (f (queryHistory a)) (maxHistorySize a)
          (metrics a) (tableSchemas a).

Definition withMetrics (f : Metrics -> Metrics) (a : Agent) : Agent :=
  mkAgent (queryCache a) (cacheTimeout a) (queryHistory a) (maxHistorySize a)
          (f (metrics a)) (tableSchemas a).

Definition incTotalQueries (m : Metrics) : Metrics :=
  mkMetrics (S (totalQueries m)) (successfulQueries m) (failedQueries m)
            (averageExecutionTime m) (cacheHits m).

Definition incSuccessfulQueries (m : Metrics) : Metrics :=
  mkMetrics (totalQueries m) (S (successfulQueries m)) (failedQueries m)
            (averageExecutionTime m) (cacheHits m).

Definition incFailedQueries (m : Metrics) : Metrics :=
  mkMetrics (totalQueries m) (successfulQueries m) (S (failedQueries m))
            (averageExecutionTime m) (cacheHits m).

Definition incCacheHits (m : Metrics) : Metrics :=
  mkMetrics (totalQueries m) (successfulQueries m) (failedQueries m)
            (averageExecutionTime m) (S (cacheHits m)).

(** [updateAverageExecutionTime(newTime)], lines 836-844.  The average is
    kept as the exact rational number; the code holds it as a double, rounded
    at each step.  No property of the development depends on its value. *)
Definition updateAverageExecutionTime (newTime : Z) : M unit :=
  modifySelf (withMetrics (fun m =>
    let n := successfulQueries m in
    let average :=
      if n =? 1 then inject_Z newTime
      else ((averageExecutionTime m * inject_Z (Z.of_nat n - 1) + inject_Z newTime)
            / inject_Z (Z.of_nat n))%Q in
    mkMetrics (totalQueries m) n (failedQueries m) average (cacheHits m))).

(** [addToQueryHistory(query, success, executionTime, rowCount, error)],
    lines 846-862.  The timestamp is a reading of the clock; the statement
    is cut after 200 UTF-16 code units. *)
Definition addToQueryHistory (query : string) (success : bool) (executionTime : Z)
    (rowCount : nat) (error : option string) : M unit :=
  now <- Date_now ;;
  let historyEntry :=
    History.mk now (substringUnits 200 query) success executionTime rowCount error in
  modifySelf (withHistory (fun h => (h ++ [historyEntry])%list)) ;;
  this <- getSelf ;;
  if maxHistorySize this <? length (queryHistory this)
  then modifySelf (withHistory (@tl _))
  else ret tt.

(* ================================================================== *)
(** ** Execution and cache layer: [executeSqlQuery] *)
(* ================================================================== *)

Module QueryResult.
(** The object [executeSqlQuery] returns; a field the object literal does
    not have is [None]. *)
Record t := mk {
  success : bool;
  data : option (list Row);
  executionTime : Z;
  fromCache : option bool;
  rowCount : option nat;
  error : option string;
  errorCode : option string
}.
End QueryResult.

Definition undefinedProperty (prop : string) : JsError :=
  mkError TypeError
    ("Cannot read properties of undefined (reading '" ++ prop ++ "')") None None.

(** The user-facing message chosen in the [catch] block, lines 672-679. *)
Definition friendlyMessage (error : JsError) : string :=
  if codeIs error "ER_NO_SUCH_TABLE" then
    "Table doesn't exist. Please check the table name. Available tables include: company, projects, contacts, teammembers, etc."
  else if codeIs error "ECONNRESET" || codeIs error "ETIMEDOUT" then
    "Database connection timeout. The query may be too complex or the database is temporarily unavailable."
  else if codeIs error "ER_BAD_FIELD_ERROR" then
    "Column doesn't exist. Please check the column name in the table schema."
  else message error.

(** The cache check of lines 613-628: [Some r] is the early [return r],
    [None] falls through to execution. *)
Definition cacheLookup (cacheKey : string) (useCache : bool) (startTime : Z)
    : M (option QueryResult.t) :=
  this <- getSelf ;;
  if useCache && JsMap.has cacheKey (queryCache this) then
    match JsMap.get cacheKey (queryCache this) with
    | None => throw (undefinedProperty "timestamp")
    | Some cachedData =>
        now <- Date_now ;;
        if (now - timestamp cachedData <? cacheTimeout this)%Z then
          modifySelf (withMetrics incCacheHits) ;;
          finish <- Date_now ;;
          ret (Some (QueryResult.mk true (Some (result cachedData))
                       (finish - startTime)%Z (Some true) None None None))
        else
          modifySelf (withCache (JsMap.delete cacheKey)) ;;
          ret None
    end
  else ret None.

(** Lines 636-647: store the rows, then drop the oldest key when the cache
    has grown past 100 entries. *)
Definition cacheStore (cacheKey : string) (useCache : bool) (rows : list Row) : M unit :=
  if useCache && (0 <? length rows) && (length rows <? 1000) then
    now <- Date_now ;;
    modifySelf (withCache (JsMap.set cacheKey (mkEntry rows now))) ;;
    this <- getSelf ;;
    if 100 <? JsMap.size (queryCache this) then
      match JsMap.firstKey (queryCache this) with
      | Some oldestKey => modifySelf (withCache (JsMap.delete oldestKey))
      | None => ret tt
      end
    else ret tt
  else ret tt.

(** Lines 630-662: run the statement, store and record the result. *)
Definition runAndRecord (query cacheKey : string) (useCache : bool) (startTime : Z)
    : M QueryResult.t :=
  rows <- executeQuery query ;;
  finish <- Date_now ;;
  let executionTime := (finish - startTime)%Z in
  match rows with
  | None =>
      (* [rows.length] on [undefined]: in the condition of line 636 when
         [useCache] holds, else in the arguments of line 654 *)
      if useCache then throw (undefinedProperty "length")
      else
        modifySelf (withMetrics incSuccessfulQueries) ;;
        updateAverageExecutionTime executionTime ;;
        throw (undefinedProperty "length")
  | Some rows =>
      cacheStore cacheKey useCache rows ;;
      modifySelf (withMetrics incSuccessfulQueries) ;;
      updateAverageExecutionTime executionTime ;;
      addToQueryHistory query true executionTime (length rows) None ;;
      ret (QueryResult.mk true (Some rows) executionTime (Some false)
             (Some (length rows)) None None)
  end.

(** The [catch] block, lines 664-687. *)
Definition reportFailure (query : string) (startTime : Z) (error : JsError)
    : M QueryResult.t :=
  finish <- Date_now ;;
  let executionTime := (finish - startTime)%Z in
  modifySelf (withMetrics incFailedQueries) ;;
  addToQueryHistory query false executionTime 0 (Some (message error)) ;;
  ret (QueryResult.mk false None executionTime None None
         (Some (friendlyMessage error)) (code error)).

(** [executeSqlQuery(query, useCache = true)], lines 608-688. *)
Definition executeSqlQuery (query : string) (useCache : bool) : M QueryResult.t :=
  startTime <- Date_now ;;
  modifySelf (withMetrics incTotalQueries) ;;
  try_catch
    (let cacheKey := generateCacheKey query in
     cached <- cacheLookup cacheKey useCache startTime ;;
     match cached with
     | Some hit => ret hit
     | None => runAndRecord query cacheKey useCache startTime
     end)
    (reportFailure query startTime).

(** [clearCache()], lines 887-890. *)
Definition clearCache : M unit :=
  modifySelf (withCache (fun _ => JsMap.empty)).

(* ================================================================== *)
(** ** More of the string runtime: white space, [trim], [split], patterns *)
(* ================================================================== *)

Module JsText.

Fixpoint ofBytes (l : list nat) : string :=
  match l with
  | [] => EmptyString
  | n :: rest => String (ascii_of_nat n) (ofBytes rest)
  end.

(** The characters [trim] strips and [\s] matches (WhiteSpace and
    LineTerminator of the language), in UTF-8. *)
Definition whiteSpace : list string :=
  map ofBytes
    [ [9]; [10]; [11]; [12]; [13]; [32]; [194; 160]; [225; 154; 128];
      [226; 128; 128]; [226; 128; 129]; [226; 128; 130]; [226; 128; 131];
      [226; 128; 132]; [226; 128; 133]; [226; 128; 134]; [226; 128; 135];
      [226; 128; 136]; [226; 128; 137]; [226; 128; 138]; [226; 128; 168];
      [226; 128; 169]; [226; 128; 175]; [226; 129; 159]; [227; 128; 128];
      [239; 187; 191] ].

Definition dropPrefix (n : nat) (s : string) : string :=
  substring n (String.length s - n) s.

(** Remove one occurrence of a pattern of [pats] from the head of [s]. *)
Fixpoint dropOne (pats : list string) (s : string) : option string :=
  match pats with
  | [] => None
  | p :: rest =>
      if prefix p s then Some (dropPrefix (String.length p) s) else dropOne rest s
  end.

Fixpoint dropAll (fuel : nat) (pats : list string) (s : string) : string :=
  match fuel with
  | O => s
  | S fuel' =>
      match dropOne pats s with
      | Some s' => dropAll fuel' pats s'
      | None => s
      end
  end.

Fixpoint reverse (s : string) : string :=
  match s with
  | EmptyString => EmptyString
  | String c s' => reverse s' ++ String c EmptyString
  end.

(** Leading white space removed: what [\s*] consumes. *)
Definition skipSpace (s : string) : string := dropAll (String.length s) whiteSpace s.

Definition trimEnd (s : string) : string :=
  reverse (dropAll (String.length s) (map reverse whiteSpace) (reverse s)).

(** [s.trim()] *)
Definition trim (s : string) : string := trimEnd (skipSpace s).

(** [s.split(sep)] for a one-character separator. *)
Fixpoint split (sep : ascii) (s : string) : list string :=
  match s with
  | EmptyString => [EmptyString]
  | String c rest =>
      if Ascii.eqb c sep then EmptyString :: split sep rest
      else match split sep rest with
           | [] => [String c EmptyString]
           | part :: parts => String c part :: parts
           end
  end.

(** [s.replace(/```sql\s*|\s*```/g, '')] *)
Fixpoint stripFences (fuel : nat) (s : string) : string :=
  match fuel with
  | O => s
  | S fuel' =>
      if prefix "```sql" s then stripFences fuel' (skipSpace (dropPrefix 6 s))
      else if prefix "```" (skipSpace s) then stripFences fuel' (dropPrefix 3 (skipSpace s))
      else match s with
           | EmptyString => EmptyString
           | String c rest => String c (stripFences fuel' rest)
           end
  end.

(** [s.replace(/^sql\s*/i, '')] *)
Definition stripSqlTag (s : string) : string :=
  if String.eqb (asciiLower (substring 0 3 s)) "sql"
  then skipSpace (dropPrefix 3 s)
  else s.

(** [s.replace(/```/g, '')] *)
Fixpoint stripTicks (fuel : nat) (s : string) : string :=
  match fuel with
  | O => s
  | S fuel' =>
      if prefix "```" s then stripTicks fuel' (dropPrefix 3 s)
      else match s with
           | EmptyString => EmptyString
           | String c rest => String c (stripTicks fuel' rest)
           end
  end.

(** [\w] *)
Definition isWordChar (c : ascii) : bool :=
  let n := nat_of_ascii c in
  ((48 <=? n) && (n <=? 57)) || ((65 <=? n) && (n <=? 90))
  || ((97 <=? n) && (n <=? 122)) || (n =? 95).

Definition boundaryBefore (prev : option ascii) : bool :=
  match prev with
  | None => true
  | Some c => negb (isWordChar c)
  end.

Definition boundaryAfter (s : string) : bool :=
  match s with
  | EmptyString => true
  | String c _ => negb (isWordChar c)
  end.

Definition lastChar (s : string) (default : option ascii) : option ascii :=
  match reverse s with
  | EmptyString => default
  | String c _ => Some c
  end.

(** [s.replace(new RegExp(`\\b${word}\\b`, 'gi'), replacement)] for a word
    made of word characters; [prev] is the character before [s]. *)
Fixpoint replaceWord (fuel : nat) (word replacement : string)
    (prev : option ascii) (s : string) : string :=
  match fuel with
  | O => s
  | S fuel' =>
      let n := String.length word in
      if boundaryBefore prev
         && String.eqb (asciiLower (substring 0 n s)) (asciiLower word)
         && boundaryAfter (dropPrefix n s)
      then replacement
           ++ replaceWord fuel' word replacement (lastChar word prev) (dropPrefix n s)
      else match s with
           | EmptyString => EmptyString
           | String c rest =>
               String c (replaceWord fuel' word replacement (Some c) rest)
           end
  end.

(** [array.includes(x)] on an array of strings. *)
Definition arrayIncludes (l : list string) (x : string) : bool :=
  existsb (String.eqb x) l.

(** [set.add(x)] on a [Set] kept in insertion order. *)
Definition setAdd (x : string) (s : list string) : list string :=
  if arrayIncludes s x then s else (s ++ [x])%list.

End JsText.

Import JsText.


(* ================================================================== *)
(** ** Objects used as dictionaries *)
(* ================================================================== *)

(** An object literal is a list of own properties in insertion order
    ([Object.entries], [Object.keys]); reading [obj[key]] also finds what the
    object inherits from [Object.prototype]. *)
Module JsObject.

Definition objectPrototype : list string :=
  [ "constructor"; "__defineGetter__"; "__defineSetter__"; "hasOwnProperty";
    "__lookupGetter__"; "__lookupSetter__"; "isPrototypeOf";
    "propertyIsEnumerable"; "toString"; "valueOf"; "__proto__";
    "toLocaleString" ].

Inductive property (V : Type) :=
| Own (v : V)        (* a property of the literal *)
| Inherited          (* a member of Object.prototype: a truthy value *)
| Missing.           (* undefined *)
Arguments Own {V} v.
Arguments Inherited {V}.
Arguments Missing {V}.

Fixpoint own {V : Type} (obj : list (string * V)) (key : string) : option V :=
  match obj with
  | [] => None
  | (k, v) :: rest => if String.eqb k key then Some v else own rest key
  end.

(** [obj[key]] *)
Definition get {V : Type} (obj : list (string * V)) (key : string) : property V :=
  match own obj key with
  | Some v => Own v
  | None => if arrayIncludes objectPrototype key then Inherited else Missing
  end.

End JsObject.

(* ================================================================== *)
(** ** Category mapping *)
(* ================================================================== *)

Module CategoryData.
Record t := mk {
  tables : list string;
  keywords : list string
}.
End CategoryData.

(** [getCategoryMapping()], lines 185-278. *)
Definition getCategoryMapping : list (string * CategoryData.t) :=
  [ ("Company / Organization",
     CategoryData.mk
       [ "company"; "platformconfig"; "user_company_relations";
         "system_country_currency"; "system_role"; "system_status";
         "system_type"; "system_survey_template"; "countries";
         "platformusers"; "permissions"; "loginhistory" ]
       [ "company"; "organization"; "config"; "system"; "country"; "currency";
         "platform"; "user" ]);
    ("Users / Teams",
     CategoryData.mk
       [ "contacts"; "contacts_backup_20250211"; "contactsalary";
         "teammembers"; "teammembers_bkup20241029"; "teammembers_stage";
         "platformusers"; "permissions"; "loginhistory";
         "recentlyviewed"; "roles"; "rolefeatures" ]
       [ "user"; "contact"; "team"; "member"; "role"; "permission"; "login";
         "salary"; "employee" ]);
    ("Projects",
     CategoryData.mk
       [ "projects"; "projectmilestones"; "portfolio_projects_rel"; "portfolios";
         "projectfinancialdaily"; "s_projects"; "temp_projectlist";
         "master_case_project"; "master_case_project_backup_20250219" ]
       [ "project"; "milestone"; "portfolio"; "financial"; "budget"; "case" ]);
    ("Timesheets",
     CategoryData.mk
       [ "timesheetdata"; "timesheets"; "timesheetsraw"; "timesheettasks";
         "timesheettaskscache"; "timesheetuploadlog"; "x_timesheet";
         "s_teammembers" ]
       [ "timesheet"; "time"; "hours"; "task"; "upload"; "raw"; "effort" ]);
    ("Reports / Summaries",
     CategoryData.mk
       [ "consolidated_summary"; "mod_consolidated_summary"; "reconciliations";
         "master_sheets"; "master_sheets_data"; "activitylogs"; "alerts";
         "notes"; "naggingdetails"; "master_project_ai_summary";
         "master_project_ai_summary_sections"; "master_project_ai_summary_source";
         "master_project_summarizer_logs";
         "master_project_summarizer_logs_bkup20241008" ]
       [ "summary"; "report"; "consolidated"; "reconciliation"; "alert"; "note";
         "activity"; "sheet" ]);
    ("AI / Interactions",
     CategoryData.mk
       [ "interactions"; "interactions_artifacts"; "interactions_sent";
         "master_ai_configurations"; "master_ai_llm_logs"; "master_ai_request";
         "master_ai_knowledge_base"; "master_project_ai_assessment";
         "master_project_ai_interaction"; "master_interactions";
         "master_interactions_qa" ]
       [ "ai"; "interaction"; "artifact"; "llm"; "assessment"; "configuration";
         "knowledge" ]);
    ("Cases",
     CategoryData.mk
       [ "case"; "master_case"; "master_case_project";
         "master_case_project_backup_20250219" ]
       [ "case"; "legal"; "issue"; "claim" ]);
    ("Documents",
     CategoryData.mk
       [ "documents"; "master_document_type_mapping" ]
       [ "document"; "file"; "upload"; "attachment"; "doc" ]);
    ("Surveys",
     CategoryData.mk
       [ "master_survey"; "master_survey_answer"; "master_survey_answer_batch";
         "master_survey_assignment"; "master_survey_control";
         "system_survey_question"; "get_survey_responses";
         "batchupload_survey_responses"; "vw_survey";
         "master_survey_backup_20250219"; "master_survey_bkup20241008";
         "master_survey_bkup20250129"; "master_survey_answer_bkup20241008";
         "master_survey_answer_bkup20250129";
         "master_survey_control_backup_20250219";
         "master_survey_control_bkup20241008" ]
       [ "survey"; "question"; "answer"; "response"; "assignment"; "batch" ]);
    ("Financial / Dynamics",
     CategoryData.mk
       [ "projectfinancialdaily"; "contactsalary"; "trd365_account_fiscal";
         "trd365_accounts"; "trd365_country"; "trd365_project_fiscal";
         "trd365_project_fiscal_resources"; "trd365_projects"; "trd365_resources" ]
       [ "financial"; "fiscal"; "account"; "salary"; "cost"; "revenue";
         "dynamics"; "365" ]);
    ("Mappings / Configurations",
     CategoryData.mk
       [ "mapping"; "master_company_mail_configuration"; "master_company_mapper";
         "master_mapper"; "master_mapper_attributes"; "workflow";
         "master_intent"; "master_intent_framework";
         "master_intent_framework_company" ]
       [ "mapping"; "mapper"; "config"; "workflow"; "intent"; "framework"; "mail" ])
  ].

Module Selection.
(** What [selectCategory] returns; [tables] is [None] when the property
    read to fill it was [undefined]. *)
Record t := mk {
  category : string;
  tables : option (list string)
}.
End Selection.

(** The inner loop of [selectCategory], lines 290-297. *)
Definition keywordScore (questionLower : string) (keywords : list string) : nat :=
  fold_left
    (fun score keyword =>
       if includes questionLower keyword then score + String.length keyword else score)
    keywords 0.

(** The outer loop, lines 287-302: [(bestMatch.category, bestMatch.score)]. *)
Definition bestMatch (questionLower : string) (categories : list (string * CategoryData.t))
    : option string * nat :=
  fold_left
    (fun best entry =>
       let score := keywordScore questionLower (CategoryData.keywords (snd entry)) in
       if snd best <? score then (Some (fst entry), score) else best)
    categories (None, 0).

(** [categories[name].tables] *)
Definition tablesOf (categories : list (string * CategoryData.t)) (name : string)
    : option (list string) :=
  match JsObject.get categories name with
  | JsObject.Own categoryData => Some (CategoryData.tables categoryData)
  | _ => None
  end.

(* ================================================================== *)
(** ** Table selection data *)
(* ================================================================== *)

(** [keywordTableMap], lines 340-365. *)
Definition keywordTableMap : list (string * list string) :=
  [ ("company", ["company"]);
    ("companies", ["company"]);
    ("organization", ["company"]);
    ("project", ["projects"]);
    ("projects", ["projects"]);
    ("contact", ["contacts"]);
    ("contacts", ["contacts"]);
    ("user", ["contacts"; "platformusers"]);
    ("users", ["contacts"; "platformusers"]);
    ("team", ["teammembers"]);
    ("teams", ["teammembers"]);
    ("timesheet", ["timesheettasks"; "timesheets"]);
    ("timesheets", ["timesheettasks"; "timesheets"]);
    ("survey", ["master_survey"; "master_survey_answer"]);
    ("surveys", ["master_survey"; "master_survey_answer"]);
    ("summary", ["master_project_ai_summary"; "consolidated_summary"]);
    ("summaries", ["master_project_ai_summary"; "consolidated_summary"]);
    ("financial", ["projectfinancialdaily"; "contactsalary"]);
    ("cost", ["projectfinancialdaily"]);
    ("salary", ["contactsalary"]);
    ("document", ["documents"]);
    ("documents", ["documents"]);
    ("case", ["master_case"; "master_case_project"]);
    ("cases", ["master_case"; "master_case_project"]) ].

(** Lines 368-376: the tables named by the keywords found in the question,
    kept when they are available. *)
Definition directMatches (questionLower : string) (availableTables : list string)
    : list string :=
  fold_left
    (fun selectedTables entry =>
       if includes questionLower (fst entry) then
         fold_left
           (fun selected table =>
              if arrayIncludes availableTables table then setAdd table selected
              else selected)
           (snd entry) selectedTables
       else selectedTables)
    keywordTableMap [].

(** [tableScores.sort((a, b) => b.score - a.score)]: a stable sort by
    decreasing score. *)
Fixpoint insertByScore (x : string * nat) (sorted : list (string * nat))
    : list (string * nat) :=
  match sorted with
  | [] => [x]
  | y :: rest =>
      if snd y <? snd x then x :: y :: rest else y :: insertByScore x rest
  end.

Definition sortByScore (tableScores : list (string * nat)) : list (string * nat) :=
  fold_left (fun sorted x => insertByScore x sorted) tableScores [].

(** [correctMappings], lines 523-528. *)
Definition correctMappings : list (string * string) :=
  [ ("companies", "company");
    ("users", "contacts");
    ("employees", "contacts");
    ("timesheets_data", "timesheetdata") ].

(** Lines 517-519 and 530-533: the clean-up of the model's reply. *)
Definition cleanQuery (text : string) : string :=
  let query := trim text in
  let query := trim (stripFences (S (String.length query)) query) in
  let query := trim (stripSqlTag query) in
  let query := trim (stripTicks (S (String.length query)) query) in
  fold_left
    (fun query mapping =>
       replaceWord (S (String.length query)) (fst mapping) (snd mapping) None query)
    correctMappings query.

(** The arrays a method body can name: a parameter list, as (identifier,
    value) pairs.  Reading an identifier that is bound nowhere throws. *)
Definition resolve (scope : list (string * list string)) (identifier : string)
    : Outcome (list string) :=
  match JsObject.own scope identifier with
  | Some v => Return v
  | None => Throw (mkError ReferenceError (identifier ++ " is not defined") None None)
  end.

(** [relevantTables[0] || 'company'] *)
Definition firstTableOr (relevantTables : list string) (fallback : string) : string :=
  match relevantTables with
  | [] => fallback
  | table :: _ => if String.eqb table EmptyString then fallback else table
  end.

Module Answer.
(** What [processQuestion] returns; the failure object has only
    [success], [question], [error] and [response]. *)
Record t := mk {
  success : bool;
  question : string;
  category : option string;
  tables : option (list string);
  query : option string;
  executionTime : option Z;
  rowCount : option nat;
  fromCache : option bool;
  response : string;
  error : option string
}.
End Answer.

(* ================================================================== *)
(** ** The [/query] route *)
(* ================================================================== *)

Module Http.

(** The parts of the request the handler reads.  [question] is [None]
    when the body has no [question] or one that is not a string. *)
Record request := mkRequest {
  question : option string;
  includeQuery : bool;
  ip : string;
  rateLimitBypass : bool
}.

Record payload := mkPayload {
  p_question : string;
  p_response : string;
  p_category : option string;
  p_tables : option (list string);
  p_executionTime : option Z;
  p_rowCount : option nat;
  p_fromCache : option bool;
  p_sqlQuery : option string
}.

Record response := mkResponse {
  statusCode : nat;
  success : bool;
  message : string;
  data : option payload;
  error : option string;
  timestamp : Z
}.

End Http.

Definition RATE_LIMIT_WINDOW : Z := 60000.
Definition RATE_LIMIT_MAX_REQUESTS : nat := 10.

(** [isRateLimited(ip)], routes lines 429-456. *)
Definition isRateLimited (ip : string) : M bool :=
  now <- Date_now ;;
  rateLimit <- getRateLimitMap ;;
  let userRequests :=
    match JsMap.get ip rateLimit with
    | Some requests => requests
    | None => []
    end in
  let validRequests :=
    filter (fun timestamp => (now - timestamp <? RATE_LIMIT_WINDOW)%Z) userRequests in
  if RATE_LIMIT_MAX_REQUESTS <=? length validRequests then ret true
  else
    modifyRateLimitMap (JsMap.set ip (validRequests ++ [now])%list) ;;
    rateLimit <- getRateLimitMap ;;
    (if 1000 <? JsMap.size rateLimit then
       let cutoff := (now - RATE_LIMIT_WINDOW)%Z in
       modifyRateLimitMap
         (fun m =>
            flat_map
              (fun entry =>
                 let validRequests :=
                   filter (fun timestamp => (cutoff <? timestamp)%Z) (snd entry) in
                 match validRequests with
                 | [] => []
                 | _ => [(fst entry, validRequests)]
                 end)
              m)
     else ret tt) ;;
    ret false.

Section Agent.

Variable toUpperCase : string -> string.
Variable toLowerCase : string -> string.

(** [selectCategory(question)], lines 283-330. *)
Definition selectCategory (question : string) : M Selection.t :=
  let categories := getCategoryMapping in
  let questionLower := toLowerCase question in
  let best := bestMatch questionLower categories in
  classified <-
    (if snd best =? 0 then
       try_catch
         (text <- generateContent ;;
          let categoryName := trim text in
          match JsObject.get categories categoryName with
          | JsObject.Missing => ret None
          | _ => ret (Some (Selection.mk categoryName (tablesOf categories categoryName)))
          end)
         (fun error => ret None)
     else ret None) ;;
  match classified with
  | Some selection => ret selection
  | None =>
      match fst best with
      | Some category => ret (Selection.mk category (tablesOf categories category))
      | None =>
          this <- getSelf ;;
          ret (Selection.mk "General" (Some (JsMap.keys (tableSchemas this))))
      end
  end.

(** Lines 382-420: the score of one candidate table. *)
Definition tableScore (questionLower tableName : string) (schema : TableSchema) : nat :=
  let score :=
    if includes questionLower (toLowerCase tableName) then 20 else 0 in
  let tableNameParts := split "_" (toLowerCase tableName) in
  let score :=
    fold_left
      (fun score part =>
         if includes questionLower part && (3 <? lengthUnits part)
         then score + 10 else score)
      tableNameParts score in
  fold_left
    (fun score column =>
       let columnName := toLowerCase (COLUMN_NAME column) in
       let score := if includes questionLower columnName then score + 8 else score in
       let score :=
         if includes columnName "name" && includes questionLower "name"
         then score + 5 else score in
       if includes columnName "count"
          && (includes questionLower "how many" || includes questionLower "count")
       then score + 5 else score)
    (columns schema) score.

Definition tableScores (this : Agent) (questionLower : string)
    (availableTables : list string) : list (string * nat) :=
  fold_left
    (fun scores tableName =>
       match JsMap.get tableName (tableSchemas this) with
       | None => scores
       | Some schema =>
           let score := tableScore questionLower tableName schema in
           if 0 <? score then (scores ++ [(tableName, score)])%list else scores
       end)
    availableTables [].

(** [selectTables(question, availableTables)], lines 335-446.
    [availableTables] is [None] when the caller passes [undefined]. *)
Definition selectTables (question : string) (availableTables : option (list string))
    : M (list string) :=
  let questionLower := toLowerCase question in
  match availableTables with
  | None =>
      if existsb (fun entry => includes questionLower (fst entry)) keywordTableMap
      then throw (undefinedProperty "includes")
      else throw (mkError TypeError "availableTables is not iterable" None None)
  | Some availableTables =>
      this <- getSelf ;;
      let selectedTables := directMatches questionLower availableTables in
      let selectedTables :=
        if length selectedTables =? 0 then
          fold_left (fun selected entry => setAdd (fst entry) selected)
            (firstn 3 (sortByScore (tableScores this questionLower availableTables)))
            selectedTables
        else selectedTables in
      let selectedTables :=
        if (includes questionLower "project" || includes questionLower "how many")
           && arrayIncludes availableTables "projects"
        then setAdd "projects" selectedTables
        else selectedTables in
      let selectedTables :=
        if (length selectedTables =? 0) && (0 <? length availableTables)
        then match availableTables with
             | first :: _ => setAdd first selectedTables
             | [] => selectedTables
             end
        else selectedTables in
      ret (firstn 3 selectedTables)
  end.

(** [getSchemaInfo(tableNames)], lines 451-474. *)
Definition getSchemaInfo (this : Agent) (tableNames : list string) : string :=
  fold_left
    (fun schemaInfo tableName =>
       match JsMap.get tableName (tableSchemas this) with
       | None => schemaInfo
       | Some schema =>
           let schemaInfo := schemaInfo ++ nl ++ "Table: " ++ tableName ++ nl in
           let schemaInfo :=
             if String.eqb (comment schema) EmptyString then schemaInfo
             else schemaInfo ++ "Description: " ++ comment schema ++ nl in
           let schemaInfo := schemaInfo ++ "Columns:" ++ nl in
           fold_left
             (fun schemaInfo column =>
                let line :=
                  "  - " ++ COLUMN_NAME column ++ " (" ++ DATA_TYPE column ++ ")" in
                let line :=
                  if String.eqb (COLUMN_KEY column) "PRI"
                  then line ++ " [PRIMARY KEY]" else line in
                let line :=
                  if String.eqb (COLUMN_KEY column) "MUL"
                  then line ++ " [FOREIGN KEY]" else line in
                let line :=
                  if String.eqb (COLUMN_COMMENT column) EmptyString then line
                  else line ++ " // " ++ COLUMN_COMMENT column in
                schemaInfo ++ line ++ nl)
             (columns schema) schemaInfo
       end)
    tableNames EmptyString.

(** [generateFallbackQuery(question, relevantTables)], lines 552-577. *)
Definition generateFallbackQuery (question : string) (relevantTables : list string)
    : string :=
  let questionLower := toLowerCase question in
  if includes questionLower "summary"
     && arrayIncludes relevantTables "master_project_ai_summary"
  then "SELECT projectId, summary FROM master_project_ai_summary WHERE status = "
       ++ dq ++ "active" ++ dq ++ " LIMIT 10"
  else if includes questionLower "how many" || includes questionLower "count"
  then "SELECT COUNT(*) as count FROM " ++ firstTableOr relevantTables "company"
  else
    let fallthrough := "SELECT * FROM " ++ firstTableOr relevantTables "company" ++ " LIMIT 5" in
    if includes questionLower "list" || includes questionLower "show" then
      let table := firstTableOr relevantTables "company" in
      if String.eqb table "company"
      then "SELECT companyId, companyName, status FROM company LIMIT 20"
      else if String.eqb table "project"
      then "SELECT projectId, projectName, projectStatus FROM project LIMIT 20"
      else fallthrough
    else fallthrough.

(** [generateSqlQuery(question, tableNames, schemaInfo)], lines 479-547.
    [schemaInfo] only enters the prompt.  In the [catch] block the call
    [this.generateFallbackQuery(question, relevantTables)] reads the
    identifier [relevantTables]; the bindings it can see are the
    parameters of this method. *)
Definition generateSqlQuery (question : string) (tableNames : list string)
    (schemaInfo : string) : M string :=
  let scope := [("tableNames", tableNames)] in
  try_catch
    (text <- generateContent ;;
     ret (cleanQuery text))
    (fun error =>
       if statusIs error 429 then
         relevantTables <- lift (resolve scope "relevantTables") ;;
         ret (generateFallbackQuery question relevantTables)
       else throw (newError "Failed to generate SQL query")).

(** [generateResponse(question, query, queryResult)], lines 693-738. *)
Definition generateResponse (question query : string) (queryResult : QueryResult.t)
    : M string :=
  if negb (QueryResult.success queryResult) then
    ret ("I encountered an error while executing your query: "
         ++ match QueryResult.error queryResult with
            | Some e => e
            | None => "undefined"
            end
         ++ ". Please try rephrasing your question or contact support if the issue persists.")
  else
    match QueryResult.data queryResult with
    | None | Some [] =>
        ret ("I couldn't find any data matching your question: " ++ dq ++ question ++ dq
             ++ ". The query executed successfully but returned no results.")
    | Some data =>
        try_catch
          (text <- generateContent ;;
           let answer := trim text in
           ret (if (1000 <? QueryResult.executionTime queryResult)%Z
                then answer ++ nl ++ nl ++ "*Query executed in "
                     ++ showZ (QueryResult.executionTime queryResult) ++ "ms*"
                else answer))
          (fun error =>
             ret ("I found " ++ showNat (length data)
                  ++ " records matching your question, but I'm having trouble interpreting the results. Please contact support for assistance."))
    end.

(** [processQuestion(question)], lines 743-792. *)
Definition processQuestion (question : string) : M Answer.t :=
  try_catch
    (categoryResult <- selectCategory question ;;
     selectedTables <- selectTables question (Selection.tables categoryResult) ;;
     this <- getSelf ;;
     let schemaInfo := getSchemaInfo this selectedTables in
     sqlQuery <- generateSqlQuery question selectedTables schemaInfo ;;
     optimizedQuery <- lift (validateAndOptimizeQuery toUpperCase sqlQuery) ;;
     queryResult <- executeSqlQuery optimizedQuery true ;;
     response <- generateResponse question optimizedQuery queryResult ;;
     ret (Answer.mk true question
            (Some (Selection.category categoryResult))
            (Some selectedTables)
            (Some optimizedQuery)
            (Some (QueryResult.executionTime queryResult))
            (Some match QueryResult.rowCount queryResult with
                  | Some n => n
                  | None => 0
                  end)
            (Some match QueryResult.fromCache queryResult with
                  | Some b => b
                  | None => false
                  end)
            response None))
    (fun error =>
       ret (Answer.mk false question None None None None None None
              ("I'm sorry, I encountered an error while processing your question: "
               ++ dq ++ question ++ dq
               ++ ". Please try rephrasing your question or contact support if the issue persists.")
              (Some (message error)))).

(** [router.post('/query', ...)], routes lines 72-137, from the point where
    the agent instance exists. *)
Definition postQuery (req : Http.request) : M Http.response :=
  try_catch
    (let invalid :=
       match Http.question req with
       | None => true
       | Some question =>
           String.eqb question EmptyString || (String.length (trim question) =? 0)
       end in
     match Http.question req with
     | Some question =>
         if invalid then
           timestamp <- Date_now ;;
           ret (Http.mkResponse 400 false
                  "Question is required and must be a non-empty string"
                  None None timestamp)
         else
           limited <-
             (if Http.rateLimitBypass req then ret false
              else isRateLimited (Http.ip req)) ;;
           if limited then
             timestamp <- Date_now ;;
             ret (Http.mkResponse 429 false
                    "Too many requests. Please wait before making another query."
                    None None timestamp)
           else
             result <- processQuestion (trim question) ;;
             timestamp <- Date_now ;;
             let sqlQuery :=
               if Http.includeQuery req && Answer.success result then
                 match Answer.query result with
                 | Some query => if String.eqb query EmptyString then None else Some query
                 | None => None
                 end
               else None in
             let error :=
               if negb (Answer.success result) then
                 match Answer.error result with
                 | Some e => if String.eqb e EmptyString then None else Some e
                 | None => None
                 end
               else None in
             let statusCode := if Answer.success result then 200 else 400 in
             ret (Http.mkResponse statusCode (Answer.success result)
                    (if Answer.success result then "Query processed successfully"
                     else "Query processing failed")
                    (Some (Http.mkPayload (Answer.question result)
                             (Answer.response result) (Answer.category result)
                             (Answer.tables result) (Answer.executionTime result)
                             (Answer.rowCount result) (Answer.fromCache result)
                             sqlQuery))
                    error timestamp)
     | None =>
         timestamp <- Date_now ;;
         ret (Http.mkResponse 400 false
                "Question is required and must be a non-empty string"
                None None timestamp)
     end)
    (fun error =>
       timestamp <- Date_now ;;
       ret (Http.mkResponse 500 false "Internal server error while processing query"
              None (Some (message error)) timestamp)).

End Agent.

(* ================================================================== *)
(** ** The health check and the other routes *)
(* ================================================================== *)

Module Health.
(** What [healthCheck] returns; the unhealthy object has only [success],
    [status], [error] and [timestamp]. *)
Record t := mk {
  success : bool;
  status : string;
  database : option string;
  llm : option string;
  agent : option string;
  metrics : option Metrics;
  cacheSize : option nat;
  tablesLoaded : option nat;
  error : option string;
  timestamp : Z
}.
End Health.

(** [healthCheck()], lines 797-827.  The model's answer to the test message
    is awaited and dropped. *)
Definition healthCheck : M Health.t :=
  try_catch
    (testResult <- executeQuery "SELECT 1 as test" ;;
     testResponse <- generateContent ;;
     this <- getSelf ;;
     timestamp <- Date_now ;;
     ret (Health.mk true "healthy" (Some "connected") (Some "available") (Some "running")
            (Some (metrics this)) (Some (JsMap.size (queryCache this)))
            (Some (JsMap.size (tableSchemas this))) None timestamp))
    (fun error =>
       timestamp <- Date_now ;;
       ret (Health.mk false "unhealthy" None None None None None None
              (Some (message error)) timestamp)).

Module Reply.
(** The JSON a route sends, with its status. *)
Record t (D : Type) := mk {
  statusCode : nat;
  success : bool;
  message : string;
  data : option D;
  error : option string;
  timestamp : Z
}.
Arguments mk {D} statusCode success message data error timestamp.
Arguments statusCode {D} t.
Arguments success {D} t.
Arguments message {D} t.
Arguments data {D} t.
Arguments error {D} t.
Arguments timestamp {D} t.
End Reply.

(** [router.get('/health', ...)], routes lines 31-60. *)
Definition getHealth : M (Reply.t Health.t) :=
  try_catch
    (healthStatus <- healthCheck ;;
     timestamp <- Date_now ;;
     if Health.success healthStatus then
       ret (Reply.mk 200 true "Advanced SQL Agent is healthy" (Some healthStatus) None
              timestamp)
     else
       ret (Reply.mk 503 false "Advanced SQL Agent is unhealthy" None
              (Health.error healthStatus) timestamp))
    (fun error =>
       timestamp <- Date_now ;;
       ret (Reply.mk 500 false "Health check failed" None (Some (message error)) timestamp)).

Module Direct.
(** The parts of a [/direct-sql] request the handler reads.  [isAdmin]
    says that [req.user] exists and is an administrator; [query] is [None]
    when the body has no [query] or one that is not a string; [useCache] is
    [false] when the body does not set it. *)
Record request := mkRequest {
  isAdmin : bool;
  query : option string;
  useCache : bool
}.

Record payload := mkPayload {
  p_query : string;
  p_results : option (list Row);
  p_executionTime : Z;
  p_rowCount : option nat;
  p_fromCache : option bool
}.
End Direct.

Module Chat.
(** The parts of a [/chat] request the handler reads.  [context] is what
    the body holds under that name: [ContextNull] for [null], on which
    reading a field throws; otherwise the two fields the handler reads, each
    the string it holds or [None] when it is absent.  A body without a
    context, or with one that is not an object, reads as a context without
    fields (the default of line 349, and a primitive has neither field). *)
Inductive contextValue :=
| ContextNull
| ContextObject (companyName projectName : option string).

Record request := mkRequest {
  message : option string;
  context : contextValue
}.

Record payload := mkPayload {
  p_response : string;
  p_querySuccessful : bool;
  p_category : option string;
  p_tables : option (list string);
  p_executionTime : option Z;
  p_rowCount : option nat;
  p_fromCache : option bool
}.
End Chat.





(** [router.post('/clear-cache', ...)], routes lines 261-290. *)
Definition postClearCache (isAdmin : bool) : M (Reply.t unit) :=
  try_catch
    (if negb isAdmin then
       timestamp <- Date_now ;;
       ret (Reply.mk 403 false "Access denied. Admin privileges required." None None
              timestamp)
     else
       result <- clearCache ;;
       timestamp <- Date_now ;;
       ret (Reply.mk 200 true "Cache cleared successfully" (Some result) None timestamp))
    (fun error =>
       timestamp <- Date_now ;;
       ret (Reply.mk 500 false "Error clearing cache" None (Some (message error)) timestamp)).

Section Routes.

Variable toUpperCase : string -> string.
Variable toLowerCase : string -> string.

(** [router.post('/direct-sql', ...)], routes lines 148-217. *)
Definition postDirectSql (req : Direct.request) : M (Reply.t Direct.payload) :=
  try_catch
    (if negb (Direct.isAdmin req) then
       timestamp <- Date_now ;;
       ret (Reply.mk 403 false "Access denied. Admin privileges required." None None
              timestamp)
     else
       let invalid :=
         match Direct.query req with
         | None => true
         | Some query =>
             String.eqb query EmptyString || (String.length (trim query) =? 0)
         end in
       match Direct.query req with
       | Some query =>
           if invalid then
             timestamp <- Date_now ;;
             ret (Reply.mk 400 false
                    "SQL query is required and must be a non-empty string"
                    None None timestamp)
           else
             try_catch
               (validatedQuery <- lift (validateAndOptimizeQuery toUpperCase (trim query)) ;;
                result <- executeSqlQuery validatedQuery (Direct.useCache req) ;;
                timestamp <- Date_now ;;
                if QueryResult.success result then
                  ret (Reply.mk 200 true "Query executed successfully"
                         (Some (Direct.mkPayload validatedQuery
                                  (QueryResult.data result)
                                  (QueryResult.executionTime result)
                                  (QueryResult.rowCount result)
                                  (QueryResult.fromCache result)))
                         None timestamp)
                else
                  ret (Reply.mk 400 false "Query execution failed" None
                         (QueryResult.error result) timestamp))
               (fun validationError =>
                  timestamp <- Date_now ;;
                  ret (Reply.mk 400 false "Query validation failed" None
                         (Some (message validationError)) timestamp))
       | None =>
           timestamp <- Date_now ;;
           ret (Reply.mk 400 false
                  "SQL query is required and must be a non-empty string"
                  None None timestamp)
       end)
    (fun error =>
       timestamp <- Date_now ;;
       ret (Reply.mk 500 false "Internal server error while executing query" None
              (Some (message error)) timestamp)).


End Routes.

(* ================================================================== *)
(** ** Vocabulary of the properties *)
(* ================================================================== *)

(** [p] occurs in [s]. *)
Definition Substring (p s : string) : Prop :=
  exists before after, s = before ++ p ++ after.

(** The backoff delays in a trace, in the order they were waited for. *)
Definition delays (t : list Event) : list Z :=
  flat_map (fun e => match e with EvSleep ms => [ms] | _ => [] end) t.

(** The statements sent to the database in a trace. *)
Definition executions (t : list Event) : list string :=
  flat_map (fun e => match e with EvExecute sql => [sql] | _ => [] end) t.

(** The cache as an unsuccessful look-up leaves it: an expired entry under
    the key has been deleted. *)
Definition afterLookup (cacheKey : string) (useCache : bool)
    (cache : JsMap.t CacheEntry) : JsMap.t CacheEntry :=
  if useCache && JsMap.has cacheKey cache then JsMap.delete cacheKey cache else cache.

(** The cache after lines 637-646: the entry is stored, then the oldest key
    is dropped if the size has passed 100. *)
Definition afterStore (cacheKey : string) (entry : CacheEntry)
    (cache : JsMap.t CacheEntry) : JsMap.t CacheEntry :=
  let cache := JsMap.set cacheKey entry cache in
  if 100 <? JsMap.size cache then
    match JsMap.firstKey cache with
    | Some oldestKey => JsMap.delete oldestKey cache
    | None => cache
    end
  else cache.

(** A cached entry can be served at a look-up that reads the clock as [now]. *)
Definition fresh (this : Agent) (entry : CacheEntry) (now : Z) : Prop :=
  (now - timestamp entry < cacheTimeout this)%Z.

(** The world after one more reading of the clock. *)
Definition tick (w : World) : World :=
  mkWorld (clock w) (S (ticks w)) (database w) (dbCalls w) (pool w) (poolCalls w)
          (llm w) (llmCalls w) (trace w).

(** Calls that reach the cache from outside the agent: [executeSqlQuery]
    (the [/direct-sql] route, [processQuestion]) and [clearCache]. *)
Inductive Call :=
| CallExecute (query : string) (useCache : bool)
| CallClearCache.

(** The state after a sequence of calls, one after the other. *)
Fixpoint runCalls (calls : list Call) (s : State) : State :=
  match calls with
  | [] => s
  | CallExecute query useCache :: rest =>
      runCalls rest (snd (executeSqlQuery query useCache s))
  | CallClearCache :: rest => runCalls rest (snd (clearCache s))
  end.

(** The score of one entry of the category mapping for a lowercased
    question. *)
Definition scoreOf (questionLower : string) (entry : string * CategoryData.t) : nat :=
  keywordScore questionLower (CategoryData.keywords (snd entry)).

(** The fixed apology of [generateResponse] for a failed execution. *)
Definition apology (message : string) : string :=
  "I encountered an error while executing your query: " ++ message
  ++ ". Please try rephrasing your question or contact support if the issue persists.".

(** How often the pool was torn down in a trace. *)
Definition poolEnds (t : list Event) : nat :=
  length (filter (fun e => match e with EvPoolEnd => true | _ => false end) t).

(** How often the model was called in a trace. *)
Definition generations (t : list Event) : nat :=
  length (filter (fun e => match e with EvGenerate => true | _ => false end) t).

(** [queryHistory.push(entry)], then [shift()] when the size has passed
    [maxHistorySize] (lines 856-861). *)
Definition pushHistory (maxHistorySize : nat) (entry : History.entry)
    (history : list History.entry) : list History.entry :=
  let history := (history ++ [entry])%list in
  if maxHistorySize <? length history then tl history else history.

(** The requests of [ip] that still count at time [now]: those less than a
    window old (routes line 430). *)
Definition recentRequests (ip : string) (now : Z) (limiter : JsMap.t (list Z)) : list Z :=
  filter (fun timestamp => (now - timestamp <? RATE_LIMIT_WINDOW)%Z)
    match JsMap.get ip limiter with
    | Some requests => requests
    | None => []
    end.

(** [n] calls of [isRateLimited(ip)] in a row: the answers, in order. *)
Fixpoint requests (n : nat) (ip : string) (s : State) : list bool * State :=
  match n with
  | O => ([], s)
  | S n' =>
      match isRateLimited ip s with
      | (Return limited, s1) =>
          let (rest, s2) := requests n' ip s1 in (limited :: rest, s2)
      | (Throw _, s1) => ([], s1)
      end
  end.

(** [s'] comes from [s] by [g] calls of the model and nothing else: the
    agent and the limiter are the same, nothing was sent to the database, and
    the model has given its next [g] replies. *)
Definition consults (g : nat) (s s' : State) : Prop :=
  self s' = self s /\ rateLimitMap s' = rateLimitMap s /\
  trace (world s') = (trace (world s) ++ repeat EvGenerate g)%list /\
  llm (world s') = llm (world s) /\
  llmCalls (world s') = llmCalls (world s) + g.

(** The number of calls of the model that [selectCategory] makes: one when no
    category keyword occurs in the question (line 305), none otherwise. *)
Definition modelClassifies (toLowerCase : string -> string) (question : string) : nat :=
  if snd (bestMatch (toLowerCase question) getCategoryMapping) =? 0 then 1 else 0.

(** Tables chosen so far: no table twice, every table an available one. *)
Definition chosenFrom (available selected : list string) : Prop :=
  NoDup selected /\ forall table, In table selected -> In table available.

(** Sample worlds for the examples. *)
Definition resetError : JsError :=
  mkError Error "read ECONNRESET" (Some "ECONNRESET") None.

Definition oneRow : list Row := [[("n", SqlNumber 1)]].

(** A database whose first two answers are connection resets. *)
Definition flakyDatabase (n : nat) (sql : string) : DbAnswer :=
  match n with
  | 0 | 1 => DbError resetError
  | _ => DbRows oneRow
  end.

Definition steadyDatabase (n : nat) (sql : string) : DbAnswer := DbRows oneRow.

Definition startState (clock : nat -> Z) (database : nat -> string -> DbAnswer)
    (llm : nat -> LlmAnswer) : State :=
  mkState (newAgent []) [] (freshWorld clock database (fun _ => PoolRecreated) llm).

(** A database that does not know the table. *)
Definition noSuchTable : JsError :=
  mkError Error "Table 'certaintiMaster.company' doesn't exist" (Some "ER_NO_SUCH_TABLE") None.

Definition failingDatabase (n : nat) (sql : string) : DbAnswer := DbError noSuchTable.

(** A database that is down, and one that finds nothing. *)
Definition downDatabase (n : nat) (sql : string) : DbAnswer := DbError resetError.

Definition emptyDatabase (n : nat) (sql : string) : DbAnswer := DbRows [].

(** A model that is out of quota, and one that always writes the same
    statement. *)
Definition quotaExceeded : JsError :=
  mkError Error "Too Many Requests" None (Some 429).

Definition exhaustedModel (n : nat) : LlmAnswer := LlmError quotaExceeded.

Definition companyNames : string := "SELECT companyName FROM company LIMIT 50".

Definition steadyModel (n : nat) : LlmAnswer := LlmText companyNames.

(** A clock that advances by one second per reading. *)
Definition secondsClock (n : nat) : Z := (1000 * Z.of_nat n)%Z.

(** A clock that is read once per ten minutes. *)
Definition slowClock (n : nat) : Z := (600000 * Z.of_nat n)%Z.

(** An agent whose cache holds [rows] for [query], stored at time 0. *)
Definition cachedState (query : string) (rows : list Row) (clock : nat -> Z)
    (database : nat -> string -> DbAnswer) (llm : nat -> LlmAnswer) : State :=
  mkState
    (withCache (fun _ => [(generateCacheKey query, mkEntry rows 0%Z)]) (newAgent []))
    [] (freshWorld clock database (fun _ => PoolRecreated) llm).

(** An agent whose cache is full: 100 entries under the keys of the
    statements [SELECT 0] to [SELECT 99], oldest first. *)
Definition fullCache : JsMap.t CacheEntry :=
  map (fun n => (generateCacheKey ("SELECT " ++ showNat n), mkEntry oneRow (Z.of_nat n)))
      (seq 0 100).

Definition fullState : State :=
  mkState (withCache (fun _ => fullCache) (newAgent [])) []
    (freshWorld secondsClock steadyDatabase (fun _ => PoolRecreated) steadyModel).

(** A process whose clock stands still, and one in which the address
    10.0.0.1 has used up its ten requests. *)
Definition stillState : State :=
  mkState (newAgent []) []
    (freshWorld (fun _ => 0%Z) steadyDatabase (fun _ => PoolRecreated) steadyModel).


Definition sampleRequest : Http.request :=
  Http.mkRequest (Some "show company names") false "10.0.0.1" false.

(* ================================================================== *)
(** * Properties *)
(* ================================================================== *)

(** ** The model on small inputs *)

Example base64_three_bytes : base64 "Man" = "TWFu".
Proof. reflexivity. Qed.

Example base64_padding : base64 "Ma" = "TWE=" /\ base64 "M" = "TQ==".
Proof. split; reflexivity. Qed.

Example generateCacheKey_short : generateCacheKey "SELECT 1" = "U0VMRUNUIDE=".
Proof. reflexivity. Qed.

Example generateCacheKey_long :
  generateCacheKey "SELECT companyName FROM company WHERE companyId = 1"
  = "U0VMRUNUIGNvbXBhbnlOYW1lIEZST00gY29tcGFueSBXSEVSRS".
Proof. reflexivity. Qed.

(** [substring] counts code units: "a", U+00E9, U+1F600, "b" is five units
    long; three of them are "a", U+00E9 and the high surrogate of U+1F600. *)
Example lengthUnits_mixed :
  lengthUnits (ofBytes [97; 195; 169; 240; 159; 152; 128; 98]) = 5.
Proof. reflexivity. Qed.

Example substringUnits_cuts_a_pair :
  substringUnits 3 (ofBytes [97; 195; 169; 240; 159; 152; 128; 98])
  = ofBytes [97; 195; 169; 237; 160; 189].
Proof. reflexivity. Qed.

Example substringUnits_ascii :
  substringUnits 6 "SELECT 1" = "SELECT".
Proof. reflexivity. Qed.

Example trim_reply : trim ("  Projects " ++ nl) = "Projects".
Proof. reflexivity. Qed.

Example split_table_name :
  split "_" "master_case_project" = ["master"; "case"; "project"].
Proof. reflexivity. Qed.

Example cleanQuery_fenced :
  cleanQuery ("```sql" ++ nl ++ "SELECT * FROM Companies c JOIN users u" ++ nl ++ "```")
  = "SELECT * FROM company c JOIN contacts u".
Proof. reflexivity. Qed.

Example guard_rejects_literal :
  validateAndOptimizeQuery asciiUpper "SELECT * FROM company WHERE name = 'Updated Inc'"
  = Throw (newError "Query contains prohibited keyword: UPDATE").
Proof. reflexivity. Qed.

Example guard_keeps_count :
  validateAndOptimizeQuery asciiUpper "SELECT COUNT(*) FROM company"
  = Return "SELECT COUNT(*) FROM company".
Proof. reflexivity. Qed.

Example selectTables_direct :
  fst (selectTables asciiLower "Which users joined a team?"
         (Some ["contacts"; "teammembers"; "platformusers"; "roles"])
         (startState secondsClock steadyDatabase steadyModel))
  = Return ["contacts"; "platformusers"; "teammembers"].
Proof. reflexivity. Qed.

Example generateFallbackQuery_how_many :
  generateFallbackQuery asciiLower "How many companies do we have?" ["company"]
  = "SELECT COUNT(*) as count FROM company".
Proof. reflexivity. Qed.

Example sortByScore_stable :
  sortByScore [("a", 8); ("b", 20); ("c", 8); ("d", 20)]
  = [("b", 20); ("d", 20); ("a", 8); ("c", 8)].
Proof. reflexivity. Qed.

(** ** Substrings *)

Lemma prefix_app (p s : string) :
  prefix p s = true <-> exists after, s = p ++ after.
Proof.
  revert s. induction p as [|c p IH]; intros s.
  - destruct s; simpl; split; intros; eauto.
  - destruct s as [|d s]; simpl.
    + split; [discriminate | intros [after H]; discriminate].
    + destruct (ascii_dec c d) as [->|Hne].
      * rewrite IH. split; intros [after H]; exists after.
        -- now subst.
        -- now inversion H.
      * split; [discriminate | intros [after H]; inversion H; congruence].
Qed.

Lemma includes_unfold (s p : string) :
  includes s p
  = (prefix p s
     || match s with
        | EmptyString => false
        | String _ s' => includes s' p
        end).
Proof. destruct s; unfold includes; fold includes; now destruct (prefix p _). Qed.

Lemma includes_spec (s p : string) :
  includes s p = true <-> Substring p s.
Proof.
  unfold Substring. induction s as [|c s IH];
    rewrite includes_unfold, orb_true_iff, prefix_app.
  - split.
    + intros [[after H]|H]; [|discriminate]. exists EmptyString, after. exact H.
    + intros [before [after H]]. left.
      destruct before; [|discriminate]. eauto.
  - rewrite IH. split.
    + intros [[after H]|[before [after H]]].
      * exists EmptyString, after. exact H.
      * exists (String c before), after. simpl. now rewrite H.
    + intros [before [after H]]. destruct before as [|d before].
      * left. eauto.
      * right. inversion H. eauto.
Qed.

Lemma includes_false (s p : string) :
  includes s p = false <-> ~ Substring p s.
Proof.
  rewrite <- includes_spec. destruct (includes s p); split; congruence.
Qed.

(** ** Query Guard *)

Lemma firstProhibited_Some (text : string) (keywords : list string) (k : string) :
  firstProhibited text keywords = Some k -> In k keywords /\ Substring k text.
Proof.
  induction keywords as [|k' rest IH]; simpl; [discriminate|].
  destruct (includes text k') eqn:E.
  - intros [= <-]. split; [now left | now apply includes_spec].
  - intros H. destruct (IH H). split; [now right | assumption].
Qed.

Lemma firstProhibited_None (text : string) (keywords : list string) :
  firstProhibited text keywords = None <->
  (forall k, In k keywords -> ~ Substring k text).
Proof.
  induction keywords as [|k' rest IH]; simpl.
  - split; [intros _ k [] | reflexivity].
  - destruct (includes text k') eqn:E.
    + split; [discriminate|]. intros H. exfalso.
      apply (H k'); [now left | now apply includes_spec].
    + rewrite IH. split.
      * intros H k [<-|Hin]; [now apply includes_false | now apply H].
      * intros H k Hin. apply H. now right.
Qed.

Section GuardProperties.

Variable toUpperCase : string -> string.

(** The guard returns exactly the statements that pass the blocklist. *)
Lemma guard_returns_iff (query : string) :
  (exists r, validateAndOptimizeQuery toUpperCase query = Return r) <->
  (forall k, In k dangerousKeywords -> ~ Substring k (toUpperCase query)).
Proof.
  rewrite <- firstProhibited_None. unfold validateAndOptimizeQuery.
  destruct (firstProhibited (toUpperCase query) dangerousKeywords) eqn:E.
  - split; [intros [r H]; discriminate | discriminate].
  - split; [reflexivity | intros _].
    repeat match goal with |- context [if ?b then _ else _] => destruct b end; eauto.
Qed.

(** C1.  For every statement: if its uppercased text contains one of DROP,
    DELETE, TRUNCATE, ALTER, CREATE, INSERT, UPDATE as a substring, the
    guard throws the rejection error, which names a blocklisted keyword that
    occurs in the text; and a statement that contains none of them and whose
    uppercased text contains LIMIT is returned unchanged. *)
Theorem guard_rejects_blocklist_keeps_limit (query : string) :
  (forall keyword,
      In keyword dangerousKeywords -> Substring keyword (toUpperCase query) ->
      exists found,
        In found dangerousKeywords /\ Substring found (toUpperCase query) /\
        validateAndOptimizeQuery toUpperCase query
        = Throw (newError ("Query contains prohibited keyword: " ++ found)))
  /\
  ((forall keyword, In keyword dangerousKeywords ->
                    ~ Substring keyword (toUpperCase query)) ->
   Substring "LIMIT" (toUpperCase query) ->
   validateAndOptimizeQuery toUpperCase query = Return query).
Proof.
  split.
  - intros keyword Hin Hsub. unfold validateAndOptimizeQuery.
    destruct (firstProhibited (toUpperCase query) dangerousKeywords) as [found|] eqn:E.
    + destruct (firstProhibited_Some _ _ _ E) as [Hf Hs]. exists found. auto.
    + exfalso. eapply firstProhibited_None; eauto.
  - intros Hnone Hlimit. unfold validateAndOptimizeQuery.
    apply firstProhibited_None in Hnone. rewrite Hnone.
    apply includes_spec in Hlimit. rewrite Hlimit. reflexivity.
Qed.

(** C4.  For every statement that passes the blocklist and whose uppercased
    text contains SELECT but not LIMIT: if it contains none of COUNT(, SUM(,
    AVG(, GROUP BY, the guard returns the input followed by one
    [" LIMIT 100"]; if it contains GROUP BY, the guard returns the input as
    it is. *)
Theorem guard_limit_injection (query : string) :
  (forall keyword, In keyword dangerousKeywords ->
                   ~ Substring keyword (toUpperCase query)) ->
  Substring "SELECT" (toUpperCase query) ->
  ~ Substring "LIMIT" (toUpperCase query) ->
  (~ Substring "COUNT(" (toUpperCase query) ->
   ~ Substring "SUM(" (toUpperCase query) ->
   ~ Substring "AVG(" (toUpperCase query) ->
   ~ Substring "GROUP BY" (toUpperCase query) ->
   validateAndOptimizeQuery toUpperCase query = Return (query ++ " LIMIT 100"))
  /\
  (Substring "GROUP BY" (toUpperCase query) ->
   validateAndOptimizeQuery toUpperCase query = Return query).
Proof.
  intros Hnone Hselect Hlimit. unfold validateAndOptimizeQuery.
  apply firstProhibited_None in Hnone. rewrite Hnone.
  apply includes_spec in Hselect. apply includes_false in Hlimit.
  rewrite Hselect, Hlimit. simpl. split.
  - intros Hc Hs Ha Hg. apply includes_false in Hc, Hs, Ha, Hg.
    now rewrite Hc, Hs, Ha, Hg.
  - intros Hg. apply includes_spec in Hg. rewrite Hg.
    now rewrite !andb_false_r.
Qed.

End GuardProperties.

(** ** Execution with retry *)

Lemma isConnectionError_reset (e : JsError) :
  code e = Some "ECONNRESET" -> isConnectionError e = true.
Proof. intros H. unfold isConnectionError, codeIs. now rewrite H. Qed.

Lemma delays_app (t u : list Event) : delays (t ++ u) = (delays t ++ delays u)%list.
Proof. unfold delays. now rewrite flat_map_app. Qed.

Lemma executions_app (t u : list Event) :
  executions (t ++ u) = (executions t ++ executions u)%list.
Proof. unfold executions. now rewrite flat_map_app. Qed.

(** C2, as the code has it.  When the first two attempts fail with a
    connection reset and the third succeeds, [executeQuery] returns the rows
    of the third attempt and throws nothing; the statement was sent three
    times and exactly two backoff delays were waited for, of 2000 ms and then
    4000 ms. *)
Theorem executeQuery_two_resets_then_rows
    (sql : string) (s : State) (e1 e2 : JsError) (rows : list Row) :
  database (world s) (dbCalls (world s)) sql = DbError e1 ->
  code e1 = Some "ECONNRESET" ->
  database (world s) (S (dbCalls (world s))) sql = DbError e2 ->
  code e2 = Some "ECONNRESET" ->
  database (world s) (S (S (dbCalls (world s)))) sql = DbRows rows ->
  exists s' new,
    executeQuery sql s = (Return (Some rows), s') /\
    self s' = self s /\
    trace (world s') = (trace (world s) ++ new)%list /\
    executions new = [sql; sql; sql] /\
    delays new = [2000; 4000]%Z.
Proof.
  intros H1 C1 H2 C2 H3.
  unfold executeQuery, executeQuery_loop, try_catch, bind, pool_execute, getWorld,
    modifyWorld, ret, throw, sleep. cbn.
  rewrite H1. cbn. rewrite (isConnectionError_reset _ C1). cbn.
  rewrite H2. cbn. rewrite (isConnectionError_reset _ C2). cbn.
  unfold recreatePool, try_catch, bind, getWorld, modifyWorld, ret, throw. cbn.
  destruct (pool (world s) (poolCalls (world s))); cbn; rewrite H3; cbn;
    eexists; eexists; (split; [reflexivity|]); cbn;
    (split; [reflexivity|]); rewrite <- !app_assoc; (split; [reflexivity|]);
    split; reflexivity.
Qed.

(** C2, as claimed, fails: on this run two connection resets are followed by
    a successful third attempt, and the delays waited for are 2000 ms and
    4000 ms, not 1000 ms and 2000 ms. *)
Lemma executeQuery_delays_are_not_1s_2s :
  let s := startState (fun _ => 0%Z) flakyDatabase (fun _ => LlmText "ok") in
  flakyDatabase 0 "SELECT 1" = DbError resetError /\
  flakyDatabase 1 "SELECT 1" = DbError resetError /\
  flakyDatabase 2 "SELECT 1" = DbRows oneRow /\
  fst (executeQuery "SELECT 1" s) = Return (Some oneRow) /\
  delays (trace (world (snd (executeQuery "SELECT 1" s)))) = [2000; 4000]%Z /\
  delays (trace (world (snd (executeQuery "SELECT 1" s)))) <> [1000; 2000]%Z.
Proof.
  cbv zeta. repeat split; try reflexivity.
  vm_compute. discriminate.
Qed.

(** What a call of [executeQuery] can do, whatever the world answers: it
    sends the statement at least once, touches neither the agent nor the
    clock nor the model, and either returns rows or throws. *)
Lemma executeQuery_run (sql : string) (s : State) :
  exists o w',
    executeQuery sql s = (o, mkState (self s) (rateLimitMap s) w') /\
    clock w' = clock (world s) /\
    ticks w' = ticks (world s) /\
    llm w' = llm (world s) /\
    llmCalls w' = llmCalls (world s) /\
    database w' = database (world s) /\
    dbCalls (world s) < dbCalls w' /\
    (exists rest, trace w' = (trace (world s) ++ EvExecute sql :: rest)%list) /\
    o <> Return None.
Proof.
  unfold executeQuery, executeQuery_loop, try_catch, bind, pool_execute, getWorld,
    modifyWorld, ret, throw, sleep, recreatePool, maxRetries. cbn.
  repeat
    (match goal with
     | |- context [match database ?w ?n ?q with _ => _ end] =>
         destruct (database w n q); cbn
     | |- context [isConnectionError ?e] =>
         destruct (isConnectionError e); cbn
     | |- context [match pool ?w ?n with _ => _ end] =>
         destruct (pool w n); cbn
     end);
    eexists; eexists; (split; [reflexivity|]); cbn;
    repeat (split; [first [reflexivity | lia]|]);
    rewrite <- ?app_assoc; (split; [eexists; reflexivity | discriminate]).
Qed.


(** ** Execution and cache layer *)

Lemma addToQueryHistory_run (query : string) (ok : bool) (t : Z) (n : nat)
    (e : option string) (s : State) :
  exists h,
    addToQueryHistory query ok t n e s
    = (Return tt,
       mkState (withHistory (fun _ => h) (self s)) (rateLimitMap s) (tick (world s))).
Proof.
  unfold addToQueryHistory, bind, Date_now, getWorld, getSelf, modifyWorld, modifySelf, ret.
  cbn.
  match goal with |- context [if ?b then _ else _] => destruct b end;
    cbn; eexists; reflexivity.
Qed.

Lemma cacheStore_run (cacheKey : string) (useCache : bool) (rows : list Row) (s : State) :
  cacheStore cacheKey useCache rows s
  = (Return tt,
     if useCache && (0 <? length rows) && (length rows <? 1000) then
       mkState
         (withCache
            (afterStore cacheKey (mkEntry rows (clock (world s) (ticks (world s)))))
            (self s))
         (rateLimitMap s) (tick (world s))
     else s).
Proof.
  unfold cacheStore.
  destruct (useCache && (0 <? length rows) && (length rows <? 1000)); [|reflexivity].
  unfold bind, Date_now, getWorld, getSelf, modifyWorld, modifySelf, ret, afterStore,
    withCache, tick.
  cbn -[Nat.ltb JsMap.set JsMap.size JsMap.firstKey JsMap.delete].
  destruct (100 <? JsMap.size _); [|reflexivity].
  destruct (JsMap.firstKey _); reflexivity.
Qed.

#[local] Arguments executeQuery : simpl never.
#[local] Arguments addToQueryHistory : simpl never.
#[local] Arguments cacheStore : simpl never.

Lemma reportFailure_run (query : string) (startTime : Z) (error : JsError) (s : State) :
  exists h,
    reportFailure query startTime error s
    = (Return (QueryResult.mk false None
                 (clock (world s) (ticks (world s)) - startTime)%Z None None
                 (Some (friendlyMessage error)) (code error)),
       mkState (withHistory (fun _ => h) (withMetrics incFailedQueries (self s)))
               (rateLimitMap s) (tick (tick (world s)))).
Proof.
  unfold reportFailure, bind, Date_now, getWorld, modifyWorld, modifySelf, ret. cbn.
  match goal with |- context [addToQueryHistory ?a ?b ?c ?d ?e ?st] =>
    destruct (addToQueryHistory_run a b c d e st) as [h ->] end.
  cbn. eexists. reflexivity.
Qed.

Lemma runAndRecord_cases (query cacheKey : string) (useCache : bool) (startTime : Z)
    (s s' : State) (o : Outcome QueryResult.t) :
  runAndRecord query cacheKey useCache startTime s = (o, s') ->
  rateLimitMap s' = rateLimitMap s /\
  cacheTimeout (self s') = cacheTimeout (self s) /\
  tableSchemas (self s') = tableSchemas (self s) /\
  cacheHits (metrics (self s')) = cacheHits (metrics (self s)) /\
  clock (world s') = clock (world s) /\
  llm (world s') = llm (world s) /\
  llmCalls (world s') = llmCalls (world s) /\
  dbCalls (world s) < dbCalls (world s') /\
  (exists rest, trace (world s') = (trace (world s) ++ EvExecute query :: rest)%list) /\
  ((exists rows executionTime,
       o = Return (QueryResult.mk true (Some rows) executionTime (Some false)
                     (Some (length rows)) None None) /\
       ((useCache && (0 <? length rows) && (length rows <? 1000) = true /\
         exists now,
           queryCache (self s') = afterStore cacheKey (mkEntry rows now) (queryCache (self s)))
        \/
        (useCache && (0 <? length rows) && (length rows <? 1000) = false /\
         queryCache (self s') = queryCache (self s))))
   \/
   (exists e, o = Throw e /\ queryCache (self s') = queryCache (self s))).
Proof.
  unfold runAndRecord, bind. 
  destruct (executeQuery_run query s)
    as (oq & w' & -> & Hclock & Hticks & Hllm & Hcalls & Hdb & Hlt & Htrace & Hsome).
  destruct oq as [[rows|]|e]; [| congruence |].
  - unfold Date_now, bind, getWorld, modifyWorld, modifySelf, updateAverageExecutionTime, ret.
    cbn -[Nat.ltb]. rewrite cacheStore_run.
    destruct (useCache && (0 <? length rows) && (length rows <? 1000)) eqn:E;
    cbn -[Nat.ltb];
    match goal with |- context [addToQueryHistory ?a ?b ?c ?d ?e ?st] =>
      destruct (addToQueryHistory_run a b c d e st) as [h ->] end;
    intros [= <- <-]; cbn -[Nat.ltb]; repeat (split; [assumption || reflexivity|]).
    + left. do 2 eexists. split; [reflexivity|]. left. split; [exact E|].
      eexists. reflexivity.
    + left. do 2 eexists. split; [reflexivity|]. right. split; [exact E | reflexivity].
  - cbn. intros [= <- <-]. cbn. repeat (split; [assumption || reflexivity|]).
    right. eexists. split; reflexivity.
Qed.

Lemma cacheLookup_cases (cacheKey : string) (useCache : bool) (startTime : Z) (s : State) :
  (exists entry,
      useCache = true /\
      JsMap.get cacheKey (queryCache (self s)) = Some entry /\
      fresh (self s) entry (clock (world s) (ticks (world s))) /\
      cacheLookup cacheKey useCache startTime s
      = (Return (Some (QueryResult.mk true (Some (result entry))
                         (clock (world s) (S (ticks (world s))) - startTime)%Z
                         (Some true) None None None)),
         mkState (withMetrics incCacheHits (self s)) (rateLimitMap s)
                 (tick (tick (world s)))))
  \/
  ((useCache = true ->
    forall entry, JsMap.get cacheKey (queryCache (self s)) = Some entry ->
                  ~ fresh (self s) entry (clock (world s) (ticks (world s)))) /\
   exists w',
     (w' = world s \/ w' = tick (world s)) /\
     cacheLookup cacheKey useCache startTime s
     = (Return None,
        mkState (withCache (afterLookup cacheKey useCache) (self s)) (rateLimitMap s) w')).
Proof.
  unfold cacheLookup, afterLookup, fresh, bind, getSelf. cbn.
  destruct useCache; cbn.
  - unfold JsMap.has.
    destruct (JsMap.get cacheKey (queryCache (self s))) as [entry|] eqn:Hget; cbn.
    + unfold Date_now, bind, getWorld, modifyWorld, modifySelf, ret. cbn.
      destruct (Z.ltb_spec (clock (world s) (ticks (world s)) - timestamp entry)
                  (cacheTimeout (self s))) as [Hlt|Hge]; cbn.
      * left. exists entry. repeat split; assumption || reflexivity.
      * right. split.
        -- intros _ entry' [= <-]. lia.
        -- eexists. split; [right; reflexivity|]. unfold withCache. cbn.
           unfold JsMap.has. rewrite Hget. reflexivity.
    + right. split; [intros _ entry; discriminate|].
      eexists. split; [left; reflexivity|]. unfold ret, withCache. cbn.
      unfold JsMap.has. rewrite Hget. destruct s as [[] ? ?]; reflexivity.
  - right. split; [discriminate|].
    eexists. split; [left; reflexivity|]. unfold ret, withCache.
    destruct s as [[] ? ?]; reflexivity.
Qed.

#[local] Arguments cacheLookup : simpl never.
#[local] Arguments runAndRecord : simpl never.
#[local] Arguments reportFailure : simpl never.

Lemma executeSqlQuery_cases (query : string) (useCache : bool) (s s' : State)
    (o : Outcome QueryResult.t) :
  executeSqlQuery query useCache s = (o, s') ->
  let cacheKey := generateCacheKey query in
  let cache := queryCache (self s) in
  exists r, o = Return r /\
    rateLimitMap s' = rateLimitMap s /\
    cacheTimeout (self s') = cacheTimeout (self s) /\
    tableSchemas (self s') = tableSchemas (self s) /\
    clock (world s') = clock (world s) /\
    llm (world s') = llm (world s) /\
    llmCalls (world s') = llmCalls (world s) /\
    ((exists entry,
         useCache = true /\
         JsMap.get cacheKey cache = Some entry /\
         fresh (self s) entry (clock (world s) (S (ticks (world s)))) /\
         r = QueryResult.mk true (Some (result entry))
               (clock (world s) (S (S (ticks (world s))))
                - clock (world s) (ticks (world s)))%Z
               (Some true) None None None /\
         queryCache (self s') = cache /\
         cacheHits (metrics (self s')) = S (cacheHits (metrics (self s))) /\
         trace (world s') = trace (world s) /\
         dbCalls (world s') = dbCalls (world s))
     \/
     ((useCache = true ->
       forall entry, JsMap.get cacheKey cache = Some entry ->
                     ~ fresh (self s) entry (clock (world s) (S (ticks (world s))))) /\
      (exists rest, trace (world s') = (trace (world s) ++ EvExecute query :: rest)%list) /\
      dbCalls (world s) < dbCalls (world s') /\
      cacheHits (metrics (self s')) = cacheHits (metrics (self s)) /\
      ((exists rows executionTime,
           r = QueryResult.mk true (Some rows) executionTime (Some false)
                 (Some (length rows)) None None /\
           ((useCache && (0 <? length rows) && (length rows <? 1000) = true /\
             exists now,
               queryCache (self s')
               = afterStore cacheKey (mkEntry rows now) (afterLookup cacheKey useCache cache))
            \/
            (useCache && (0 <? length rows) && (length rows <? 1000) = false /\
             queryCache (self s') = afterLookup cacheKey useCache cache)))
       \/
       (exists executionTime message errorCode,
           r = QueryResult.mk false None executionTime None None (Some message) errorCode /\
           queryCache (self s') = afterLookup cacheKey useCache cache)))).
Proof.
  intros H cacheKey cache. subst cacheKey cache.
  unfold executeSqlQuery, try_catch, bind, Date_now, getWorld,
    modifyWorld, modifySelf, ret in H. cbn in H.
  match type of H with context [cacheLookup ?k ?u ?t ?st] =>
    destruct (cacheLookup_cases k u t st)
      as [(entry & Hu & Hget & Hfresh & Heq) | (Hstale & w' & Hw' & Heq)];
    rewrite Heq in H; clear Heq; cbn in H
  end.
  - injection H as <- <-. eexists. split; [reflexivity|]. cbn.
    repeat (split; [reflexivity|]). left. exists entry.
    repeat split; assumption || reflexivity.
  - match type of H with context [runAndRecord ?q ?k ?u ?t ?st] =>
      destruct (runAndRecord q k u t st) as [o1 s1] eqn:Hrun;
      apply runAndRecord_cases in Hrun
    end.
    cbn in Hrun.
    destruct Hrun as (Hrl & Hto & Hts & Hhits & Hclock & Hllm & Hcalls & Hdb & Htrace & Hres).
    assert (Hw : clock w' = clock (world s) /\ llm w' = llm (world s)
                 /\ llmCalls w' = llmCalls (world s) /\ dbCalls w' = dbCalls (world s)
                 /\ trace w' = trace (world s))
      by (destruct Hw' as [->| ->]; cbn; repeat split; reflexivity).
    destruct Hw as (Wc & Wl & Wn & Wd & Wt).
    rewrite Wc in Hclock. rewrite Wl in Hllm. rewrite Wn in Hcalls. rewrite Wd in Hdb.
    rewrite Wt in Htrace.
    destruct Hres as [(rows & t & -> & Hcache) | (e & -> & Hcache)].
    + injection H as <- <-. eexists. split; [reflexivity|].
      repeat (split; [assumption|]). right.
      repeat (split; [assumption|]). left. exists rows, t. split; [reflexivity|].
      exact Hcache.
    + destruct (reportFailure_run query (clock (world s) (ticks (world s))) e s1)
        as [h Hfail].
      rewrite Hfail in H. injection H as <- <-. eexists. split; [reflexivity|]. cbn.
      repeat (split; [assumption|]). right.
      repeat (split; [assumption|]). right. do 3 eexists. split; [reflexivity|].
      exact Hcache.
Qed.

(** ** The cache as a [Map] *)

Lemma get_set_same {V : Type} (k : string) (v : V) (m : JsMap.t V) :
  JsMap.get k (JsMap.set k v m) = Some v.
Proof.
  induction m as [|[k' v'] m IH]; simpl.
  - now rewrite String.eqb_refl.
  - destruct (String.eqb k' k) eqn:E; simpl; rewrite ?E; [rewrite String.eqb_refl|]; auto.
Qed.

Lemma set_absent {V : Type} (k : string) (v : V) (m : JsMap.t V) :
  JsMap.has k m = false -> JsMap.set k v m = (m ++ [(k, v)])%list.
Proof.
  unfold JsMap.has. induction m as [|[k' v'] m IH]; simpl; [reflexivity|].
  destruct (String.eqb k' k); [discriminate|]. intros H. now rewrite IH.
Qed.

Lemma size_set_le {V : Type} (k : string) (v : V) (m : JsMap.t V) :
  JsMap.size (JsMap.set k v m) <= S (JsMap.size m).
Proof.
  unfold JsMap.size. induction m as [|[k' v'] m IH]; simpl; [lia|].
  destruct (String.eqb k' k); simpl; lia.
Qed.

Lemma size_delete_le {V : Type} (k : string) (m : JsMap.t V) :
  JsMap.size (JsMap.delete k m) <= JsMap.size m.
Proof.
  unfold JsMap.size. induction m as [|[k' v'] m IH]; simpl; [lia|].
  destruct (String.eqb k' k); simpl; lia.
Qed.

Lemma size_afterLookup_le (k : string) (useCache : bool) (cache : JsMap.t CacheEntry) :
  JsMap.size (afterLookup k useCache cache) <= JsMap.size cache.
Proof.
  unfold afterLookup. destruct (useCache && JsMap.has k cache); [apply size_delete_le | lia].
Qed.

(** Storing never leaves more than 100 entries in a cache that had at most
    100. *)
Lemma size_afterStore_le (k : string) (e : CacheEntry) (cache : JsMap.t CacheEntry) :
  JsMap.size cache <= 100 -> JsMap.size (afterStore k e cache) <= 100.
Proof.
  intros H. unfold afterStore. cbv zeta.
  pose proof (size_set_le k e cache) as Hset.
  destruct (Nat.ltb_spec 100 (JsMap.size (JsMap.set k e cache))) as [Hbig|Hsmall]; [|lia].
  destruct (JsMap.set k e cache) as [|[k0 v0] rest]; simpl in *; [lia|].
  rewrite String.eqb_refl. unfold JsMap.size in *. simpl in *. lia.
Qed.

(** On a full cache that lacks the key, storing drops the oldest entry and
    nothing else, and appends the new one. *)
Lemma afterStore_full (k : string) (e : CacheEntry) (cache : JsMap.t CacheEntry) :
  JsMap.size cache = 100 -> JsMap.has k cache = false ->
  afterStore k e cache = (tl cache ++ [(k, e)])%list.
Proof.
  intros Hsize Hhas. unfold afterStore. cbv zeta. rewrite (set_absent k e cache Hhas).
  unfold JsMap.size in *. rewrite length_app, Hsize. simpl Nat.ltb.
  destruct cache as [|[k0 v0] rest]; [discriminate|].
  simpl. now rewrite String.eqb_refl.
Qed.

(** At most 100 entries after the call, if at most 100 before. *)
Lemma executeSqlQuery_cache_bound (query : string) (useCache : bool) (s : State) :
  JsMap.size (queryCache (self s)) <= 100 ->
  JsMap.size (queryCache (self (snd (executeSqlQuery query useCache s)))) <= 100.
Proof.
  intros Hsize.
  destruct (executeSqlQuery query useCache s) as [o s'] eqn:H.
  apply executeSqlQuery_cases in H. cbv zeta in H.
  destruct H as (r & _ & _ & _ & _ & _ & _ & _ & Hcases). simpl.
  pose proof (size_afterLookup_le (generateCacheKey query) useCache (queryCache (self s))).
  destruct Hcases as [(entry & _ & _ & _ & _ & -> & _) | (_ & _ & _ & _ & Hres)]; [assumption|].
  destruct Hres as [(rows & t & _ & [(_ & now & ->) | (_ & ->)]) | (t & m & c & _ & ->)];
    try lia.
  apply size_afterStore_le. lia.
Qed.

Lemma runCalls_cache_bound (calls : list Call) (s : State) :
  JsMap.size (queryCache (self s)) <= 100 ->
  JsMap.size (queryCache (self (runCalls calls s))) <= 100.
Proof.
  revert s. induction calls as [|[query useCache|] calls IH]; intros s H; simpl.
  - exact H.
  - apply IH. now apply executeSqlQuery_cache_bound.
  - apply IH. simpl. unfold JsMap.size. simpl. lia.
Qed.

(** C5, as the code has it.  With caching enabled and an entry stored under
    the key of the query: a fetch whose look-up falls within the 5-minute
    window after the entry's timestamp returns exactly the stored rows,
    flagged [fromCache = true], adds one to the cache-hit counter and sends
    nothing to the database; a fetch whose look-up falls at or after the end
    of the window sends the statement to the database again, counts no hit,
    and its result is never flagged [fromCache = true]: it carries
    [fromCache = false] when the re-execution succeeds, and it is a failure
    object without a [fromCache] field when the re-execution fails. *)
Theorem cache_hit_within_ttl_miss_after (query : string) (s : State) (entry : CacheEntry) :
  cacheTimeout (self s) = 300000%Z ->
  JsMap.get (generateCacheKey query) (queryCache (self s)) = Some entry ->
  let now := clock (world s) (S (ticks (world s))) in
  let r := fst (executeSqlQuery query true s) in
  let s' := snd (executeSqlQuery query true s) in
  ((now - timestamp entry < 300000)%Z ->
   exists hit,
     r = Return hit /\
     QueryResult.success hit = true /\
     QueryResult.data hit = Some (result entry) /\
     QueryResult.fromCache hit = Some true /\
     cacheHits (metrics (self s')) = S (cacheHits (metrics (self s))) /\
     trace (world s') = trace (world s) /\
     dbCalls (world s') = dbCalls (world s))
  /\
  ((300000 <= now - timestamp entry)%Z ->
   exists miss,
     r = Return miss /\
     (exists rest, trace (world s') = (trace (world s) ++ EvExecute query :: rest)%list) /\
     dbCalls (world s) < dbCalls (world s') /\
     cacheHits (metrics (self s')) = cacheHits (metrics (self s)) /\
     QueryResult.fromCache miss <> Some true /\
     (QueryResult.success miss = true -> QueryResult.fromCache miss = Some false) /\
     (QueryResult.success miss = false -> QueryResult.fromCache miss = None)).
Proof.
  intros Httl Hget now r s'. subst now r s'.
  destruct (executeSqlQuery query true s) as [o s'] eqn:H.
  apply executeSqlQuery_cases in H. cbv zeta in H. unfold fresh in H. rewrite Httl in H.
  destruct H as (r & -> & _ & _ & _ & _ & _ & _ & Hcases). simpl. split.
  - intros Hin.
    destruct Hcases as [(entry' & _ & Hget' & _ & -> & _ & Hhits & Htrace & Hdb)
                       | (Hstale & _)].
    + rewrite Hget in Hget'. injection Hget' as <-.
      eexists. split; [reflexivity|]. simpl. repeat split; assumption.
    + exfalso. exact (Hstale eq_refl entry Hget Hin).
  - intros Hout.
    destruct Hcases as [(entry' & _ & Hget' & Hfresh & _)
                       | (_ & Htrace & Hdb & Hhits & Hres)].
    + rewrite Hget in Hget'. injection Hget' as <-. lia.
    + exists r. split; [reflexivity|]. repeat (split; [assumption|]).
      destruct Hres as [(rows & t & -> & _) | (t & m & c & -> & _)]; simpl;
        repeat split; congruence.
Qed.

(** C5, as claimed, fails: on this run the entry stored for the statement has
    expired and the database refuses the statement.  The fetch sends the
    statement again, but what it returns is the failure object, which has no
    [fromCache] field: it is not flagged [fromCache = false]. *)
Lemma expired_fetch_that_fails_has_no_fromCache :
  let s := cachedState companyNames oneRow slowClock failingDatabase steadyModel in
  JsMap.get (generateCacheKey companyNames) (queryCache (self s))
  = Some (mkEntry oneRow 0%Z) /\
  (300000 <= clock (world s) (S (ticks (world s))) - 0)%Z /\
  exists miss,
    fst (executeSqlQuery companyNames true s) = Return miss /\
    executions (trace (world (snd (executeSqlQuery companyNames true s))))
    = [companyNames] /\
    QueryResult.success miss = false /\
    QueryResult.fromCache miss = None /\
    QueryResult.fromCache miss <> Some false.
Proof.
  cbv zeta. split; [reflexivity|]. split; [vm_compute; discriminate|].
  eexists. split; [vm_compute; reflexivity|].
  repeat split; try reflexivity. discriminate.
Qed.

(** C6.  The query cache never holds more than 100 entries: not after any
    sequence of calls on a new agent, and a call that starts with at most 100
    entries ends with at most 100.  When a fresh result is stored in a cache
    of exactly 100 entries, the cache afterwards is the old one without its
    first (oldest-inserted) entry, followed by the new entry. *)
Theorem cache_at_most_100_oldest_evicted :
  (forall schemas limiter w calls,
      JsMap.size (queryCache (self (runCalls calls (mkState (newAgent schemas) limiter w))))
      <= 100)
  /\
  (forall query useCache s,
      JsMap.size (queryCache (self s)) <= 100 ->
      JsMap.size (queryCache (self (snd (executeSqlQuery query useCache s)))) <= 100)
  /\
  (forall query s r rows,
      JsMap.size (queryCache (self s)) = 100 ->
      JsMap.has (generateCacheKey query) (queryCache (self s)) = false ->
      fst (executeSqlQuery query true s) = Return r ->
      QueryResult.fromCache r = Some false ->
      QueryResult.data r = Some rows ->
      0 < length rows < 1000 ->
      exists now,
        queryCache (self (snd (executeSqlQuery query true s)))
        = (tl (queryCache (self s)) ++ [(generateCacheKey query, mkEntry rows now)])%list).
Proof.
  split; [|split].
  - intros schemas limiter w calls. apply runCalls_cache_bound.
    unfold JsMap.size. simpl. lia.
  - intros query useCache s. apply executeSqlQuery_cache_bound.
  - intros query s r rows Hsize Hhas Hr Hfresh Hdata Hlen.
    destruct (executeSqlQuery query true s) as [o s'] eqn:H.
    apply executeSqlQuery_cases in H. cbv zeta in H. simpl in Hr. subst o.
    destruct H as (r' & [= <-] & _ & _ & _ & _ & _ & _ & Hcases). simpl.
    destruct Hcases as [(entry & _ & Hget & _) | (_ & _ & _ & _ & Hres)].
    + unfold JsMap.has in Hhas. now rewrite Hget in Hhas.
    + destruct Hres as [(rows' & t & -> & Hstore) | (t & m & c & -> & _)];
        [|discriminate].
      simpl in Hdata. injection Hdata as ->.
      unfold afterLookup in Hstore. rewrite Hhas in Hstore. simpl in Hstore.
      destruct Hstore as [(_ & now & ->) | (Hno & _)].
      * exists now. now apply afterStore_full.
      * exfalso. destruct Hlen as [H0 H1].
        apply Nat.ltb_lt in H0, H1. rewrite H0, H1 in Hno. discriminate.
Qed.

(** ** Cache keys *)

(** The key only depends on the first 38 bytes of the statement. *)
Lemma generateCacheKey_prefix (p a b : string) :
  String.length p = 38 ->
  generateCacheKey (p ++ a) = generateCacheKey (p ++ b).
Proof.
  intros H.
  do 38 (destruct p as [|? p]; [discriminate|]).
  destruct p; [|discriminate].
  unfold generateCacheKey, substring0.
  destruct a, b; reflexivity.
Qed.

Lemma get_notin {V : Type} (k : string) (m : JsMap.t V) :
  ~ In k (JsMap.keys m) -> JsMap.get k m = None.
Proof.
  induction m as [|[k' v'] m IH]; simpl; [reflexivity|].
  intros H. destruct (String.eqb_spec k' k) as [->|Hne]; [tauto|]. apply IH. tauto.
Qed.

Lemma get_delete_same {V : Type} (k : string) (m : JsMap.t V) :
  NoDup (JsMap.keys m) -> JsMap.get k (JsMap.delete k m) = None.
Proof.
  induction m as [|[k' v'] m IH]; simpl; [reflexivity|].
  intros H. unfold JsMap.keys in H. simpl in H.
  inversion H as [|? ? Hnotin Hrest]; subst.
  destruct (String.eqb_spec k' k) as [->|Hne].
  - apply get_notin. exact Hnotin.
  - simpl. destruct (String.eqb_spec k' k); [contradiction|]. apply IH. exact Hrest.
Qed.

Lemma has_afterLookup (k : string) (cache : JsMap.t CacheEntry) :
  NoDup (JsMap.keys cache) -> JsMap.has k (afterLookup k true cache) = false.
Proof.
  intros H. unfold afterLookup. simpl.
  destruct (JsMap.has k cache) eqn:E; [|exact E].
  unfold JsMap.has. now rewrite get_delete_same.
Qed.

Lemma get_app_absent {V : Type} (k : string) (v : V) (m : JsMap.t V) :
  JsMap.has k m = false -> JsMap.get k (m ++ [(k, v)])%list = Some v.
Proof.
  intros H. rewrite <- set_absent by exact H. apply get_set_same.
Qed.

(** What was just stored can be read back, also when storing evicted the
    oldest entry. *)
Lemma get_afterStore (k : string) (e : CacheEntry) (cache : JsMap.t CacheEntry) :
  JsMap.has k cache = false -> JsMap.get k (afterStore k e cache) = Some e.
Proof.
  intros H. unfold afterStore. cbv zeta.
  destruct (Nat.ltb_spec 100 (JsMap.size (JsMap.set k e cache))) as [Hbig|_];
    [|apply get_set_same].
  rewrite (set_absent k e cache H) in *.
  destruct cache as [|[k0 v0] rest]; simpl.
  - unfold JsMap.size in Hbig. simpl in Hbig. lia.
  - rewrite String.eqb_refl. apply get_app_absent.
    unfold JsMap.has in *. simpl in H. destruct (String.eqb k0 k); [discriminate | exact H].
Qed.

(** *** The keys of the cache stay distinct *)

Lemma in_keys_set {V : Type} (k : string) (v : V) (m : JsMap.t V) (x : string) :
  In x (JsMap.keys (JsMap.set k v m)) -> x = k \/ In x (JsMap.keys m).
Proof.
  unfold JsMap.keys. induction m as [|[k' v'] m IH]; simpl.
  - intros [<-|[]]. now left.
  - destruct (String.eqb_spec k' k) as [->|Hne]; simpl.
    + intros [<-|H]; auto.
    + intros [<-|H]; auto. destruct (IH H); auto.
Qed.

Lemma in_keys_delete {V : Type} (k : string) (m : JsMap.t V) (x : string) :
  In x (JsMap.keys (JsMap.delete k m)) -> In x (JsMap.keys m).
Proof.
  unfold JsMap.keys. induction m as [|[k' v'] m IH]; simpl; [auto|].
  destruct (String.eqb k' k); simpl; [auto|]. intros [<-|H]; auto.
Qed.

Lemma NoDup_keys_set {V : Type} (k : string) (v : V) (m : JsMap.t V) :
  NoDup (JsMap.keys m) -> NoDup (JsMap.keys (JsMap.set k v m)).
Proof.
  induction m as [|[k' v'] m IH]; intros H.
  - repeat constructor. intros [].
  - unfold JsMap.keys in H. simpl in H. inversion H as [|? ? Hnotin Hrest]; subst.
    simpl. destruct (String.eqb_spec k' k) as [->|Hne].
    + unfold JsMap.keys. simpl. now constructor.
    + unfold JsMap.keys. simpl. constructor; [|now apply IH].
      intros Hin. apply in_keys_set in Hin as [->|Hin]; [congruence | contradiction].
Qed.

Lemma NoDup_keys_delete {V : Type} (k : string) (m : JsMap.t V) :
  NoDup (JsMap.keys m) -> NoDup (JsMap.keys (JsMap.delete k m)).
Proof.
  induction m as [|[k' v'] m IH]; intros H; [exact H|].
  unfold JsMap.keys in H. simpl in H. inversion H as [|? ? Hnotin Hrest]; subst.
  simpl. destruct (String.eqb k' k); [exact Hrest|].
  unfold JsMap.keys. simpl. constructor; [|now apply IH].
  intros Hin. apply in_keys_delete in Hin. contradiction.
Qed.

Lemma NoDup_keys_afterLookup (k : string) (useCache : bool) (cache : JsMap.t CacheEntry) :
  NoDup (JsMap.keys cache) -> NoDup (JsMap.keys (afterLookup k useCache cache)).
Proof.
  intros H. unfold afterLookup.
  destruct (useCache && JsMap.has k cache); [now apply NoDup_keys_delete | exact H].
Qed.

Lemma NoDup_keys_afterStore (k : string) (e : CacheEntry) (cache : JsMap.t CacheEntry) :
  NoDup (JsMap.keys cache) -> NoDup (JsMap.keys (afterStore k e cache)).
Proof.
  intros H. unfold afterStore. cbv zeta.
  pose proof (NoDup_keys_set k e cache H) as Hset.
  destruct (100 <? JsMap.size (JsMap.set k e cache)); [|exact Hset].
  destruct (JsMap.firstKey (JsMap.set k e cache)); [|exact Hset].
  now apply NoDup_keys_delete.
Qed.

(** The keys of the cache are distinct after a call if they were before: the
    list stays a [Map]. *)
Lemma executeSqlQuery_keys_distinct (query : string) (useCache : bool) (s : State) :
  NoDup (JsMap.keys (queryCache (self s))) ->
  NoDup (JsMap.keys (queryCache (self (snd (executeSqlQuery query useCache s))))).
Proof.
  intros Hwf.
  destruct (executeSqlQuery query useCache s) as [o s'] eqn:H.
  apply executeSqlQuery_cases in H. cbv zeta in H.
  destruct H as (r & _ & _ & _ & _ & _ & _ & _ & Hcases). simpl.
  pose proof (NoDup_keys_afterLookup (generateCacheKey query) useCache _ Hwf) as Hlook.
  destruct Hcases as [(entry & _ & _ & _ & _ & -> & _) | (_ & _ & _ & _ & Hres)]; [assumption|].
  destruct Hres as [(rows & t & _ & [(_ & now & ->) | (_ & ->)]) | (t & m & c & _ & ->)];
    try assumption.
  now apply NoDup_keys_afterStore.
Qed.

(** On an agent that started new, after any calls: the time-to-live is
    still five minutes and the keys of the cache are distinct. *)
Lemma runCalls_invariants (calls : list Call) (s : State) :
  cacheTimeout (self s) = 300000%Z ->
  NoDup (JsMap.keys (queryCache (self s))) ->
  cacheTimeout (self (runCalls calls s)) = 300000%Z /\
  NoDup (JsMap.keys (queryCache (self (runCalls calls s)))).
Proof.
  revert s. induction calls as [|[query useCache|] calls IH]; intros s Httl Hwf; simpl.
  - auto.
  - apply IH.
    + destruct (executeSqlQuery query useCache s) as [o s'] eqn:H.
      apply executeSqlQuery_cases in H. cbv zeta in H.
      destruct H as (r & _ & _ & Hsame & _). simpl. now rewrite Hsame.
    + now apply executeSqlQuery_keys_distinct.
  - apply IH; simpl; [exact Httl | constructor].
Qed.

(** Sharper: 37 bytes and the high half of the 38th decide the key. *)
Lemma generateCacheKey_prefix_37 (p : string) (c d : ascii) (a b : string) :
  String.length p = 37 ->
  nat_of_ascii c / 16 = nat_of_ascii d / 16 ->
  generateCacheKey (p ++ String c a) = generateCacheKey (p ++ String d b).
Proof.
  intros H Hhigh.
  do 37 (destruct p as [|? p]; [discriminate|]).
  destruct p; [|discriminate].
  unfold generateCacheKey, substring0.
  destruct a, b; cbn -[Nat.div Nat.modulo base64Digit nat_of_ascii];
    rewrite Hhigh; reflexivity.
Qed.

(** C9.  The cache key is the first 50 characters of the base64 text of the
    statement, and that is determined by the statement's first 38 bytes: two
    statements with the same first 38 bytes have the same key, and there
    are distinct statements that do.  When two statements have the same key,
    a fresh result stored for the first is returned, flagged as cached and
    without any statement being sent, as the result of the second, as long as
    the stored entry is within its time-to-live. *)
Theorem cache_key_collision_serves_other_query :
  (forall query, generateCacheKey query = substring 0 50 (base64 query))
  /\
  (forall p a b,
      String.length p = 38 -> generateCacheKey (p ++ a) = generateCacheKey (p ++ b))
  /\
  (exists q1 q2, q1 <> q2 /\ generateCacheKey q1 = generateCacheKey q2)
  /\
  (forall q1 q2 s r1 rows,
      generateCacheKey q1 = generateCacheKey q2 ->
      NoDup (JsMap.keys (queryCache (self s))) ->
      fst (executeSqlQuery q1 true s) = Return r1 ->
      QueryResult.fromCache r1 = Some false ->
      QueryResult.data r1 = Some rows ->
      0 < length rows < 1000 ->
      let s1 := snd (executeSqlQuery q1 true s) in
      (forall entry,
          JsMap.get (generateCacheKey q2) (queryCache (self s1)) = Some entry ->
          fresh (self s1) entry (clock (world s1) (S (ticks (world s1))))) ->
      exists r2,
        fst (executeSqlQuery q2 true s1) = Return r2 /\
        QueryResult.data r2 = Some rows /\
        QueryResult.fromCache r2 = Some true /\
        trace (world (snd (executeSqlQuery q2 true s1))) = trace (world s1)).
Proof.
  split; [reflexivity|]. split; [apply generateCacheKey_prefix|]. split.
  - exists "SELECT companyName FROM company WHERE companyId = 1",
           "SELECT companyName FROM company WHERE status = 'active'".
    split; [discriminate | reflexivity].
  - intros q1 q2 s r1 rows Hkey Hwf Hr1 Hfresh1 Hdata Hlen s1 Hfresh. subst s1.
    destruct (executeSqlQuery q1 true s) as [o1 s1] eqn:H1.
    apply executeSqlQuery_cases in H1. cbv zeta in H1. simpl in Hr1, Hfresh |- *. subst o1.
    destruct H1 as (r & [= <-] & _ & _ & _ & _ & _ & _ & Hcases).
    assert (Hstored : exists now,
               JsMap.get (generateCacheKey q2) (queryCache (self s1))
               = Some (mkEntry rows now)).
    { destruct Hcases as [(entry & _ & _ & _ & -> & _) | (_ & _ & _ & _ & Hres)];
        [discriminate|].
      destruct Hres as [(rows' & t & -> & Hstore) | (t & m & c & -> & _)]; [|discriminate].
      simpl in Hdata. injection Hdata as ->.
      destruct Hstore as [(_ & now & Hcache) | (Hno & _)].
      - exists now. rewrite Hcache, <- Hkey. apply get_afterStore.
        now apply has_afterLookup.
      - exfalso. destruct Hlen as [H0 H1].
        apply Nat.ltb_lt in H0, H1. rewrite H0, H1 in Hno. discriminate. }
    destruct Hstored as [now Hstored].
    destruct (executeSqlQuery q2 true s1) as [o2 s2] eqn:H2.
    apply executeSqlQuery_cases in H2. cbv zeta in H2.
    destruct H2 as (r2 & -> & _ & _ & _ & _ & _ & _ & Hcases2). simpl.
    destruct Hcases2 as [(entry & _ & Hget & _ & -> & _ & _ & Htrace & _) | (Hstale & _)].
    + rewrite Hstored in Hget. injection Hget as <-.
      eexists. split; [reflexivity|]. simpl. repeat split. exact Htrace.
    + exfalso. exact (Hstale eq_refl _ Hstored (Hfresh _ Hstored)).
Qed.

(** ** Query synthesis and its fallback *)

#[local] Arguments selectCategory : simpl never.
#[local] Arguments selectTables : simpl never.
#[local] Arguments generateSqlQuery : simpl never.
#[local] Arguments executeSqlQuery : simpl never.
#[local] Arguments generateResponse : simpl never.
#[local] Arguments validateAndOptimizeQuery : simpl never.
#[local] Arguments processQuestion : simpl never.
#[local] Arguments isRateLimited : simpl never.
#[local] Arguments getSchemaInfo : simpl never.
#[local] Arguments generateFallbackQuery : simpl never.
#[local] Arguments cleanQuery : simpl never.
#[local] Arguments trim : simpl never.
#[local] Arguments generateContent : simpl never.

(** The world after one more call of the model. *)
Lemma generateContent_run (s : State) :
  generateContent s
  = (match llm (world s) (llmCalls (world s)) with
     | LlmText text => Return text
     | LlmError e => Throw e
     end,
     mkState (self s) (rateLimitMap s)
       (mkWorld (clock (world s)) (ticks (world s)) (database (world s))
          (dbCalls (world s)) (pool (world s)) (poolCalls (world s)) (llm (world s))
          (S (llmCalls (world s))) (trace (world s) ++ [EvGenerate])%list)).
Proof.
  unfold generateContent, bind, getWorld, modifyWorld, ret, throw, log. cbn.
  destruct (llm (world s) (llmCalls (world s))); reflexivity.
Qed.

Section AgentProperties.

Variable toUpperCase : string -> string.
Variable toLowerCase : string -> string.

(** The template the fallback would choose for a counting question: a
    count over the first candidate table. *)
Lemma generateFallbackQuery_count (question : string) (table : string)
    (others : list string) :
  table <> EmptyString ->
  includes (toLowerCase question) "summary" = false ->
  includes (toLowerCase question) "how many" = true ->
  generateFallbackQuery toLowerCase question (table :: others)
  = "SELECT COUNT(*) as count FROM " ++ table.
Proof.
  intros Hne Hsum Hmany. unfold generateFallbackQuery. rewrite Hsum, Hmany. simpl.
  destruct (String.eqb_spec table EmptyString); [contradiction | reflexivity].
Qed.

(** A model failure that is not a rate limit is replaced by a fixed
    error. *)
Lemma generateSqlQuery_other_failure (question : string) (tableNames : list string)
    (schemaInfo : string) (s : State) (e : JsError) :
  llm (world s) (llmCalls (world s)) = LlmError e ->
  status e <> Some 429 ->
  fst (generateSqlQuery toLowerCase question tableNames schemaInfo s)
  = Throw (newError "Failed to generate SQL query").
Proof.
  intros Hllm Hstatus. unfold generateSqlQuery, try_catch, bind.
  rewrite generateContent_run, Hllm.
  assert (Hno : statusIs e 429 = false).
  { unfold statusIs. destruct (status e) as [n|]; [|reflexivity].
    apply Nat.eqb_neq. congruence. }
  now rewrite Hno.
Qed.

(** C3, as the code has it.  When the model call fails with status 429,
    [generateSqlQuery] returns no template query: evaluating the argument
    [relevantTables] of the call to [generateFallbackQuery] throws a
    [ReferenceError], for every question and every list of candidate
    tables. *)
Theorem generateSqlQuery_rate_limit_throws (question : string)
    (tableNames : list string) (schemaInfo : string) (s : State) (e : JsError) :
  llm (world s) (llmCalls (world s)) = LlmError e ->
  status e = Some 429 ->
  fst (generateSqlQuery toLowerCase question tableNames schemaInfo s)
  = Throw (mkError ReferenceError "relevantTables is not defined" None None).
Proof.
  intros Hllm Hstatus. unfold generateSqlQuery, try_catch, bind.
  rewrite generateContent_run, Hllm.
  unfold statusIs. rewrite Hstatus. reflexivity.
Qed.

End AgentProperties.

(** ** Category selection *)

(** The score is the sum of the lengths of the keywords that occur in the
    lowercased question. *)
Lemma keywordScore_sum (questionLower : string) (keywords : list string) :
  keywordScore questionLower keywords
  = list_sum (map String.length (filter (includes questionLower) keywords)).
Proof.
  unfold keywordScore.
  assert (G : forall acc,
             fold_left
               (fun score keyword =>
                  if includes questionLower keyword
                  then score + String.length keyword else score) keywords acc
             = acc + list_sum (map String.length (filter (includes questionLower) keywords))).
  { induction keywords as [|k rest IH]; intros acc; simpl; [lia|].
    rewrite IH. destruct (includes questionLower k); simpl; lia. }
  apply G.
Qed.

(** The outer loop keeps the first entry whose score is the largest, when
    that score beats the starting one. *)
Lemma bestMatch_fold (questionLower : string) (categories : list (string * CategoryData.t))
    (start : option string * nat) :
  let best :=
    fold_left
      (fun best entry =>
         let score := keywordScore questionLower (CategoryData.keywords (snd entry)) in
         if snd best <? score then (Some (fst entry), score) else best)
      categories start in
  (best = start /\ Forall (fun e => scoreOf questionLower e <= snd start) categories)
  \/
  (exists earlier entry later,
      categories = (earlier ++ entry :: later)%list /\
      best = (Some (fst entry), scoreOf questionLower entry) /\
      snd start < scoreOf questionLower entry /\
      Forall (fun e => scoreOf questionLower e < scoreOf questionLower entry) earlier /\
      Forall (fun e => scoreOf questionLower e <= scoreOf questionLower entry) later).
Proof.
  cbv zeta. revert start.
  induction categories as [|e rest IH]; intros start; simpl.
  - left. split; [reflexivity | constructor].
  - fold (scoreOf questionLower e).
    destruct (Nat.ltb_spec (snd start) (scoreOf questionLower e)) as [Hlt|Hge].
    + destruct (IH (Some (fst e), scoreOf questionLower e))
        as [[-> Hall] | (earlier & entry & later & -> & -> & Hbeat & Hpre & Hpost)].
      * right. exists [], e, rest. simpl in Hall. repeat split; auto.
      * right. exists (e :: earlier), entry, later. simpl in Hbeat.
        repeat split; auto; try lia.
    + destruct (IH start)
        as [[-> Hall] | (earlier & entry & later & -> & -> & Hbeat & Hpre & Hpost)].
      * left. split; [reflexivity|]. constructor; assumption.
      * right. exists (e :: earlier), entry, later.
        repeat split; auto. constructor; [lia | assumption].
Qed.

(** [bestMatch] is empty exactly when every category scores zero; otherwise
    it is the first category, in the order of the mapping, whose score is
    the highest, and that score is not zero. *)
Lemma bestMatch_spec (questionLower : string) (categories : list (string * CategoryData.t)) :
  (bestMatch questionLower categories = (None, 0) /\
   Forall (fun e => scoreOf questionLower e = 0) categories)
  \/
  (exists earlier entry later,
      categories = (earlier ++ entry :: later)%list /\
      bestMatch questionLower categories = (Some (fst entry), scoreOf questionLower entry) /\
      0 < scoreOf questionLower entry /\
      Forall (fun e => scoreOf questionLower e < scoreOf questionLower entry) earlier /\
      Forall (fun e => scoreOf questionLower e <= scoreOf questionLower entry) later).
Proof.
  unfold bestMatch.
  pose proof (bestMatch_fold questionLower categories (None, 0)) as H.
  cbv zeta in H |- *. destruct H as [[-> Hall] | H].
  - left. split; [reflexivity|]. simpl in Hall.
    eapply Forall_impl; [|exact Hall]. simpl. intros; lia.
  - right. exact H.
Qed.

(** Every category name of the mapping reads back its own table list. *)
Lemma tablesOf_own (entry : string * CategoryData.t) :
  In entry getCategoryMapping ->
  tablesOf getCategoryMapping (fst entry) = Some (CategoryData.tables (snd entry)).
Proof.
  unfold getCategoryMapping. simpl.
  intros H. repeat (destruct H as [<-|H]; [reflexivity|]). contradiction.
Qed.

Section CategoryProperties.

Variable toLowerCase : string -> string.

(** A question with a keyword in it: the best-scoring category is
    returned, and the model is not asked. *)
Lemma selectCategory_by_keywords (question : string) (s : State) (entry : string * CategoryData.t) :
  bestMatch (toLowerCase question) getCategoryMapping
  = (Some (fst entry), scoreOf (toLowerCase question) entry) ->
  0 < scoreOf (toLowerCase question) entry ->
  selectCategory toLowerCase question s
  = (Return (Selection.mk (fst entry) (tablesOf getCategoryMapping (fst entry))), s).
Proof.
  intros Hbest Hpos. unfold selectCategory, bind, ret. rewrite Hbest. simpl.
  destruct (Nat.eqb_spec (scoreOf (toLowerCase question) entry) 0); [lia|]. reflexivity.
Qed.

(** A question without any keyword: the model is asked once, and its
    trimmed reply decides.  A category name gives that category; a reply
    that [categories[...]] does not find gives "General" with every loaded
    table; a failing model call gives "General" too.  A reply that names a
    member of [Object.prototype] is found by [categories[...]] and comes
    back as the category, without tables. *)
Lemma selectCategory_by_model (question : string) (s : State) :
  bestMatch (toLowerCase question) getCategoryMapping = (None, 0) ->
  let reply := llm (world s) (llmCalls (world s)) in
  let general :=
    Selection.mk "General" (Some (JsMap.keys (tableSchemas (self s)))) in
  llmCalls (world (snd (selectCategory toLowerCase question s)))
  = S (llmCalls (world s)) /\
  trace (world (snd (selectCategory toLowerCase question s)))
  = (trace (world s) ++ [EvGenerate])%list /\
  fst (selectCategory toLowerCase question s)
  = Return
      match reply with
      | LlmError _ => general
      | LlmText text =>
          match JsObject.get getCategoryMapping (trim text) with
          | JsObject.Own categoryData =>
              Selection.mk (trim text) (Some (CategoryData.tables categoryData))
          | JsObject.Inherited => Selection.mk (trim text) None
          | JsObject.Missing => general
          end
      end.
Proof.
  intros Hbest reply general. subst reply general.
  unfold selectCategory, bind, try_catch, getSelf, ret. rewrite Hbest.
  cbn -[getCategoryMapping JsObject.get trim]. rewrite generateContent_run.
  destruct (llm (world s) (llmCalls (world s))) as [text|e];
    cbn -[getCategoryMapping JsObject.get trim tablesOf].
  - unfold tablesOf.
    destruct (JsObject.get getCategoryMapping (trim text));
      cbn -[getCategoryMapping JsObject.get trim]; repeat split; reflexivity.
  - repeat split; reflexivity.
Qed.

End CategoryProperties.

(** C7, where the code departs from it.  The question below contains no
    keyword of any category, so every category scores zero and the model is
    asked; the model replies "constructor", which is not the name of a
    category.  [selectCategory] does not return "General" with the loaded
    tables: [categories["constructor"]] is the function every object inherits,
    so the reply is returned as the category, with no table list. *)
Theorem selectCategory_inherited_reply_is_not_general :
  let question := "Reply with the single word constructor" in
  let schemas := [("company", mkSchema "company" EmptyString [])] in
  let s :=
    mkState (newAgent schemas) []
      (freshWorld (fun _ => 0%Z) steadyDatabase (fun _ => PoolRecreated)
         (fun _ => LlmText "constructor")) in
  Forall (fun e => scoreOf (asciiLower question) e = 0) getCategoryMapping /\
  JsObject.own getCategoryMapping "constructor" = None /\
  fst (selectCategory asciiLower question s) = Return (Selection.mk "constructor" None) /\
  fst (selectCategory asciiLower question s)
  <> Return (Selection.mk "General" (Some ["company"])) /\
  trace (world (snd (selectCategory asciiLower question s))) = [EvGenerate].
Proof.
  cbv zeta. split.
  - repeat constructor.
  - repeat split; try reflexivity. vm_compute. discriminate.
Qed.

(** ** The pipeline *)

#[local] Arguments Date_now : simpl never.

Lemma executeSqlQuery_returns (query : string) (useCache : bool) (s : State) :
  exists r s', executeSqlQuery query useCache s = (Return r, s').
Proof.
  destruct (executeSqlQuery query useCache s) as [o s'] eqn:H.
  destruct (executeSqlQuery_cases _ _ _ _ _ H) as (r & -> & _). eauto.
Qed.

(** A failure object has an error message and neither rows, nor a row count,
    nor a cache flag. *)
Lemma executeSqlQuery_failure_shape (query : string) (useCache : bool) (s s' : State)
    (r : QueryResult.t) :
  executeSqlQuery query useCache s = (Return r, s') ->
  QueryResult.success r = false ->
  QueryResult.rowCount r = None /\ QueryResult.fromCache r = None /\
  QueryResult.data r = None /\ exists message, QueryResult.error r = Some message.
Proof.
  intros H Hfail. apply executeSqlQuery_cases in H. cbv zeta in H.
  destruct H as (r' & [= <-] & _ & _ & _ & _ & _ & _ & Hcases).
  destruct Hcases as [(entry & _ & _ & _ & -> & _) | (_ & _ & _ & _ & Hres)];
    [discriminate|].
  destruct Hres as [(rows & t & -> & _) | (t & m & c & -> & _)]; [discriminate|].
  simpl. eauto.
Qed.

Lemma generateResponse_failure (question query : string) (r : QueryResult.t) (s : State) :
  QueryResult.success r = false ->
  generateResponse question query r s
  = (Return (apology match QueryResult.error r with
                     | Some e => e
                     | None => "undefined"
                     end), s).
Proof. intros H. unfold generateResponse. rewrite H. reflexivity. Qed.

Lemma generateResponse_returns (question query : string) (r : QueryResult.t) (s : State) :
  exists response s', generateResponse question query r s = (Return response, s').
Proof.
  unfold generateResponse.
  destruct (QueryResult.success r); simpl; [|unfold ret; eauto].
  destruct (QueryResult.data r) as [[|row rows]|]; try (unfold ret; eauto).
  unfold try_catch, bind. rewrite generateContent_run.
  destruct (llm (world s) (llmCalls (world s))); unfold ret; eauto.
Qed.

Section PipelineProperties.

Variable toUpperCase : string -> string.
Variable toLowerCase : string -> string.

(** Once the first five steps have produced a guarded statement,
    [processQuestion] returns the success object built from the result of
    the execution and the composed response. *)
Lemma processQuestion_after_guard (question : string) (s s1 s2 s3 : State)
    (selection : Selection.t) (selectedTables : list string)
    (sqlQuery optimizedQuery : string) :
  selectCategory toLowerCase question s = (Return selection, s1) ->
  selectTables toLowerCase question (Selection.tables selection) s1
  = (Return selectedTables, s2) ->
  generateSqlQuery toLowerCase question selectedTables
    (getSchemaInfo (self s2) selectedTables) s2 = (Return sqlQuery, s3) ->
  validateAndOptimizeQuery toUpperCase sqlQuery = Return optimizedQuery ->
  exists queryResult s4 response s5,
    executeSqlQuery optimizedQuery true s3 = (Return queryResult, s4) /\
    generateResponse question optimizedQuery queryResult s4 = (Return response, s5) /\
    processQuestion toUpperCase toLowerCase question s
    = (Return
         (Answer.mk true question (Some (Selection.category selection))
            (Some selectedTables) (Some optimizedQuery)
            (Some (QueryResult.executionTime queryResult))
            (Some match QueryResult.rowCount queryResult with
                  | Some n => n
                  | None => 0
                  end)
            (Some match QueryResult.fromCache queryResult with
                  | Some b => b
                  | None => false
                  end)
            response None),
       s5).
Proof.
  intros Hcat Htab Hsql Hguard.
  destruct (executeSqlQuery_returns optimizedQuery true s3) as (queryResult & s4 & Hexec).
  destruct (generateResponse_returns question optimizedQuery queryResult s4)
    as (response & s5 & Hresp).
  exists queryResult, s4, response, s5. split; [exact Hexec|]. split; [exact Hresp|].
  unfold processQuestion, try_catch, bind, getSelf, lift, ret.
  rewrite Hcat, Htab, Hsql, Hguard, Hexec, Hresp. reflexivity.
Qed.

(** An accepted request is answered with the status that the success flag
    of [processQuestion] selects. *)
Lemma postQuery_accepted (req : Http.request) (raw : string) (s s0 s1 : State)
    (answer : Answer.t) :
  Http.question req = Some raw ->
  String.length (trim raw) <> 0 ->
  (if Http.rateLimitBypass req then ret false else isRateLimited (Http.ip req)) s
  = (Return false, s0) ->
  processQuestion toUpperCase toLowerCase (trim raw) s0 = (Return answer, s1) ->
  exists resp s2,
    postQuery toUpperCase toLowerCase req s = (Return resp, s2) /\
    Http.statusCode resp = (if Answer.success answer then 200 else 400) /\
    Http.success resp = Answer.success answer /\
    (Answer.success answer = true -> Http.error resp = None).
Proof.
  intros Hq Hlen Hlimit Hanswer.
  assert (Hraw : String.eqb raw EmptyString = false).
  { destruct raw; [exfalso; apply Hlen; reflexivity | reflexivity]. }
  unfold postQuery, try_catch, bind. rewrite Hq, Hraw.
  destruct (Nat.eqb_spec (String.length (trim raw)) 0) as [|_]; [contradiction|].
  cbn beta iota delta [orb]. rewrite Hlimit, Hanswer.
  unfold Date_now, bind, getWorld, modifyWorld, ret. cbn.
  do 2 eexists. split; [reflexivity|]. cbn.
  destruct (Answer.success answer); repeat split; try reflexivity; discriminate.
Qed.

(** C8.  For every accepted [/query] request whose pipeline reaches query
    execution (category, tables, statement and guard all succeeded),
    [processQuestion] returns [success = true] and the route answers with
    status 200; and when the execution itself failed, the object returned
    is still the success object: its response is the apology that embeds
    the error message, its [rowCount] is 0, and it has no [error] field. *)
Theorem failed_execution_is_reported_as_success
    (req : Http.request) (raw : string) (s s0 s1 s2 s3 : State)
    (selection : Selection.t) (selectedTables : list string)
    (sqlQuery optimizedQuery : string) :
  Http.question req = Some raw ->
  String.length (trim raw) <> 0 ->
  (if Http.rateLimitBypass req then ret false else isRateLimited (Http.ip req)) s
  = (Return false, s0) ->
  selectCategory toLowerCase (trim raw) s0 = (Return selection, s1) ->
  selectTables toLowerCase (trim raw) (Selection.tables selection) s1
  = (Return selectedTables, s2) ->
  generateSqlQuery toLowerCase (trim raw) selectedTables
    (getSchemaInfo (self s2) selectedTables) s2 = (Return sqlQuery, s3) ->
  validateAndOptimizeQuery toUpperCase sqlQuery = Return optimizedQuery ->
  (exists answer s',
      processQuestion toUpperCase toLowerCase (trim raw) s0 = (Return answer, s') /\
      Answer.success answer = true /\
      exists resp s'',
        postQuery toUpperCase toLowerCase req s = (Return resp, s'') /\
        Http.statusCode resp = 200 /\
        Http.success resp = true /\
        Http.error resp = None)
  /\
  (forall queryResult s4,
      executeSqlQuery optimizedQuery true s3 = (Return queryResult, s4) ->
      QueryResult.success queryResult = false ->
      exists message,
        QueryResult.error queryResult = Some message /\
        processQuestion toUpperCase toLowerCase (trim raw) s0
        = (Return
             (Answer.mk true (trim raw) (Some (Selection.category selection))
                (Some selectedTables) (Some optimizedQuery)
                (Some (QueryResult.executionTime queryResult))
                (Some 0) (Some false) (apology message) None),
           s4)).
Proof.
  intros Hq Hlen Hlimit Hcat Htab Hsql Hguard.
  destruct (processQuestion_after_guard _ _ _ _ _ _ _ _ _ Hcat Htab Hsql Hguard)
    as (queryResult & s4 & response & s5 & Hexec & Hresp & Hanswer).
  split.
  - do 2 eexists. split; [exact Hanswer|]. split; [reflexivity|].
    destruct (postQuery_accepted _ _ _ _ _ _ Hq Hlen Hlimit Hanswer)
      as (resp & s6 & Hpost & Hstatus & Hsuccess & Herror).
    exists resp, s6. simpl in Hstatus, Hsuccess, Herror. auto.
  - intros queryResult' s4' Hexec' Hfail.
    rewrite Hexec in Hexec'. injection Hexec' as <- <-.
    destruct (executeSqlQuery_failure_shape _ _ _ _ _ Hexec Hfail)
      as (Hcount & Hcache & _ & message & Herr).
    exists message. split; [exact Herr|].
    rewrite generateResponse_failure in Hresp by exact Hfail.
    injection Hresp as <- <-.
    rewrite Hanswer, Hcount, Hcache, Herr. reflexivity.
Qed.

(** C10.  The result object of a cache hit has no [rowCount] field: the
    field is present exactly on fresh executions, where it is the number of
    rows.  So when the pipeline of [processQuestion] reaches execution and
    the statement is served from the cache, the answer reports
    [rowCount = 0] (and [fromCache = true]), whatever rows are cached. *)
Theorem cache_hit_reports_zero_rows :
  (forall query s entry,
      JsMap.get (generateCacheKey query) (queryCache (self s)) = Some entry ->
      fresh (self s) entry (clock (world s) (S (ticks (world s)))) ->
      exists r,
        fst (executeSqlQuery query true s) = Return r /\
        QueryResult.fromCache r = Some true /\
        QueryResult.data r = Some (result entry) /\
        QueryResult.rowCount r = None)
  /\
  (forall query useCache s r,
      fst (executeSqlQuery query useCache s) = Return r ->
      QueryResult.fromCache r = Some false ->
      exists rows,
        QueryResult.data r = Some rows /\ QueryResult.rowCount r = Some (length rows))
  /\
  (forall question s s1 s2 s3 selection selectedTables sqlQuery optimizedQuery entry,
      selectCategory toLowerCase question s = (Return selection, s1) ->
      selectTables toLowerCase question (Selection.tables selection) s1
      = (Return selectedTables, s2) ->
      generateSqlQuery toLowerCase question selectedTables
        (getSchemaInfo (self s2) selectedTables) s2 = (Return sqlQuery, s3) ->
      validateAndOptimizeQuery toUpperCase sqlQuery = Return optimizedQuery ->
      JsMap.get (generateCacheKey optimizedQuery) (queryCache (self s3)) = Some entry ->
      fresh (self s3) entry (clock (world s3) (S (ticks (world s3)))) ->
      exists answer,
        fst (processQuestion toUpperCase toLowerCase question s) = Return answer /\
        Answer.success answer = true /\
        Answer.fromCache answer = Some true /\
        Answer.rowCount answer = Some 0).
Proof.
  assert (Hhit : forall query s entry,
             JsMap.get (generateCacheKey query) (queryCache (self s)) = Some entry ->
             fresh (self s) entry (clock (world s) (S (ticks (world s)))) ->
             exists r,
               fst (executeSqlQuery query true s) = Return r /\
               QueryResult.fromCache r = Some true /\
               QueryResult.data r = Some (result entry) /\
               QueryResult.rowCount r = None).
  { intros query s entry Hget Hfresh.
    destruct (executeSqlQuery query true s) as [o s'] eqn:H.
    apply executeSqlQuery_cases in H. cbv zeta in H.
    destruct H as (r & -> & _ & _ & _ & _ & _ & _ & Hcases).
    destruct Hcases as [(entry' & _ & Hget' & _ & -> & _) | (Hstale & _)].
    - rewrite Hget in Hget'. injection Hget' as <-.
      eexists. split; [reflexivity|]. simpl. auto.
    - exfalso. exact (Hstale eq_refl entry Hget Hfresh). }
  split; [exact Hhit|]. split.
  - intros query useCache s r Hr Hfresh.
    destruct (executeSqlQuery query useCache s) as [o s'] eqn:H.
    apply executeSqlQuery_cases in H. cbv zeta in H. simpl in Hr. subst o.
    destruct H as (r' & [= <-] & _ & _ & _ & _ & _ & _ & Hcases).
    destruct Hcases as [(entry & _ & _ & _ & -> & _) | (_ & _ & _ & _ & Hres)];
      [discriminate|].
    destruct Hres as [(rows & t & -> & _) | (t & m & c & -> & _)]; [|discriminate].
    exists rows. split; reflexivity.
  - intros question s s1 s2 s3 selection selectedTables sqlQuery optimizedQuery entry
      Hcat Htab Hsql Hguard Hget Hfresh.
    destruct (processQuestion_after_guard _ _ _ _ _ _ _ _ _ Hcat Htab Hsql Hguard)
      as (queryResult & s4 & response & s5 & Hexec & _ & Hanswer).
    destruct (Hhit optimizedQuery s3 entry Hget Hfresh) as (r & Hr & Hflag & _ & Hcount).
    rewrite Hexec in Hr. simpl in Hr. injection Hr as <-.
    rewrite Hanswer. eexists. split; [reflexivity|]. simpl.
    rewrite Hflag, Hcount. auto.
Qed.

End PipelineProperties.

(* ================================================================== *)
(** * The properties at concrete inputs *)
(* ================================================================== *)

(** C1 on a lowercase [drop] and on a lowercase statement with a limit. *)
Lemma guard_rejects_blocklist_keeps_limit_witness :
  (exists found,
      In found dangerousKeywords /\
      Substring found (asciiUpper "drop table company") /\
      validateAndOptimizeQuery asciiUpper "drop table company"
      = Throw (newError ("Query contains prohibited keyword: " ++ found)))
  /\
  validateAndOptimizeQuery asciiUpper "select name from company limit 5"
  = Return "select name from company limit 5".
Proof.
  split.
  - apply (proj1 (guard_rejects_blocklist_keeps_limit asciiUpper "drop table company") "DROP").
    + simpl. auto.
    + exists EmptyString, " TABLE COMPANY". reflexivity.
  - apply (proj2 (guard_rejects_blocklist_keeps_limit asciiUpper
                    "select name from company limit 5")).
    + intros keyword Hin. apply includes_false. simpl in Hin.
      repeat (destruct Hin as [<-|Hin]; [reflexivity|]). contradiction.
    + apply includes_spec. reflexivity.
Defined.

(** C4 on a plain selection and on a grouped one. *)
Lemma guard_limit_injection_witness :
  validateAndOptimizeQuery asciiUpper "SELECT name FROM company"
  = Return "SELECT name FROM company LIMIT 100"
  /\
  validateAndOptimizeQuery asciiUpper "select status from company group by status"
  = Return "select status from company group by status".
Proof.
  assert (Hpass : forall text,
             firstProhibited text dangerousKeywords = None ->
             forall keyword, In keyword dangerousKeywords -> ~ Substring keyword text).
  { intros text H. now apply firstProhibited_None. }
  split.
  - destruct (guard_limit_injection asciiUpper "SELECT name FROM company") as [Hplain _].
    + apply Hpass. reflexivity.
    + apply includes_spec. reflexivity.
    + apply includes_false. reflexivity.
    + apply Hplain; apply includes_false; reflexivity.
  - destruct (guard_limit_injection asciiUpper
                "select status from company group by status") as [_ Hgroup].
    + apply Hpass. reflexivity.
    + apply includes_spec. reflexivity.
    + apply includes_false. reflexivity.
    + apply Hgroup. apply includes_spec. reflexivity.
Defined.

(** C2 (amended) on a database whose first two answers are resets. *)
Lemma executeQuery_two_resets_then_rows_witness :
  exists s' new,
    executeQuery "SELECT 1" (startState secondsClock flakyDatabase steadyModel)
    = (Return (Some oneRow), s') /\
    self s' = self (startState secondsClock flakyDatabase steadyModel) /\
    trace (world s') = new /\
    executions new = ["SELECT 1"; "SELECT 1"; "SELECT 1"] /\
    delays new = [2000; 4000]%Z.
Proof.
  apply (executeQuery_two_resets_then_rows "SELECT 1"
           (startState secondsClock flakyDatabase steadyModel)
           resetError resetError oneRow); reflexivity.
Defined.

(** C3 on a counting question, with a model that is out of quota. *)
Lemma generateSqlQuery_rate_limit_throws_witness :
  fst (generateSqlQuery asciiLower "How many companies do we have?" ["company"]
         EmptyString (startState secondsClock steadyDatabase exhaustedModel))
  = Throw (mkError ReferenceError "relevantTables is not defined" None None).
Proof.
  apply (generateSqlQuery_rate_limit_throws asciiLower "How many companies do we have?"
           ["company"] EmptyString
           (startState secondsClock steadyDatabase exhaustedModel) quotaExceeded);
    reflexivity.
Defined.

(** C5 (amended): an entry stored at time 0, looked up after two seconds, and looked
    up after ten minutes. *)
Lemma cache_hit_within_ttl_miss_after_witness :
  (exists hit,
      fst (executeSqlQuery companyNames true
             (cachedState companyNames oneRow secondsClock failingDatabase steadyModel))
      = Return hit /\
      QueryResult.data hit = Some oneRow /\
      QueryResult.fromCache hit = Some true)
  /\
  (exists miss,
      fst (executeSqlQuery companyNames true
             (cachedState companyNames oneRow slowClock steadyDatabase steadyModel))
      = Return miss /\
      QueryResult.success miss = true /\
      QueryResult.fromCache miss = Some false).
Proof.
  split.
  - destruct (proj1 (cache_hit_within_ttl_miss_after companyNames
                       (cachedState companyNames oneRow secondsClock failingDatabase
                          steadyModel)
                       (mkEntry oneRow 0%Z) eq_refl eq_refl) eq_refl)
      as (hit & Hrun & _ & Hdata & Hflag & _).
    exists hit. auto.
  - destruct (proj2 (cache_hit_within_ttl_miss_after companyNames
                       (cachedState companyNames oneRow slowClock steadyDatabase
                          steadyModel)
                       (mkEntry oneRow 0%Z) eq_refl eq_refl))
      as (miss & Hrun & _ & _ & _ & _ & Hflag & _).
    + vm_compute. discriminate.
    + exists miss. split; [exact Hrun|].
      assert (Hok : QueryResult.success miss = true).
      { vm_compute in Hrun. injection Hrun as <-. reflexivity. }
      auto.
Defined.

(** C6: the hundred-and-first statement on a full cache. *)
Lemma cache_at_most_100_oldest_evicted_witness :
  JsMap.size (queryCache (self (snd (executeSqlQuery "SELECT 100" true fullState)))) <= 100
  /\
  exists now,
    queryCache (self (snd (executeSqlQuery "SELECT 100" true fullState)))
    = (tl fullCache ++ [(generateCacheKey "SELECT 100", mkEntry oneRow now)])%list.
Proof.
  destruct cache_at_most_100_oldest_evicted as (_ & Hbound & Hevict). split.
  - apply Hbound. vm_compute. repeat constructor.
  - apply (Hevict "SELECT 100" fullState
             (QueryResult.mk true (Some oneRow) 1000%Z (Some false) (Some 1) None None)
             oneRow).
    + reflexivity.
    + vm_compute. reflexivity.
    + vm_compute. reflexivity.
    + reflexivity.
    + reflexivity.
    + simpl. lia.
Defined.

(** C9: two selections on the same table with different conditions. *)
Lemma cache_key_collision_serves_other_query_witness :
  exists r2,
    fst (executeSqlQuery "SELECT companyName FROM company WHERE status = 'active'" true
           (snd (executeSqlQuery "SELECT companyName FROM company WHERE companyId = 1" true
                   (startState secondsClock steadyDatabase steadyModel))))
    = Return r2 /\
    QueryResult.data r2 = Some oneRow /\
    QueryResult.fromCache r2 = Some true /\
    trace (world
             (snd (executeSqlQuery "SELECT companyName FROM company WHERE status = 'active'"
                     true
                     (snd (executeSqlQuery
                             "SELECT companyName FROM company WHERE companyId = 1" true
                             (startState secondsClock steadyDatabase steadyModel))))))
    = trace (world
               (snd (executeSqlQuery "SELECT companyName FROM company WHERE companyId = 1"
                       true (startState secondsClock steadyDatabase steadyModel)))).
Proof.
  destruct cache_key_collision_serves_other_query as (_ & _ & _ & Hserve).
  apply (Hserve "SELECT companyName FROM company WHERE companyId = 1"
           "SELECT companyName FROM company WHERE status = 'active'"
           (startState secondsClock steadyDatabase steadyModel)
           (QueryResult.mk true (Some oneRow) 1000%Z (Some false) (Some 1) None None)
           oneRow).
  - reflexivity.
  - constructor.
  - vm_compute. reflexivity.
  - reflexivity.
  - reflexivity.
  - simpl. lia.
  - intros entry Hget. vm_compute in Hget. injection Hget as <-. vm_compute. reflexivity.
Defined.

(** C8: a request whose statement hits a missing table. *)
Lemma failed_execution_is_reported_as_success_witness :
  (exists answer s',
      processQuestion asciiUpper asciiLower "show company names"
        (snd (isRateLimited "10.0.0.1"
                (startState secondsClock failingDatabase steadyModel)))
      = (Return answer, s') /\
      Answer.success answer = true /\
      exists resp s'',
        postQuery asciiUpper asciiLower sampleRequest
          (startState secondsClock failingDatabase steadyModel)
        = (Return resp, s'') /\
        Http.statusCode resp = 200 /\
        Http.success resp = true /\
        Http.error resp = None)
  /\
  Answer.rowCount
    match fst (processQuestion asciiUpper asciiLower "show company names"
                 (snd (isRateLimited "10.0.0.1"
                         (startState secondsClock failingDatabase steadyModel)))) with
    | Return answer => answer
    | Throw _ => Answer.mk false EmptyString None None None None None None EmptyString None
    end
  = Some 0.
Proof.
  pose (start := startState secondsClock failingDatabase steadyModel).
  pose (s0 := snd (isRateLimited "10.0.0.1" start)).
  pose (s3 := snd (generateSqlQuery asciiLower "show company names" ["company"]
                     EmptyString s0)).
  destruct (failed_execution_is_reported_as_success asciiUpper asciiLower sampleRequest
              "show company names" start s0 s0 s0 s3
              (Selection.mk "Company / Organization"
                 (tablesOf getCategoryMapping "Company / Organization"))
              ["company"] companyNames companyNames)
    as [Hsuccess Hfailed].
  - reflexivity.
  - vm_compute. discriminate.
  - vm_compute. reflexivity.
  - vm_compute. reflexivity.
  - vm_compute. reflexivity.
  - vm_compute. reflexivity.
  - vm_compute. reflexivity.
  - split; [exact Hsuccess|].
    destruct (executeSqlQuery_returns companyNames true s3) as (queryResult & s4 & Hexec).
    assert (Hfail : QueryResult.success queryResult = false).
    { assert (Hfst : fst (executeSqlQuery companyNames true s3) = Return queryResult)
        by (rewrite Hexec; reflexivity).
      vm_compute in Hfst. injection Hfst as <-. reflexivity. }
    destruct (Hfailed queryResult s4 Hexec Hfail) as (message & _ & Hanswer).
    exact (f_equal
             (fun run : Outcome Answer.t * State =>
                Answer.rowCount
                  match fst run with
                  | Return answer => answer
                  | Throw _ =>
                      Answer.mk false EmptyString None None None None None None
                        EmptyString None
                  end)
             Hanswer).
Defined.

(** C10: a question whose statement is already cached. *)
Lemma cache_hit_reports_zero_rows_witness :
  exists answer,
    fst (processQuestion asciiUpper asciiLower "show company names"
           (cachedState companyNames oneRow secondsClock failingDatabase steadyModel))
    = Return answer /\
    Answer.success answer = true /\
    Answer.fromCache answer = Some true /\
    Answer.rowCount answer = Some 0.
Proof.
  pose (start := cachedState companyNames oneRow secondsClock failingDatabase steadyModel).
  pose (s3 := snd (generateSqlQuery asciiLower "show company names" ["company"]
                     EmptyString start)).
  destruct (cache_hit_reports_zero_rows asciiUpper asciiLower) as (_ & _ & Hpipeline).
  apply (Hpipeline "show company names" start start start s3
           (Selection.mk "Company / Organization"
              (tablesOf getCategoryMapping "Company / Organization"))
           ["company"] companyNames companyNames (mkEntry oneRow 0%Z)).
  - vm_compute. reflexivity.
  - vm_compute. reflexivity.
  - vm_compute. reflexivity.
  - vm_compute. reflexivity.
  - vm_compute. reflexivity.
  - vm_compute. reflexivity.
Defined.


(* ================================================================== *)
(** * Further properties of the agent and of the router *)
(* ================================================================== *)

(** ** Retry *)

Lemma executions_repeat_app (sql : string) (n : nat) (t : list Event) :
  executions t = repeat sql n ->
  executions (t ++ [EvExecute sql]) = repeat sql (S n).
Proof.
  intros H. rewrite executions_app, H. simpl.
  change [sql] with (repeat sql 1). rewrite <- repeat_app.
  now rewrite Nat.add_comm.
Qed.

(** Every run of [executeQuery]: between one and three attempts, all with
    the same statement; one delay before each retry, 2000 ms then 4000 ms; the
    pool is torn down at most once, and only before a third attempt; the
    model is not called; the agent and the clock are left alone; the result
    is rows or an exception, never [undefined]. *)
Lemma executeQuery_effects (sql : string) (s : State) :
  exists o w' new n,
    executeQuery sql s = (o, mkState (self s) (rateLimitMap s) w') /\
    clock w' = clock (world s) /\ ticks w' = ticks (world s) /\
    llm w' = llm (world s) /\ llmCalls w' = llmCalls (world s) /\
    database w' = database (world s) /\
    dbCalls w' = dbCalls (world s) + n /\
    trace w' = (trace (world s) ++ new)%list /\
    1 <= n <= 3 /\
    executions new = repeat sql n /\
    delays new = firstn (n - 1) [2000; 4000]%Z /\
    poolEnds new = (if n =? 3 then 1 else 0) /\
    generations new = 0 /\
    o <> Return None.
Proof.
  unfold executeQuery, executeQuery_loop, try_catch, bind, pool_execute, getWorld,
    modifyWorld, ret, throw, sleep, recreatePool, maxRetries. cbn.
  repeat
    (match goal with
     | |- context [match database ?w ?n ?q with _ => _ end] =>
         destruct (database w n q); cbn
     | |- context [isConnectionError ?e] =>
         destruct (isConnectionError e); cbn
     | |- context [match pool ?w ?n with _ => _ end] =>
         destruct (pool w n); cbn
     end);
    rewrite <- ?app_assoc; cbn;
    match goal with
    | |- context [S (S (S (dbCalls _)))] =>
        eexists; eexists; eexists; exists 3
    | |- context [S (S (dbCalls _))] =>
        eexists; eexists; eexists; exists 2
    | |- _ => eexists; eexists; eexists; exists 1
    end;
    (split; [reflexivity|]); cbn; rewrite <- ?app_assoc; cbn;
    repeat (split; [first [reflexivity | lia]|]); discriminate.
Qed.


(** X2.  An error that is not a connection error (its code is none of
    ECONNRESET, PROTOCOL_CONNECTION_LOST, ETIMEDOUT, EPIPE) is thrown at once:
    one attempt, no delay, no pool teardown. *)
Theorem executeQuery_other_error_is_not_retried (sql : string) (s : State) (e : JsError) :
  database (world s) (dbCalls (world s)) sql = DbError e ->
  isConnectionError e = false ->
  fst (executeQuery sql s) = Throw e /\
  trace (world (snd (executeQuery sql s))) = (trace (world s) ++ [EvExecute sql])%list /\
  dbCalls (world (snd (executeQuery sql s))) = S (dbCalls (world s)).
Proof.
  intros Hdb Hconn.
  unfold executeQuery, executeQuery_loop, try_catch, bind, pool_execute, getWorld,
    modifyWorld, ret, throw. cbn.
  rewrite Hdb. cbn. rewrite Hconn. cbn. repeat split.
Qed.

(** X3.  Three connection errors in a row exhaust the retries: whatever the
    third error is, it is the one thrown, after exactly three attempts, delays
    of 2000 ms and 4000 ms, and one teardown of the pool. *)
Theorem executeQuery_gives_up_after_three (sql : string) (s : State) (e1 e2 e3 : JsError) :
  database (world s) (dbCalls (world s)) sql = DbError e1 ->
  isConnectionError e1 = true ->
  database (world s) (S (dbCalls (world s))) sql = DbError e2 ->
  isConnectionError e2 = true ->
  database (world s) (S (S (dbCalls (world s)))) sql = DbError e3 ->
  exists new,
    fst (executeQuery sql s) = Throw e3 /\
    trace (world (snd (executeQuery sql s))) = (trace (world s) ++ new)%list /\
    executions new = [sql; sql; sql] /\
    delays new = [2000; 4000]%Z /\
    poolEnds new = 1.
Proof.
  intros H1 C1 H2 C2 H3.
  unfold executeQuery, executeQuery_loop, try_catch, bind, pool_execute, getWorld,
    modifyWorld, ret, throw, sleep. cbn.
  rewrite H1. cbn. rewrite C1. cbn. rewrite H2. cbn. rewrite C2. cbn.
  unfold recreatePool, try_catch, bind, getWorld, modifyWorld, ret, throw. cbn.
  destruct (pool (world s) (poolCalls (world s))); cbn; rewrite H3; cbn;
    rewrite andb_false_r; cbn; rewrite <- ?app_assoc; cbn;
    eexists; (split; [reflexivity|]); (split; [reflexivity|]); repeat split.
Qed.

(** ** Metrics and history *)

(** The state a history record leaves. *)
Lemma addToQueryHistory_eq (query : string) (ok : bool) (t : Z) (n : nat)
    (e : option string) (s : State) :
  addToQueryHistory query ok t n e s
  = (Return tt,
     mkState
       (withHistory
          (pushHistory (maxHistorySize (self s))
             (History.mk (clock (world s) (ticks (world s))) (substringUnits 200 query)
                ok t n e))
          (self s))
       (rateLimitMap s) (tick (world s))).
Proof.
  unfold addToQueryHistory, bind, Date_now, getWorld, getSelf, modifyWorld, modifySelf, ret,
    pushHistory, withHistory, tick.
  cbn -[Nat.ltb].
  destruct (maxHistorySize (self s) <? length (queryHistory (self s) ++ _)); reflexivity.
Qed.

Lemma pushHistory_length (max : nat) (entry : History.entry) (history : list History.entry) :
  length history <= max -> length (pushHistory max entry history) <= max.
Proof.
  intros H. unfold pushHistory. cbv zeta.
  destruct (Nat.ltb_spec max (length (history ++ [entry]))) as [Hbig|Hsmall]; [|exact Hsmall].
  rewrite length_app in *. simpl in *.
  destruct (history ++ [entry])%list eqn:E; simpl; [lia|].
  apply (f_equal (@length _)) in E. rewrite length_app in E. simpl in E. lia.
Qed.

(** What the part of [executeSqlQuery] after the cache check does to the
    counters, the history and the trace. *)
Lemma runAndRecord_record (query cacheKey : string) (useCache : bool) (startTime : Z)
    (s s' : State) (o : Outcome QueryResult.t) :
  runAndRecord query cacheKey useCache startTime s = (o, s') ->
  rateLimitMap s' = rateLimitMap s /\
  maxHistorySize (self s') = maxHistorySize (self s) /\
  totalQueries (metrics (self s')) = totalQueries (metrics (self s)) /\
  failedQueries (metrics (self s')) = failedQueries (metrics (self s)) /\
  cacheHits (metrics (self s')) = cacheHits (metrics (self s)) /\
  (exists new n,
      trace (world s') = (trace (world s) ++ new)%list /\
      1 <= n <= 3 /\ executions new = repeat query n /\ generations new = 0 /\
      dbCalls (world s') = dbCalls (world s) + n /\
      llmCalls (world s') = llmCalls (world s)) /\
  ((exists rows executionTime now,
       o = Return (QueryResult.mk true (Some rows) executionTime (Some false)
                     (Some (length rows)) None None) /\
       successfulQueries (metrics (self s')) = S (successfulQueries (metrics (self s))) /\
       queryHistory (self s')
       = pushHistory (maxHistorySize (self s))
           (History.mk now (substringUnits 200 query) true executionTime (length rows) None)
           (queryHistory (self s)))
   \/
   (exists e, o = Throw e /\
              successfulQueries (metrics (self s')) = successfulQueries (metrics (self s)) /\
              queryHistory (self s') = queryHistory (self s))).
Proof.
  unfold runAndRecord, bind.
  destruct (executeQuery_effects query s)
    as (oq & w' & new & n & -> & Hclock & Hticks & Hllm & Hcalls & Hdb & Hn & Htrace
        & Hbound & Hex & _ & _ & Hgen & Hsome).
  destruct oq as [[rows|]|e]; [| congruence |].
  - unfold Date_now, bind, getWorld, modifyWorld, modifySelf, updateAverageExecutionTime, ret.
    cbn -[Nat.ltb]. rewrite cacheStore_run.
    destruct (useCache && (0 <? length rows) && (length rows <? 1000)) eqn:E;
    cbn -[Nat.ltb]; rewrite addToQueryHistory_eq;
    intros [= <- <-]; cbn -[Nat.ltb pushHistory];
    repeat (split; [reflexivity|]);
    (split; [exists new, n; repeat split; assumption || lia|]);
    left; do 3 eexists; repeat split; reflexivity.
  - cbn. intros [= <- <-]. cbn. repeat (split; [reflexivity|]).
    split; [exists new, n; repeat split; assumption || lia|].
    right. eexists. repeat split; reflexivity.
Qed.

(** Every way a call of [executeSqlQuery] can go, by what it records. *)
Lemma executeSqlQuery_record (query : string) (useCache : bool) (s s' : State)
    (o : Outcome QueryResult.t) :
  executeSqlQuery query useCache s = (o, s') ->
  exists r, o = Return r /\
    rateLimitMap s' = rateLimitMap s /\
    maxHistorySize (self s') = maxHistorySize (self s) /\
    totalQueries (metrics (self s')) = S (totalQueries (metrics (self s))) /\
    ((QueryResult.success r = true /\ QueryResult.fromCache r = Some true /\
      cacheHits (metrics (self s')) = S (cacheHits (metrics (self s))) /\
      successfulQueries (metrics (self s')) = successfulQueries (metrics (self s)) /\
      failedQueries (metrics (self s')) = failedQueries (metrics (self s)) /\
      queryHistory (self s') = queryHistory (self s) /\
      world s' = tick (tick (tick (world s))))
     \/
     (cacheHits (metrics (self s')) = cacheHits (metrics (self s)) /\
      (exists new n,
          trace (world s') = (trace (world s) ++ new)%list /\
          1 <= n <= 3 /\ executions new = repeat query n /\ generations new = 0 /\
          dbCalls (world s') = dbCalls (world s) + n /\
          llmCalls (world s') = llmCalls (world s)) /\
      ((exists rows executionTime now,
           r = QueryResult.mk true (Some rows) executionTime (Some false)
                 (Some (length rows)) None None /\
           successfulQueries (metrics (self s')) = S (successfulQueries (metrics (self s))) /\
           failedQueries (metrics (self s')) = failedQueries (metrics (self s)) /\
           queryHistory (self s')
           = pushHistory (maxHistorySize (self s))
               (History.mk now (substringUnits 200 query) true executionTime (length rows) None)
               (queryHistory (self s)))
       \/
       (exists e executionTime now,
           r = QueryResult.mk false None executionTime None None
                 (Some (friendlyMessage e)) (code e) /\
           successfulQueries (metrics (self s')) = successfulQueries (metrics (self s)) /\
           failedQueries (metrics (self s')) = S (failedQueries (metrics (self s))) /\
           queryHistory (self s')
           = pushHistory (maxHistorySize (self s))
               (History.mk now (substringUnits 200 query) false executionTime 0
                  (Some (message e)))
               (queryHistory (self s)))))).
Proof.
  intros H.
  unfold executeSqlQuery, try_catch, bind, Date_now, getWorld,
    modifyWorld, modifySelf, ret in H. cbn in H.
  match type of H with context [cacheLookup ?k ?u ?t ?st] =>
    destruct (cacheLookup_cases k u t st)
      as [(entry & Hu & Hget & Hfresh & Heq) | (Hstale & w' & Hw' & Heq)];
    rewrite Heq in H; clear Heq; cbn in H
  end.
  - injection H as <- <-. eexists. split; [reflexivity|]. cbn.
    repeat (split; [reflexivity|]). left. repeat split.
  - match type of H with context [runAndRecord ?q ?k ?u ?t ?st] =>
      destruct (runAndRecord q k u t st) as [o1 s1] eqn:Hrun;
      apply runAndRecord_record in Hrun
    end.
    cbn in Hrun.
    destruct Hrun as (Hrl & Hmax & Htotal & Hfailed & Hhits & Hworld & Hres).
    assert (Hw : trace w' = trace (world s) /\ dbCalls w' = dbCalls (world s)
                 /\ llmCalls w' = llmCalls (world s))
      by (destruct Hw' as [->| ->]; cbn; repeat split; reflexivity).
    destruct Hw as (Wt & Wd & Wn). rewrite Wt, Wd, Wn in Hworld.
    destruct Hres as [(rows & t & now & -> & Hsucc & Hhist) | (e & -> & Hsucc & Hhist)].
    + injection H as <- <-. eexists. split; [reflexivity|].
      repeat (split; [assumption|]). right. split; [assumption|]. split; [assumption|].
      left. exists rows, t, now. repeat split; assumption.
    + unfold reportFailure, bind, Date_now, getWorld, modifyWorld, modifySelf, ret in H.
      cbn in H. rewrite addToQueryHistory_eq in H. cbn in H.
      injection H as <- <-. eexists. split; [reflexivity|]. cbn -[pushHistory].
      repeat (split; [assumption|]). right. split; [assumption|].
      rewrite <- Hhist, <- Hmax.
      split; [exact Hworld|].
      right. do 3 eexists. split; [reflexivity|]. cbn.
      repeat split; congruence.
Qed.

(** X4.  Every call of [executeSqlQuery] returns a result object (it never
    throws) and is counted exactly once: [totalQueries] grows by one, and so
    does exactly one of [cacheHits] (the result is flagged as cached),
    [successfulQueries] (a fresh success) and [failedQueries] (a failure). *)
Theorem executeSqlQuery_counts_every_call (query : string) (useCache : bool) (s : State) :
  exists r,
    fst (executeSqlQuery query useCache s) = Return r /\
    let before := metrics (self s) in
    let after := metrics (self (snd (executeSqlQuery query useCache s))) in
    totalQueries after = S (totalQueries before) /\
    (cacheHits after, successfulQueries after, failedQueries after)
    = match QueryResult.fromCache r, QueryResult.success r with
      | Some true, _ =>
          (S (cacheHits before), successfulQueries before, failedQueries before)
      | _, true =>
          (cacheHits before, S (successfulQueries before), failedQueries before)
      | _, false =>
          (cacheHits before, successfulQueries before, S (failedQueries before))
      end.
Proof.
  destruct (executeSqlQuery query useCache s) as [o s'] eqn:H.
  apply executeSqlQuery_record in H.
  destruct H as (r & -> & _ & _ & Htotal & Hcases). exists r. cbn.
  split; [reflexivity|]. split; [exact Htotal|].
  destruct Hcases as [(_ & -> & -> & -> & -> & _) | (-> & _ & Hres)]; [reflexivity|].
  destruct Hres as [(rows & t & now & -> & -> & -> & _) | (e & t & now & -> & -> & -> & _)];
    reflexivity.
Qed.

Lemma runCalls_history_bound (calls : list Call) (s : State) :
  length (queryHistory (self s)) <= maxHistorySize (self s) ->
  maxHistorySize (self (runCalls calls s)) = maxHistorySize (self s) /\
  length (queryHistory (self (runCalls calls s))) <= maxHistorySize (self s).
Proof.
  revert s. induction calls as [|[query useCache|] calls IH]; intros s H; simpl.
  - auto.
  - destruct (executeSqlQuery query useCache s) as [o s'] eqn:Hrun.
    apply executeSqlQuery_record in Hrun.
    destruct Hrun as (r & _ & _ & Hmax & _ & Hcases). simpl.
    assert (Hlen : length (queryHistory (self s')) <= maxHistorySize (self s')).
    { rewrite Hmax.
      destruct Hcases as [(_ & _ & _ & _ & _ & -> & _) | (_ & _ & Hres)]; [exact H|].
      destruct Hres as [(rows & t & now & _ & _ & _ & ->) | (e & t & now & _ & _ & _ & ->)];
        now apply pushHistory_length. }
    destruct (IH s' Hlen) as [IH1 IH2]. rewrite Hmax in IH1, IH2. auto.
  - apply (IH (snd (clearCache s))). exact H.
Qed.

(** X5.  The query history never exceeds its capacity: a call of
    [executeSqlQuery] that starts with at most [maxHistorySize] records ends
    with at most that many, and on an agent that started new the history holds
    at most 1000 records after any sequence of calls. *)
Theorem queryHistory_stays_within_capacity :
  (forall query useCache s,
      length (queryHistory (self s)) <= maxHistorySize (self s) ->
      length (queryHistory (self (snd (executeSqlQuery query useCache s))))
      <= maxHistorySize (self s))
  /\
  (forall schemas limiter w calls,
      length (queryHistory (self (runCalls calls (mkState (newAgent schemas) limiter w))))
      <= 1000).
Proof.
  split.
  - intros query useCache s H.
    exact (proj2 (runCalls_history_bound [CallExecute query useCache] s H)).
  - intros schemas limiter w calls.
    apply (runCalls_history_bound calls (mkState (newAgent schemas) limiter w)).
    simpl. lia.
Qed.

(** X6.  A result served from the cache leaves the history untouched; every
    other call appends one record (dropping the oldest one at capacity) that
    holds the first 200 UTF-16 code units of the statement (what
    [query.substring(0, 200)] gives), the success flag of the result and, for
    a fresh success, the number of rows. *)
Theorem queryHistory_records_all_but_cache_hits (query : string) (useCache : bool)
    (s : State) (r : QueryResult.t) :
  fst (executeSqlQuery query useCache s) = Return r ->
  let history := queryHistory (self s) in
  let history' := queryHistory (self (snd (executeSqlQuery query useCache s))) in
  (QueryResult.fromCache r = Some true -> history' = history)
  /\
  (QueryResult.fromCache r <> Some true ->
   exists entry,
     history' = pushHistory (maxHistorySize (self s)) entry history /\
     History.query entry = substringUnits 200 query /\
     History.success entry = QueryResult.success r /\
     (QueryResult.success r = true ->
      exists rows, QueryResult.data r = Some rows /\ History.rowCount entry = length rows)).
Proof.
  intros Hr history history'. subst history history'.
  destruct (executeSqlQuery query useCache s) as [o s'] eqn:H.
  apply executeSqlQuery_record in H. simpl in Hr. subst o.
  destruct H as (r' & [= <-] & _ & _ & _ & Hcases). simpl.
  destruct Hcases as [(_ & Hflag & _ & _ & _ & Hhist & _) | (_ & _ & Hres)].
  - split; [intros _; exact Hhist | congruence].
  - destruct Hres as [(rows & t & now & -> & _ & _ & ->) | (e & t & now & -> & _ & _ & ->)];
      simpl; (split; [discriminate|]); intros _; eexists;
      (split; [reflexivity|]); simpl; repeat split; try discriminate.
    intros _. exists rows. split; reflexivity.
Qed.

(** X7.  With [useCache = false] the cache is neither read nor written: the
    statement is always sent to the database, the result is never flagged as
    cached, and the cache is the same afterwards. *)
Theorem executeSqlQuery_without_cache (query : string) (s : State) :
  exists r,
    fst (executeSqlQuery query false s) = Return r /\
    QueryResult.fromCache r <> Some true /\
    queryCache (self (snd (executeSqlQuery query false s))) = queryCache (self s) /\
    exists rest,
      trace (world (snd (executeSqlQuery query false s)))
      = (trace (world s) ++ EvExecute query :: rest)%list.
Proof.
  destruct (executeSqlQuery query false s) as [o s'] eqn:H.
  apply executeSqlQuery_cases in H. cbv zeta in H.
  destruct H as (r & -> & _ & _ & _ & _ & _ & _ & Hcases). exists r. simpl.
  split; [reflexivity|].
  destruct Hcases as [(entry & Hfalse & _) | (_ & Htrace & _ & _ & Hres)]; [discriminate|].
  unfold afterLookup in Hres. simpl in Hres.
  destruct Hres as [(rows & t & -> & [(Hno & _) | (_ & ->)]) | (t & m & c & -> & ->)];
    try discriminate; simpl; repeat split; try discriminate; assumption.
Qed.

(** X8.  After a call with the cache enabled that was not served from the
    cache, whatever stood under the key of the statement before is gone: the
    key holds the fresh rows when there are between 1 and 999 of them, and
    nothing otherwise.  So an empty or a large result is not cached, and after
    a failure the key is empty: a stale entry is not kept as a fallback.  (The
    keys of the cache are distinct, as they are in every reachable state.) *)
Theorem cache_miss_replaces_the_entry (query : string) (s : State) (r : QueryResult.t) :
  NoDup (JsMap.keys (queryCache (self s))) ->
  fst (executeSqlQuery query true s) = Return r ->
  QueryResult.fromCache r <> Some true ->
  let found :=
    JsMap.get (generateCacheKey query)
      (queryCache (self (snd (executeSqlQuery query true s)))) in
  match QueryResult.data r with
  | Some rows =>
      if (0 <? length rows) && (length rows <? 1000)
      then exists now, found = Some (mkEntry rows now)
      else found = None
  | None => found = None
  end.
Proof.
  intros Hwf Hr Hmiss. cbv zeta.
  destruct (executeSqlQuery query true s) as [o s'] eqn:H.
  apply executeSqlQuery_cases in H. cbv zeta in H. simpl in Hr. subst o.
  destruct H as (r' & [= <-] & _ & _ & _ & _ & _ & _ & Hcases). simpl.
  assert (Hgone : JsMap.get (generateCacheKey query)
                    (afterLookup (generateCacheKey query) true (queryCache (self s)))
                  = None).
  { pose proof (has_afterLookup (generateCacheKey query) _ Hwf) as Hhas.
    unfold JsMap.has in Hhas.
    destruct (JsMap.get (generateCacheKey query)
                (afterLookup (generateCacheKey query) true (queryCache (self s))));
      [discriminate Hhas | reflexivity]. }
  destruct Hcases as [(entry & _ & _ & _ & -> & _) | (_ & _ & _ & _ & Hres)].
  { exfalso. apply Hmiss. reflexivity. }
  destruct Hres as [(rows & t & -> & Hstore) | (t & m & c & -> & ->)];
    [|exact Hgone].
  cbn [QueryResult.data]. cbn [andb] in Hstore.
  destruct Hstore as [(-> & now & ->) | (-> & ->)]; [|exact Hgone].
  exists now. apply get_afterStore. now apply has_afterLookup.
Qed.

(** ** Failures of the database, and the cleared cache *)

Lemma executeQuery_other_error_run (sql : string) (s : State) (e : JsError) :
  database (world s) (dbCalls (world s)) sql = DbError e ->
  isConnectionError e = false ->
  executeQuery sql s
  = (Throw e,
     mkState (self s) (rateLimitMap s)
       (log (EvExecute sql)
          (mkWorld (clock (world s)) (ticks (world s)) (database (world s))
             (S (dbCalls (world s))) (pool (world s)) (poolCalls (world s))
             (llm (world s)) (llmCalls (world s)) (trace (world s))))).
Proof.
  intros Hdb Hconn.
  unfold executeQuery, executeQuery_loop, try_catch, bind, pool_execute, getWorld,
    modifyWorld, ret, throw. cbn.
  rewrite Hdb. cbn. rewrite Hconn. reflexivity.
Qed.

(** X9.  A statement that is not served from the cache (the cache is not
    used, or holds no entry under the key, or only an expired one) and that
    the database refuses with an error that is not a connection error: the
    caller gets a failure object with the user-facing message for the error
    and the driver's error code; the statement was sent once; the failure is
    counted; the history keeps the driver's own message; and the cache is as
    before, except that the expired entry, if there was one, has been
    deleted. *)
Theorem executeSqlQuery_reports_database_error (query : string) (useCache : bool)
    (s : State) (e : JsError) :
  (useCache = true ->
   forall entry,
     JsMap.get (generateCacheKey query) (queryCache (self s)) = Some entry ->
     ~ fresh (self s) entry (clock (world s) (S (ticks (world s))))) ->
  database (world s) (dbCalls (world s)) query = DbError e ->
  isConnectionError e = false ->
  let s' := snd (executeSqlQuery query useCache s) in
  (exists executionTime,
      fst (executeSqlQuery query useCache s)
      = Return (QueryResult.mk false None executionTime None None
                  (Some (friendlyMessage e)) (code e))) /\
  trace (world s') = (trace (world s) ++ [EvExecute query])%list /\
  queryCache (self s')
  = (if useCache && JsMap.has (generateCacheKey query) (queryCache (self s))
     then JsMap.delete (generateCacheKey query) (queryCache (self s))
     else queryCache (self s)) /\
  failedQueries (metrics (self s')) = S (failedQueries (metrics (self s))) /\
  exists entry,
    queryHistory (self s')
    = pushHistory (maxHistorySize (self s)) entry (queryHistory (self s)) /\
    History.success entry = false /\
    History.error entry = Some (message e).
Proof.
  intros Hmiss Hdb Hconn. cbv zeta.
  unfold executeSqlQuery, try_catch, bind, Date_now, getWorld, modifyWorld, modifySelf, ret.
  cbn.
  match goal with |- context [cacheLookup ?k ?u ?t ?st] =>
    destruct (cacheLookup_cases k u t st)
      as [(entry & Hu & Hget & Hfresh & Heq) | (_ & w' & Hw' & Heq)];
    rewrite Heq; clear Heq
  end.
  - exfalso. exact (Hmiss Hu entry Hget Hfresh).
  - cbn. unfold runAndRecord, bind.
    assert (Hdb' : database w' (dbCalls w') query = DbError e)
      by (destruct Hw' as [->| ->]; exact Hdb).
    match goal with |- context [executeQuery query ?st] =>
      rewrite (executeQuery_other_error_run query st e Hdb' Hconn) end.
    unfold reportFailure, bind, Date_now, getWorld, modifyWorld, modifySelf, ret. cbn.
    rewrite addToQueryHistory_eq. cbn -[pushHistory]. unfold afterLookup.
    split; [eexists; reflexivity|].
    split; [destruct Hw' as [->| ->]; reflexivity|].
    repeat (split; [reflexivity|]).
    eexists. split; [reflexivity|]. split; reflexivity.
Qed.

(** X10.  The [/clear-cache] route.  Without administrator rights the answer
    is 403 and the agent is untouched.  With them the answer is 200, the cache
    is empty while counters and history stay, and whatever statement comes
    next is sent to the database and not served from the cache. *)
Theorem postClearCache_empties_the_cache (isAdmin : bool) (s : State) :
  let s' := snd (postClearCache isAdmin s) in
  exists reply,
    fst (postClearCache isAdmin s) = Return reply /\
    if isAdmin then
      Reply.statusCode reply = 200 /\ Reply.success reply = true /\
      queryCache (self s') = JsMap.empty /\
      metrics (self s') = metrics (self s) /\
      queryHistory (self s') = queryHistory (self s) /\
      forall query,
        exists r rest,
          fst (executeSqlQuery query true s') = Return r /\
          QueryResult.fromCache r <> Some true /\
          trace (world (snd (executeSqlQuery query true s')))
          = (trace (world s) ++ EvExecute query :: rest)%list
    else
      Reply.statusCode reply = 403 /\ Reply.success reply = false /\
      self s' = self s.
Proof.
  destruct isAdmin;
    unfold postClearCache, try_catch, bind, clearCache, Date_now, getWorld, modifyWorld,
      modifySelf, ret; cbn; eexists; (split; [reflexivity|]); cbn.
  - repeat (split; [reflexivity|]). intros query.
    match goal with |- context [executeSqlQuery query true ?st] =>
      destruct (executeSqlQuery query true st) as [o s2] eqn:H end.
    apply executeSqlQuery_cases in H. cbv zeta in H. cbn in H.
    destruct H as (r & -> & _ & _ & _ & _ & _ & _ & Hcases).
    destruct Hcases as [(entry & _ & Hget & _) | (_ & (rest & Htrace) & _ & _ & Hres)];
      [discriminate|].
    exists r, rest. cbn. split; [reflexivity|]. split; [|exact Htrace].
    destruct Hres as [(rows & t & -> & _) | (t & m & c & -> & _)]; discriminate.
  - destruct s as [[] ? ?]. repeat split.
Qed.

(** ** Cache keys *)

(** A digit of the alphabet stands at its own index. *)
Lemma base64Digit_index (n : nat) :
  n < 64 -> index 0 (String (base64Digit n) EmptyString) base64Alphabet = Some n.
Proof.
  intros H. do 64 (destruct n as [|n]; [reflexivity|]). lia.
Qed.

Lemma base64Digit_inj (n m : nat) :
  n < 64 -> m < 64 -> base64Digit n = base64Digit m -> n = m.
Proof.
  intros Hn Hm H.
  pose proof (base64Digit_index n Hn) as In. pose proof (base64Digit_index m Hm) as Im.
  rewrite H in In. congruence.
Qed.

Lemma base64Digit_not_padding (n : nat) : n < 64 -> base64Digit n <> "="%char.
Proof.
  intros Hn H. pose proof (base64Digit_index n Hn) as In. rewrite H in In. discriminate.
Qed.

Lemma substring0_S (n : nat) (c : ascii) (s : string) :
  substring0 (S n) (String c s) = String c (substring0 n s).
Proof. reflexivity. Qed.

Lemma substring0_empty (n : nat) : substring0 n EmptyString = EmptyString.
Proof. destruct n; reflexivity. Qed.

Lemma substring0_all (n : nat) (s : string) : String.length s <= n -> substring0 n s = s.
Proof.
  revert n. induction s as [|c s IH]; intros n H; [apply substring0_empty|].
  destruct n; simpl in H; [lia|]. rewrite substring0_S, IH; [reflexivity | lia].
Qed.

(** A byte is determined by its two leading digits' worth of bits. *)
Lemma byte_of_quarters (a a' : ascii) (x x' : nat) :
  x < 16 -> x' < 16 ->
  nat_of_ascii a / 4 = nat_of_ascii a' / 4 ->
  nat_of_ascii a mod 4 * 16 + x = nat_of_ascii a' mod 4 * 16 + x' ->
  a = a' /\ x = x'.
Proof.
  intros Hx Hx' H1 H2.
  pose proof (Nat.div_mod_eq (nat_of_ascii a) 4).
  pose proof (Nat.div_mod_eq (nat_of_ascii a') 4).
  pose proof (Nat.mod_upper_bound (nat_of_ascii a) 4).
  pose proof (Nat.mod_upper_bound (nat_of_ascii a') 4).
  assert (nat_of_ascii a = nat_of_ascii a') by lia.
  split; [|lia].
  rewrite <- (ascii_nat_embedding a), <- (ascii_nat_embedding a'). congruence.
Qed.

Lemma nat_of_ascii_inj (a a' : ascii) : nat_of_ascii a = nat_of_ascii a' -> a = a'.
Proof.
  intros H. rewrite <- (ascii_nat_embedding a), <- (ascii_nat_embedding a'). congruence.
Qed.

Ltac byte_facts a :=
  pose proof (nat_ascii_bounded a);
  pose proof (Nat.div_mod_eq (nat_of_ascii a) 4);
  pose proof (Nat.mod_upper_bound (nat_of_ascii a) 4 ltac:(discriminate));
  pose proof (Nat.div_mod_eq (nat_of_ascii a) 16);
  pose proof (Nat.mod_upper_bound (nat_of_ascii a) 16 ltac:(discriminate));
  pose proof (Nat.div_mod_eq (nat_of_ascii a) 64);
  pose proof (Nat.mod_upper_bound (nat_of_ascii a) 64 ltac:(discriminate)).

Ltac all_byte_facts :=
  repeat match goal with
         | a : ascii |- _ =>
             lazymatch goal with
             | _ : nat_of_ascii a < 256 |- _ => fail
             | _ => byte_facts a
             end
         end.

Ltac digit_facts :=
  repeat match goal with
         | H : base64Digit _ = base64Digit _ |- _ =>
             apply base64Digit_inj in H; [| lia | lia]
         | H : "="%char = base64Digit _ |- _ =>
             exfalso; symmetry in H; revert H; apply base64Digit_not_padding; lia
         | H : base64Digit _ = "="%char |- _ =>
             exfalso; revert H; apply base64Digit_not_padding; lia
         end.

Lemma base64_1 (a : ascii) :
  base64 (String a EmptyString)
  = String (base64Digit (nat_of_ascii a / 4))
      (String (base64Digit (nat_of_ascii a mod 4 * 16)) "==").
Proof. reflexivity. Qed.

Lemma base64_2 (a b : ascii) :
  base64 (String a (String b EmptyString))
  = String (base64Digit (nat_of_ascii a / 4))
      (String (base64Digit (nat_of_ascii a mod 4 * 16 + nat_of_ascii b / 16))
         (String (base64Digit (nat_of_ascii b mod 16 * 4)) "=")).
Proof. reflexivity. Qed.

Lemma base64_3 (a b c : ascii) (rest : string) :
  base64 (String a (String b (String c rest)))
  = String (base64Digit (nat_of_ascii a / 4))
      (String (base64Digit (nat_of_ascii a mod 4 * 16 + nat_of_ascii b / 16))
         (String (base64Digit (nat_of_ascii b mod 16 * 4 + nat_of_ascii c / 64))
            (String (base64Digit (nat_of_ascii c mod 64)) (base64 rest)))).
Proof. reflexivity. Qed.

Lemma String_inj (c c' : ascii) (s s' : string) :
  String c s = String c' s' -> c = c' /\ s = s'.
Proof. intros [= -> ->]. split; reflexivity. Qed.

Ltac split_digits H :=
  repeat match type of H with
         | String _ _ = String _ _ =>
             let D := fresh "D" in apply String_inj in H; destruct H as [D H]
         end.

(** Equal keys of [4 k + 2] digits come from equal texts of [3 k + 1]
    bytes. *)
Lemma base64_prefix_inj (k : nat) (q1 q2 : string) :
  substring0 (k * 4 + 2) (base64 q1) = substring0 (k * 4 + 2) (base64 q2) ->
  substring0 (k * 3 + 1) q1 = substring0 (k * 3 + 1) q2.
Proof.
  revert q1 q2. induction k as [|k IH]; intros q1 q2 H.
  - change (0 * 4 + 2) with 2 in H. change (0 * 3 + 1) with 1.
    destruct q1 as [|a [|b [|c r1]]], q2 as [|a' [|b' [|c' r2]]];
      rewrite ?base64_3, ?base64_2, ?base64_1 in H;
      change (base64 EmptyString) with EmptyString in H;
      rewrite ?substring0_S, ?substring0_empty in H;
      try discriminate; try reflexivity;
      rewrite ?substring0_S; split_digits H; all_byte_facts; digit_facts;
      f_equal; apply nat_of_ascii_inj; lia.
  - change (S k * 4 + 2) with (S (S (S (S (k * 4 + 2))))) in H.
    change (S k * 3 + 1) with (S (S (S (k * 3 + 1)))).
    destruct q1 as [|a [|b [|c r1]]], q2 as [|a' [|b' [|c' r2]]];
      rewrite ?base64_3, ?base64_2, ?base64_1 in H;
      change (base64 EmptyString) with EmptyString in H;
      rewrite ?substring0_S, ?substring0_empty in H;
      try discriminate; try reflexivity;
      rewrite ?substring0_S, ?substring0_empty; split_digits H;
      all_byte_facts; digit_facts;
      repeat match goal with
             | |- String ?x _ = String ?y _ =>
                 replace y with x by (apply nat_of_ascii_inj; lia); f_equal
             end; auto.
Qed.

(** X11.  Statements with the same cache key agree on their first 37 bytes.
    So two different statements of at most 37 bytes never have the same key,
    and never share a cache entry. *)
Theorem generateCacheKey_determines_37_bytes (q1 q2 : string) :
  generateCacheKey q1 = generateCacheKey q2 ->
  substring0 37 q1 = substring0 37 q2 /\
  (String.length q1 <= 37 -> String.length q2 <= 37 -> q1 = q2).
Proof.
  intros H. apply (base64_prefix_inj 12) in H. split; [exact H|].
  intros H1 H2. change (12 * 3 + 1) with 37 in H.
  now rewrite !substring0_all in H by assumption.
Qed.


(** ** The rate limiter *)

Lemma filter_all {A : Type} (f : A -> bool) (l : list A) :
  Forall (fun x => f x = true) l -> filter f l = l.
Proof.
  induction 1 as [|x l Hx _ IH]; simpl; [reflexivity|]. now rewrite Hx, IH.
Qed.

Lemma get_cleanup (ip : string) (cutoff : Z) (v : list Z) (m : JsMap.t (list Z)) :
  JsMap.get ip m = Some v ->
  filter (fun timestamp => (cutoff <? timestamp)%Z) v = v ->
  v <> [] ->
  JsMap.get ip
    (flat_map
       (fun entry : string * list Z =>
          let validRequests :=
            filter (fun timestamp => (cutoff <? timestamp)%Z) (snd entry) in
          match validRequests with
          | [] => []
          | _ => [(fst entry, validRequests)]
          end)
       m)
  = Some v.
Proof.
  intros Hget Hfilter Hne. induction m as [|[k l] m IH]; [discriminate|].
  simpl in Hget |- *. destruct (String.eqb k ip) eqn:E.
  - injection Hget as ->. rewrite Hfilter.
    destruct v; [contradiction|]. simpl. now rewrite E.
  - destruct (filter _ l); simpl; rewrite ?E; auto.
Qed.

Lemma isRateLimited_run (ip : string) (s : State) :
  let now := clock (world s) (ticks (world s)) in
  let recent := recentRequests ip now (rateLimitMap s) in
  exists limiter,
    isRateLimited ip s
    = (Return (RATE_LIMIT_MAX_REQUESTS <=? length recent),
       mkState (self s) limiter (tick (world s))) /\
    if RATE_LIMIT_MAX_REQUESTS <=? length recent
    then limiter = rateLimitMap s
    else JsMap.get ip limiter = Some (recent ++ [now])%list.
Proof.
  cbv zeta. unfold isRateLimited, bind, Date_now, getWorld, modifyWorld, getRateLimitMap,
    modifyRateLimitMap, ret. cbn -[Nat.leb Nat.ltb RATE_LIMIT_MAX_REQUESTS].
  fold (recentRequests ip (clock (world s) (ticks (world s))) (rateLimitMap s)).
  set (now := clock (world s) (ticks (world s))).
  set (recent := recentRequests ip now (rateLimitMap s)).
  destruct (RATE_LIMIT_MAX_REQUESTS <=? length recent) eqn:E;
    cbn -[Nat.leb Nat.ltb RATE_LIMIT_MAX_REQUESTS].
  - eexists. split; reflexivity.
  - destruct (1000 <? _) eqn:Hbig; cbn -[Nat.leb Nat.ltb RATE_LIMIT_MAX_REQUESTS];
      eexists; (split; [reflexivity|]).
    + apply get_cleanup.
      * apply get_set_same.
      * apply filter_all. apply Forall_app. split.
        -- unfold recent, recentRequests. apply Forall_forall. intros t Ht.
           apply filter_In in Ht as [_ Ht]. unfold RATE_LIMIT_WINDOW in *.
           apply Z.ltb_lt in Ht. apply Z.ltb_lt. lia.
        -- constructor; [|constructor]. unfold RATE_LIMIT_WINDOW. apply Z.ltb_lt. lia.
      * destruct recent; discriminate.
    + apply get_set_same.
Qed.

(** X12.  One call of [isRateLimited].  The requests that count are the
    recorded ones less than 60 seconds old.  With ten or more of them the
    caller is refused and the refusal is not recorded: the limiter's map is
    unchanged.  Otherwise the caller is accepted and its entry becomes the
    recent requests followed by the present time, at most ten in all (the
    periodic clean-up never drops them).  The agent and the trace are not
    touched. *)
Theorem isRateLimited_counts_recent_requests (ip : string) (s : State) :
  let now := clock (world s) (ticks (world s)) in
  let recent := recentRequests ip now (rateLimitMap s) in
  let s' := snd (isRateLimited ip s) in
  self s' = self s /\ trace (world s') = trace (world s) /\
  if 10 <=? length recent then
    fst (isRateLimited ip s) = Return true /\ rateLimitMap s' = rateLimitMap s
  else
    fst (isRateLimited ip s) = Return false /\
    JsMap.get ip (rateLimitMap s') = Some (recent ++ [now])%list /\
    length (recent ++ [now])%list <= 10.
Proof.
  cbv zeta. destruct (isRateLimited_run ip s) as (limiter & -> & Hlimiter).
  cbv zeta in Hlimiter. change RATE_LIMIT_MAX_REQUESTS with 10 in *. cbn [fst snd self world rateLimitMap].
  split; [reflexivity|]. split; [reflexivity|].
  destruct (Nat.leb_spec 10
              (length (recentRequests ip (clock (world s) (ticks (world s)))
                         (rateLimitMap s)))) as [Hmany|Hfew].
  - split; [reflexivity | exact Hlimiter].
  - split; [reflexivity|]. split; [exact Hlimiter|]. rewrite length_app. simpl. lia.
Qed.



(** ** What one question costs, and what reaches the database *)

Lemma generations_app (t u : list Event) :
  generations (t ++ u) = generations t + generations u.
Proof. unfold generations. now rewrite filter_app, length_app. Qed.

Lemma consults_refl (s : State) : consults 0 s s.
Proof. unfold consults. simpl. now rewrite app_nil_r, Nat.add_0_r. Qed.

Lemma generateContent_consults (s : State) : consults 1 s (snd (generateContent s)).
Proof. rewrite generateContent_run. repeat split. simpl. now rewrite Nat.add_1_r. Qed.

Lemma generations_repeat (g : nat) : generations (repeat EvGenerate g) = g.
Proof. induction g as [|g IH]; [reflexivity|]. unfold generations in *. simpl. now rewrite IH. Qed.

Lemma executions_generate (g : nat) : executions (repeat EvGenerate g) = [].
Proof. induction g as [|g IH]; [reflexivity | exact IH]. Qed.

(** What a call of [executeSqlQuery] sends. *)
Lemma executeSqlQuery_sends (query : string) (useCache : bool) (s : State) :
  exists r new n,
    fst (executeSqlQuery query useCache s) = Return r /\
    rateLimitMap (snd (executeSqlQuery query useCache s)) = rateLimitMap s /\
    trace (world (snd (executeSqlQuery query useCache s))) = (trace (world s) ++ new)%list /\
    n <= 3 /\ executions new = repeat query n /\ generations new = 0 /\
    (QueryResult.fromCache r = Some true -> n = 0).
Proof.
  destruct (executeSqlQuery query useCache s) as [o s'] eqn:H.
  apply executeSqlQuery_record in H.
  destruct H as (r & -> & Hrl & _ & _ & Hcases). exists r. cbn [fst snd].
  destruct Hcases as [(_ & _ & _ & _ & _ & _ & ->) | (_ & (new & n & Ht & Hn & He & Hg & _) & Hres)].
  - exists [], 0. rewrite app_nil_r. repeat split; auto.
  - exists new, n. repeat split; auto; try lia.
    destruct Hres as [(rows & t & now & -> & _) | (e & t & now & -> & _)]; discriminate.
Qed.

Section Steps.

Variable toUpperCase : string -> string.
Variable toLowerCase : string -> string.

(** The model is asked for the category exactly when no keyword matched. *)
Lemma selectCategory_consults (question : string) (s : State) :
  exists selection,
    fst (selectCategory toLowerCase question s) = Return selection /\
    consults (modelClassifies toLowerCase question) s
      (snd (selectCategory toLowerCase question s)).
Proof.
  unfold selectCategory, modelClassifies, bind, try_catch, getSelf, ret.
  destruct (snd (bestMatch (toLowerCase question) getCategoryMapping) =? 0).
  - pose proof (generateContent_consults s) as Hc.
    destruct (generateContent s) as [[text|e] s1]; cbn [fst snd] in *.
    + destruct (JsObject.get getCategoryMapping (trim text));
        try (eexists; split; [reflexivity | exact Hc]).
      destruct (fst (bestMatch (toLowerCase question) getCategoryMapping));
        eexists; (split; [reflexivity | exact Hc]).
    + destruct (fst (bestMatch (toLowerCase question) getCategoryMapping));
        eexists; (split; [reflexivity | exact Hc]).
  - destruct (fst (bestMatch (toLowerCase question) getCategoryMapping));
      eexists; (split; [reflexivity | apply consults_refl]).
Qed.

Lemma selectTables_pure (question : string) (available : option (list string)) (s : State) :
  snd (selectTables toLowerCase question available s) = s.
Proof.
  unfold selectTables, bind, getSelf, ret, throw.
  destruct available; [reflexivity|].
  destruct (existsb _ _); reflexivity.
Qed.

Lemma generateSqlQuery_consults (question : string) (tableNames : list string)
    (schemaInfo : string) (s : State) :
  consults 1 s (snd (generateSqlQuery toLowerCase question tableNames schemaInfo s)) /\
  forall sqlQuery,
    fst (generateSqlQuery toLowerCase question tableNames schemaInfo s) = Return sqlQuery ->
    exists text, llm (world s) (llmCalls (world s)) = LlmText text /\
                 sqlQuery = cleanQuery text.
Proof.
  unfold generateSqlQuery, try_catch, bind, ret, lift, resolve, throw.
  pose proof (generateContent_consults s) as Hc. rewrite generateContent_run in *.
  destruct (llm (world s) (llmCalls (world s))) as [text|e]; cbn [fst snd] in *.
  - split; [exact Hc|]. intros sqlQuery [= <-]. eauto.
  - destruct (statusIs e 429); cbn; (split; [exact Hc | discriminate]).
Qed.

Lemma generateResponse_consults (question query : string) (r : QueryResult.t) (s : State) :
  exists response g,
    fst (generateResponse question query r s) = Return response /\ g <= 1 /\
    consults g s (snd (generateResponse question query r s)).
Proof.
  unfold generateResponse, try_catch, bind, ret.
  destruct (negb (QueryResult.success r)).
  - eexists; exists 0. split; [reflexivity|]. split; [lia | apply consults_refl].
  - destruct (QueryResult.data r) as [[|row rows]|];
      try (eexists; exists 0; split; [reflexivity|]; split; [lia | apply consults_refl]).
    pose proof (generateContent_consults s) as Hc.
    destruct (generateContent s) as [[text|e] s1]; cbn [fst snd] in *;
      eexists; exists 1; (split; [reflexivity|]); (split; [lia | exact Hc]).
Qed.

(** One question, whatever the model and the database answer.
    [processQuestion] returns an answer and never throws; it calls the model
    at most three times; it leaves the rate limiter alone.  A statement
    reaches the database only if the guard returned it for the cleaned text
    of the reply that the model gave to the request for a statement: then
    the answer carries that statement, reports success, and the statement was
    sent at most three times, and nothing else was.  When the answer carries
    no statement it is a failure, and nothing was sent to the database. *)
Lemma processQuestion_run (question : string) (s : State) :
  let s' := snd (processQuestion toUpperCase toLowerCase question s) in
  exists answer new n,
    fst (processQuestion toUpperCase toLowerCase question s) = Return answer /\
    rateLimitMap s' = rateLimitMap s /\
    trace (world s') = (trace (world s) ++ new)%list /\
    generations new <= 3 /\ n <= 3 /\
    match Answer.query answer with
    | Some sql =>
        Answer.success answer = true /\ executions new = repeat sql n /\
        exists text,
          llm (world s) (llmCalls (world s) + modelClassifies toLowerCase question)
          = LlmText text /\
          validateAndOptimizeQuery toUpperCase (cleanQuery text) = Return sql
    | None => Answer.success answer = false /\ executions new = []
    end.
Proof.
  cbv zeta. unfold processQuestion, try_catch, bind.
  assert (Hg1 : modelClassifies toLowerCase question <= 1)
    by (unfold modelClassifies; destruct (_ =? 0); lia).
  destruct (selectCategory_consults question s)
    as (selection & H1 & Hr1 & Hl1 & Ht1 & Hm1 & Hc1).
  set (g1 := modelClassifies toLowerCase question) in *.
  destruct (selectCategory toLowerCase question s) as [o1 s1]. cbn [fst snd] in *. subst o1.
  pose proof (selectTables_pure question (Selection.tables selection) s1) as H2.
  destruct (selectTables toLowerCase question (Selection.tables selection) s1)
    as [[selectedTables|e2] s2]; cbn [fst snd] in *; subst s2.
  2: { unfold ret. cbn [fst snd]. eexists; exists (repeat EvGenerate g1), 0.
       rewrite generations_repeat, executions_generate. cbn. repeat split; auto; lia. }
  unfold getSelf. cbn [fst snd].
  match goal with |- context [generateSqlQuery toLowerCase question selectedTables ?i s1] =>
    destruct (generateSqlQuery_consults question selectedTables i s1)
      as ((Hr3 & Hl3 & Ht3 & _ & _) & Htext);
    destruct (generateSqlQuery toLowerCase question selectedTables i s1) as [[sqlQuery|e3] s3]
  end; cbn [fst snd] in *.
  2: { unfold ret. cbn [fst snd]. eexists; exists (repeat EvGenerate g1 ++ repeat EvGenerate 1)%list, 0.
       rewrite generations_app, executions_app, !generations_repeat, !executions_generate.
       rewrite Ht3, Ht1, Hl3, Hl1, <- app_assoc. cbn. repeat split; auto; lia. }
  destruct (Htext sqlQuery eq_refl) as (text & Hreply & ->). clear Htext.
  rewrite Hm1, Hc1 in Hreply.
  unfold lift.
  destruct (validateAndOptimizeQuery toUpperCase (cleanQuery text)) as [optimizedQuery|e4] eqn:G.
  2: { unfold ret. cbn [fst snd]. eexists; exists (repeat EvGenerate g1 ++ repeat EvGenerate 1)%list, 0.
       rewrite generations_app, executions_app, !generations_repeat, !executions_generate.
       rewrite Ht3, Ht1, Hl3, Hl1, <- app_assoc. cbn. repeat split; auto; lia. }
  destruct (executeSqlQuery_sends optimizedQuery true s3)
    as (r & new & n & H5 & Hl5 & Ht5 & Hn & He & Hg & _).
  destruct (executeSqlQuery optimizedQuery true s3) as [o5 s5]. cbn [fst snd] in *. subst o5.
  destruct (generateResponse_consults question optimizedQuery r s5)
    as (response & g2 & H6 & Hg2 & Hr6 & Hl6 & Ht6 & _ & _).
  destruct (generateResponse question optimizedQuery r s5) as [o6 s6].
  cbn [fst snd] in *. subst o6. unfold ret. cbn [fst snd].
  eexists; exists (repeat EvGenerate g1 ++ repeat EvGenerate 1 ++ new ++ repeat EvGenerate g2)%list, n.
  rewrite !generations_app, !executions_app, !generations_repeat, !executions_generate, Hg, He.
  rewrite Ht6, Ht5, Ht3, Ht1, Hl6, Hl5, Hl3, Hl1, <- !app_assoc, app_nil_r. cbn.
  repeat split; auto; try lia. eauto.
Qed.

(** X14.  One question, whatever the model and the database answer.
    [processQuestion] returns an answer and never throws; it calls the model
    at most three times.  A statement reaches the database only if the guard
    returned it for the cleaned text of the reply that the model gave to the
    request for a statement, which is the model's next reply when a category
    keyword occurs in the question and the one after it when the model was
    first asked for the category.  Then the answer carries that statement,
    reports success, and the statement was sent at most three times, and
    nothing else was.  When the answer carries no statement it is a failure,
    and nothing was sent to the database. *)
Theorem processQuestion_cost_and_safety (question : string) (s : State) :
  exists answer new n,
    fst (processQuestion toUpperCase toLowerCase question s) = Return answer /\
    trace (world (snd (processQuestion toUpperCase toLowerCase question s)))
    = (trace (world s) ++ new)%list /\
    generations new <= 3 /\ n <= 3 /\
    match Answer.query answer with
    | Some sql =>
        Answer.success answer = true /\ executions new = repeat sql n /\
        exists text,
          llm (world s) (llmCalls (world s) + modelClassifies toLowerCase question)
          = LlmText text /\
          validateAndOptimizeQuery toUpperCase (cleanQuery text) = Return sql
    | None => Answer.success answer = false /\ executions new = []
    end.
Proof.
  destruct (processQuestion_run question s) as (answer & new & n & H & _ & Ht & Hg & Hn & Hq).
  exists answer, new, n. auto.
Qed.

Lemma Date_now_run (s : State) :
  Date_now s
  = (Return (clock (world s) (ticks (world s))),
     mkState (self s) (rateLimitMap s) (tick (world s))).
Proof. reflexivity. Qed.


(** X16.  The [/direct-sql] route.  It returns a reply and calls no model.
    Without administrator rights the reply is 403 and nothing is touched.
    Every statement that reaches the database comes from an administrator's
    request and is what the guard returned for the trimmed body; it is sent
    at most three times.  The reply is 200 exactly when it carries data, and
    then its [query] is the statement that was validated. *)
Theorem postDirectSql_sends_only_validated (req : Direct.request) (s : State) :
  let s' := snd (postDirectSql toUpperCase req s) in
  exists reply new n,
    fst (postDirectSql toUpperCase req s) = Return reply /\
    trace (world s') = (trace (world s) ++ new)%list /\
    generations new = 0 /\ n <= 3 /\
    (Direct.isAdmin req = false ->
     Reply.statusCode reply = 403 /\ new = [] /\ self s' = self s) /\
    (executions new = [] \/
     Direct.isAdmin req = true /\
     exists query sql,
       Direct.query req = Some query /\
       validateAndOptimizeQuery toUpperCase (trim query) = Return sql /\
       executions new = repeat sql n) /\
    match Reply.data reply with
    | Some payload =>
        Reply.statusCode reply = 200 /\
        exists query,
          Direct.query req = Some query /\
          validateAndOptimizeQuery toUpperCase (trim query)
          = Return (Direct.p_query payload)
    | None => Reply.statusCode reply = 400 \/ Reply.statusCode reply = 403
    end.
Proof.
  cbv zeta. unfold postDirectSql, try_catch, bind.
  destruct (Direct.isAdmin req); cbn [negb].
  2: { rewrite Date_now_run. cbn. eexists; exists [], 0.
       (split; [reflexivity|]). rewrite app_nil_r. cbn. repeat split; cbn; auto. }
  destruct (Direct.query req) as [query|].
  2: { rewrite Date_now_run. cbn. eexists; exists [], 0.
       (split; [reflexivity|]). rewrite app_nil_r. cbn.
       repeat split; cbn; auto; discriminate. }
  destruct (String.eqb query EmptyString || (String.length (trim query) =? 0)).
  { rewrite Date_now_run. cbn. eexists; exists [], 0.
    (split; [reflexivity|]). rewrite app_nil_r. cbn.
    repeat split; cbn; auto; discriminate. }
  unfold lift.
  destruct (validateAndOptimizeQuery toUpperCase (trim query)) as [sql|e] eqn:G.
  2: { rewrite Date_now_run. cbn. eexists; exists [], 0.
       (split; [reflexivity|]). rewrite app_nil_r. cbn.
       repeat split; cbn; auto; discriminate. }
  destruct (executeSqlQuery_sends sql (Direct.useCache req) s)
    as (r & new & n & H & _ & Ht & Hn & He & Hg & _).
  destruct (executeSqlQuery sql (Direct.useCache req) s) as [o s1].
  cbn [fst snd] in *. subst o. rewrite Date_now_run.
  destruct (QueryResult.success r); cbn; eexists; exists new, n;
    (split; [reflexivity|]); cbn; repeat split; auto; try discriminate;
    try (right; split; [reflexivity|]; eauto); eauto.
Qed.


End Steps.

(** X17.  The [/health] route.  The database is probed through the retry
    loop with [SELECT 1 as test], one to three times, and the model is probed
    only when the database answered.  When the database probe throws, the
    reply is 503 with the message of the error and the model is not called;
    when the model call fails, the reply is 503 with its message; otherwise the
    reply is 200 and reports the agent's counters, the size of the cache and
    the number of loaded tables.  The agent is not changed. *)
Theorem getHealth_reports_the_probes (s : State) :
  let s' := snd (getHealth s) in
  exists reply new n,
    fst (getHealth s) = Return reply /\ self s' = self s /\
    trace (world s') = (trace (world s) ++ new)%list /\
    1 <= n <= 3 /\ executions new = repeat "SELECT 1 as test" n /\
    match fst (executeQuery "SELECT 1 as test" s) with
    | Throw e =>
        Reply.statusCode reply = 503 /\ Reply.error reply = Some (message e) /\
        Reply.data reply = None /\ generations new = 0
    | Return _ =>
        generations new = 1 /\
        match llm (world s) (llmCalls (world s)) with
        | LlmError e =>
            Reply.statusCode reply = 503 /\ Reply.error reply = Some (message e) /\
            Reply.data reply = None
        | LlmText _ =>
            Reply.statusCode reply = 200 /\
            exists health,
              Reply.data reply = Some health /\
              Health.metrics health = Some (metrics (self s)) /\
              Health.cacheSize health = Some (JsMap.size (queryCache (self s))) /\
              Health.tablesLoaded health = Some (JsMap.size (tableSchemas (self s)))
        end
    end.
Proof.
  cbv zeta. unfold getHealth, healthCheck, try_catch, bind.
  destruct (executeQuery_effects "SELECT 1 as test" s)
    as (o & w' & new & n & -> & _ & _ & Hllm & Hcalls & _ & _ & Htrace & Hn & Hex & _ & _
        & Hgen & _).
  cbn [fst snd]. destruct o as [rows|e].
  - rewrite generateContent_run. cbn [llm llmCalls world self rateLimitMap].
    rewrite Hllm, Hcalls.
    destruct (llm (world s) (llmCalls (world s))) as [text|e];
      unfold getSelf, ret; rewrite !Date_now_run; cbn;
      eexists; exists (new ++ [EvGenerate])%list, n;
      (split; [reflexivity|]); cbn;
      rewrite Htrace, <- app_assoc, executions_app, generations_app, Hex, Hgen, app_nil_r;
      repeat split; try lia; eauto.
  - rewrite !Date_now_run. cbn. eexists; exists new, n. (split; [reflexivity|]). cbn.
    repeat split; auto; lia.
Qed.

(** ** Table selection *)

Lemma arrayIncludes_In (l : list string) (x : string) :
  arrayIncludes l x = true <-> In x l.
Proof.
  unfold arrayIncludes. rewrite existsb_exists. split.
  - intros (y & Hy & E). apply String.eqb_eq in E. now subst.
  - intros H. exists x. split; [exact H | apply String.eqb_refl].
Qed.

Lemma In_setAdd (x y : string) (l : list string) :
  In x (setAdd y l) <-> x = y \/ In x l.
Proof.
  unfold setAdd. destruct (arrayIncludes l y) eqn:E.
  - apply arrayIncludes_In in E. split; [auto | intros [->|H]; auto].
  - rewrite in_app_iff. simpl. intuition.
Qed.

Lemma NoDup_setAdd (y : string) (l : list string) : NoDup l -> NoDup (setAdd y l).
Proof.
  intros H. unfold setAdd. destruct (arrayIncludes l y) eqn:E; [exact H|].
  assert (Hnot : ~ In y l) by (rewrite <- arrayIncludes_In; congruence).
  clear E. induction H as [|x l Hx Hl IH]; simpl.
  - constructor; [intros [] | constructor].
  - constructor.
    + rewrite in_app_iff. simpl. intros [H|[->|[]]]; [auto|]. apply Hnot. now left.
    + apply IH. intros H. apply Hnot. now right.
Qed.

Lemma chosenFrom_setAdd (available selected : list string) (table : string) :
  chosenFrom available selected -> In table available ->
  chosenFrom available (setAdd table selected).
Proof.
  intros [Hnd Hsub] Hin. split; [now apply NoDup_setAdd|].
  intros t Ht. apply In_setAdd in Ht as [->|Ht]; auto.
Qed.

Lemma chosenFrom_fold {A : Type} (available : list string) (f : list string -> A -> list string)
    (l : list A) (start : list string) :
  (forall selected x, In x l -> chosenFrom available selected ->
                      chosenFrom available (f selected x)) ->
  chosenFrom available start -> chosenFrom available (fold_left f l start).
Proof.
  revert start. induction l as [|x l IH]; intros start Hf Hstart; simpl; [exact Hstart|].
  apply IH.
  - intros selected y Hy. apply Hf. now right.
  - apply Hf; [now left | exact Hstart].
Qed.

Lemma chosenFrom_firstn (available selected : list string) (n : nat) :
  chosenFrom available selected -> chosenFrom available (firstn n selected).
Proof.
  intros [Hnd Hsub]. rewrite <- (firstn_skipn n selected) in Hnd, Hsub. split.
  - now apply NoDup_app_remove_r in Hnd.
  - intros t Ht. apply Hsub. apply in_or_app. now left.
Qed.

Lemma In_firstn_part {A : Type} (n : nat) (x : A) (l : list A) :
  In x (firstn n l) -> In x l.
Proof.
  intros H. rewrite <- (firstn_skipn n l). apply in_or_app. now left.
Qed.

Lemma In_insertByScore (x y : string * nat) (l : list (string * nat)) :
  In x (insertByScore y l) -> x = y \/ In x l.
Proof.
  induction l as [|z l IH]; simpl.
  - intros [<-|[]]. now left.
  - destruct (snd z <? snd y); simpl.
    + intros [<-|[<-|H]]; auto.
    + intros [<-|H]; auto. destruct (IH H); auto.
Qed.

Lemma In_sortByScore (x : string * nat) (l : list (string * nat)) :
  In x (sortByScore l) -> In x l.
Proof.
  unfold sortByScore.
  assert (G : forall sorted, In x (fold_left (fun sorted y => insertByScore y sorted) l sorted)
                             -> In x sorted \/ In x l).
  { induction l as [|y l IH]; intros sorted; simpl; [auto|].
    intros H. destruct (IH _ H) as [H'|H']; [|auto].
    apply In_insertByScore in H' as [->|H']; auto. }
  intros H. destruct (G [] H) as [[]|H']. exact H'.
Qed.

Section TableSelection.

Variable toLowerCase : string -> string.

Lemma In_tableScores (this : Agent) (questionLower : string) (available : list string)
    (x : string * nat) :
  In x (tableScores toLowerCase this questionLower available) -> In (fst x) available.
Proof.
  unfold tableScores.
  assert (G : forall scores,
             In x (fold_left
                     (fun scores tableName =>
                        match JsMap.get tableName (tableSchemas this) with
                        | None => scores
                        | Some schema =>
                            let score := tableScore toLowerCase questionLower tableName schema in
                            if 0 <? score then (scores ++ [(tableName, score)])%list else scores
                        end) available scores)
             -> In x scores \/ In (fst x) available).
  { induction available as [|t l IH]; intros scores; simpl; [auto|].
    intros H. destruct (IH _ H) as [H'|H']; [|auto].
    destruct (JsMap.get t (tableSchemas this)); [|auto]. cbv zeta in H'.
    destruct (0 <? _); [|auto].
    apply in_app_or in H' as [H'|[<-|[]]]; auto. }
  intros H. destruct (G [] H) as [[]|H']. exact H'.
Qed.

(** X20.  Table selection, given the tables of the category.  It returns
    (never throws, changes nothing) at most three tables, no table twice, each
    of them one of the tables it was given; and it returns at least one table
    whenever it was given any. *)
Theorem selectTables_stays_within_available (question : string)
    (available : list string) (s : State) :
  exists selected,
    selectTables toLowerCase question (Some available) s = (Return selected, s) /\
    length selected <= 3 /\ NoDup selected /\
    (forall table, In table selected -> In table available) /\
    (available <> [] -> selected <> []).
Proof.
  unfold selectTables, bind, getSelf, ret. cbn [fst snd].
  eexists. split; [reflexivity|].
  set (questionLower := toLowerCase question).
  set (direct := directMatches questionLower available).
  set (scored := if length direct =? 0 then _ else direct).
  set (withProjects := if _ && arrayIncludes available "projects" then _ else scored).
  set (final := if (length withProjects =? 0) && _ then _ else withProjects).
  assert (Hdirect : chosenFrom available direct).
  { unfold direct, directMatches. apply chosenFrom_fold; [|split; [constructor | intros ? []]].
    intros selected entry _ Hsel. destruct (includes questionLower (fst entry)); [|exact Hsel].
    apply chosenFrom_fold; [|exact Hsel].
    intros selected' table _ Hsel'. destruct (arrayIncludes available table) eqn:E; [|exact Hsel'].
    apply chosenFrom_setAdd; [exact Hsel' | now apply arrayIncludes_In]. }
  assert (Hscored : chosenFrom available scored).
  { unfold scored. destruct (length direct =? 0); [|exact Hdirect].
    apply chosenFrom_fold; [|exact Hdirect].
    intros selected entry Hentry Hsel. apply chosenFrom_setAdd; [exact Hsel|].
    eapply In_tableScores, In_sortByScore, In_firstn_part. exact Hentry. }
  assert (Hprojects : chosenFrom available withProjects).
  { unfold withProjects.
    destruct (_ && arrayIncludes available "projects") eqn:E; [|exact Hscored].
    apply andb_prop in E as [_ E]. apply chosenFrom_setAdd; [exact Hscored|].
    now apply arrayIncludes_In. }
  assert (Hfinal : chosenFrom available final /\ (available <> [] -> final <> [])).
  { unfold final. destruct available as [|first rest].
    - rewrite andb_false_r. split; [exact Hprojects | contradiction].
    - cbn [length Nat.ltb Nat.leb andb]. rewrite andb_true_r.
      destruct withProjects as [|t l] eqn:E; cbn [length Nat.eqb].
      + split; [|discriminate]. apply chosenFrom_setAdd; [exact Hprojects | now left].
      + split; [exact Hprojects | discriminate]. }
  destruct Hfinal as [Hchosen Hsome].
  destruct (chosenFrom_firstn available final 3 Hchosen) as [Hnd Hsub].
  split; [apply firstn_le_length|]. split; [exact Hnd|]. split; [exact Hsub|].
  intros Hne. specialize (Hsome Hne). destruct final; [contradiction | discriminate].
Qed.

End TableSelection.

(** ** The guard, applied twice *)

Lemma append_assoc (a b c : string) : (a ++ b) ++ c = a ++ b ++ c.
Proof. induction a as [|x a IH]; simpl; [reflexivity | now rewrite IH]. Qed.

Lemma prefix_empty (s : string) : prefix EmptyString s = true.
Proof. destruct s; reflexivity. Qed.

(** A pattern without the separator that starts inside [text] and matches
    [text ++ sep ++ rest] ends inside [text]. *)
Lemma prefix_app_sep (pat text rest : string) (sep : ascii) :
  includes pat (String sep EmptyString) = false ->
  prefix pat (text ++ String sep rest) = true -> prefix pat text = true.
Proof.
  revert text. induction pat as [|d pat IH]; intros text Hsep H; [apply prefix_empty|].
  rewrite includes_unfold in Hsep. apply orb_false_elim in Hsep as [Hd Hpat].
  simpl in Hd. destruct (ascii_dec sep d) as [<-|Hne].
  { now rewrite prefix_empty in Hd. }
  destruct text as [|c text]; simpl in H |- *.
  - destruct (ascii_dec d sep); [congruence | discriminate].
  - destruct (ascii_dec d c); [|discriminate]. now apply IH.
Qed.

Lemma includes_app_sep (pat text rest : string) (sep : ascii) :
  includes pat (String sep EmptyString) = false ->
  includes (text ++ String sep rest) pat = true ->
  includes text pat = true \/ includes rest pat = true.
Proof.
  intros Hsep. induction text as [|c text IH]; intros H.
  - simpl append in H. rewrite includes_unfold in H.
    apply orb_true_iff in H as [H|H]; [|now right].
    left. apply (prefix_app_sep pat EmptyString rest sep Hsep) in H.
    rewrite includes_unfold, H. reflexivity.
  - rewrite includes_unfold. change (String c text ++ String sep rest)
      with (String c (text ++ String sep rest)) in H.
    rewrite includes_unfold in H. apply orb_true_iff in H as [H|H].
    + left. apply (prefix_app_sep pat (String c text) rest sep Hsep) in H.
      now rewrite H.
    + destruct (IH H) as [H'|H']; [|now right]. left. rewrite H'. apply orb_true_r.
Qed.

Lemma keyword_not_in_limit_clause (keyword text : string) :
  In keyword dangerousKeywords ->
  includes (text ++ " LIMIT 100") keyword = true -> includes text keyword = true.
Proof.
  intros Hin H.
  apply (includes_app_sep keyword text "LIMIT 100" " "%char) in H.
  - destruct H as [H|H]; [exact H|]. exfalso. revert H.
    unfold dangerousKeywords in Hin. simpl in Hin.
    repeat (destruct Hin as [<-|Hin]; [discriminate|]). contradiction.
  - unfold dangerousKeywords in Hin. simpl in Hin.
    repeat (destruct Hin as [<-|Hin]; [reflexivity|]). contradiction.
Qed.

Lemma mapString_app (f : ascii -> ascii) (a b : string) :
  mapString f (a ++ b) = mapString f a ++ mapString f b.
Proof. induction a as [|x a IH]; simpl; [reflexivity | now rewrite IH]. Qed.

Lemma asciiUpper_limit_clause (a : string) :
  asciiUpper (a ++ " LIMIT 100") = asciiUpper a ++ " LIMIT 100".
Proof. unfold asciiUpper. now rewrite mapString_app. Qed.

(** X19.  The guard is idempotent.  For an upper-casing that leaves the
    appended clause [" LIMIT 100"] as it is, a statement that the guard
    returned passes the guard again, unchanged: no second clause is appended
    and the clause does not introduce a prohibited keyword. *)
Theorem guard_is_idempotent (toUpperCase : string -> string) (query result : string) :
  (forall text, toUpperCase (text ++ " LIMIT 100") = toUpperCase text ++ " LIMIT 100") ->
  validateAndOptimizeQuery toUpperCase query = Return result ->
  validateAndOptimizeQuery toUpperCase result = Return result.
Proof.
  intros Hupper H. pose proof H as H0. unfold validateAndOptimizeQuery in H.
  destruct (firstProhibited (toUpperCase query) dangerousKeywords) eqn:Hnone; [discriminate|].
  destruct (negb (includes (toUpperCase query) "LIMIT") && includes (toUpperCase query) "SELECT");
    [|injection H as <-; exact H0].
  destruct (negb (includes (toUpperCase query) "COUNT(")
            && negb (includes (toUpperCase query) "SUM(")
            && negb (includes (toUpperCase query) "AVG(")
            && negb (includes (toUpperCase query) "GROUP BY"));
    [|injection H as <-; exact H0].
  injection H as <-. unfold validateAndOptimizeQuery. rewrite Hupper.
  assert (Hclean : firstProhibited (toUpperCase query ++ " LIMIT 100") dangerousKeywords = None).
  { apply firstProhibited_None. intros k Hin Hsub.
    apply (proj1 (firstProhibited_None _ _) Hnone k Hin).
    apply includes_spec. apply includes_spec in Hsub.
    now apply keyword_not_in_limit_clause. }
  rewrite Hclean.
  assert (Hlimit : includes (toUpperCase query ++ " LIMIT 100") "LIMIT" = true).
  { apply includes_spec. exists (toUpperCase query ++ " "), " 100".
    now rewrite append_assoc. }
  rewrite Hlimit. reflexivity.
Qed.

(** ** Category selection, by keywords and by the model *)

Section CategoryChoice.

Variable toLowerCase : string -> string.

(** X21.  A question in which some category keyword occurs.  The category
    returned is the one with the highest keyword score, the first such in the
    order of the mapping when several tie, together with its table list; the
    score of a category is the sum of the lengths of its keywords that occur
    in the lowercased question.  The model is not called and nothing
    changes. *)
Theorem selectCategory_prefers_highest_keyword_score (question : string) (s : State) :
  (exists entry,
      In entry getCategoryMapping /\ 0 < scoreOf (toLowerCase question) entry) ->
  exists earlier entry later,
    getCategoryMapping = (earlier ++ entry :: later)%list /\
    Forall (fun e => scoreOf (toLowerCase question) e < scoreOf (toLowerCase question) entry)
      earlier /\
    Forall (fun e => scoreOf (toLowerCase question) e <= scoreOf (toLowerCase question) entry)
      later /\
    scoreOf (toLowerCase question) entry
    = list_sum (map String.length
                  (filter (includes (toLowerCase question))
                     (CategoryData.keywords (snd entry)))) /\
    selectCategory toLowerCase question s
    = (Return (Selection.mk (fst entry) (Some (CategoryData.tables (snd entry)))), s).
Proof.
  intros (witness & Hin & Hpos).
  destruct (bestMatch_spec (toLowerCase question) getCategoryMapping)
    as [[_ Hzero] | (earlier & entry & later & Hsplit & Hbest & Hentry & Hbefore & Hafter)].
  - rewrite Forall_forall in Hzero. specialize (Hzero witness Hin). lia.
  - exists earlier, entry, later. repeat (split; [assumption|]).
    split; [apply keywordScore_sum|].
    rewrite (selectCategory_by_keywords toLowerCase question s entry Hbest Hentry).
    rewrite tablesOf_own; [reflexivity|].
    rewrite Hsplit. apply in_or_app. right. now left.
Qed.

(** X22.  A question in which no category keyword occurs.  The model is
    asked exactly once.  When the call fails the category is "General" with
    every loaded table; when the trimmed reply is the name of a category of
    the mapping, that category is returned with its table list. *)
Theorem selectCategory_asks_model_without_keywords (question : string) (s : State) :
  Forall (fun e => scoreOf (toLowerCase question) e = 0) getCategoryMapping ->
  trace (world (snd (selectCategory toLowerCase question s)))
  = (trace (world s) ++ [EvGenerate])%list /\
  self (snd (selectCategory toLowerCase question s)) = self s /\
  match llm (world s) (llmCalls (world s)) with
  | LlmError _ =>
      fst (selectCategory toLowerCase question s)
      = Return (Selection.mk "General" (Some (JsMap.keys (tableSchemas (self s)))))
  | LlmText text =>
      forall entry,
        In entry getCategoryMapping -> fst entry = trim text ->
        fst (selectCategory toLowerCase question s)
        = Return (Selection.mk (fst entry) (Some (CategoryData.tables (snd entry))))
  end.
Proof.
  intros Hzero.
  assert (Hbest : bestMatch (toLowerCase question) getCategoryMapping = (None, 0)).
  { destruct (bestMatch_spec (toLowerCase question) getCategoryMapping)
      as [[H _] | (earlier & entry & later & Hsplit & _ & Hentry & _)]; [exact H|].
    rewrite Forall_forall in Hzero.
    assert (Hin : In entry getCategoryMapping)
      by (rewrite Hsplit; apply in_or_app; right; now left).
    specialize (Hzero entry Hin). lia. }
  destruct (selectCategory_by_model toLowerCase question s Hbest) as (_ & Htrace & Hfst).
  split; [exact Htrace|]. split.
  - unfold selectCategory, bind, try_catch, getSelf, ret. rewrite Hbest. cbn [snd Nat.eqb].
    rewrite generateContent_run.
    destruct (llm (world s) (llmCalls (world s))) as [text|e]; cbn [fst snd].
    + destruct (JsObject.get getCategoryMapping (trim text)); reflexivity.
    + reflexivity.
  - rewrite Hfst. destruct (llm (world s) (llmCalls (world s))) as [text|e]; [|reflexivity].
    intros entry Hin Hname. pose proof (tablesOf_own entry Hin) as Hown.
    unfold tablesOf in Hown. rewrite Hname in Hown. rewrite Hname.
    destruct (JsObject.get getCategoryMapping (trim text)); try discriminate.
    now injection Hown as ->.
Qed.

End CategoryChoice.

(** ** The size of cached results *)

Lemma Forall_set {V : Type} (P : string * V -> Prop) (k : string) (v : V) (m : JsMap.t V) :
  P (k, v) -> Forall P m -> Forall P (JsMap.set k v m).
Proof.
  intros Hv H. induction H as [|[k' v'] m Hx Hm IH]; simpl.
  - constructor; [exact Hv | constructor].
  - destruct (String.eqb k' k); constructor; assumption.
Qed.

Lemma Forall_delete {V : Type} (P : string * V -> Prop) (k : string) (m : JsMap.t V) :
  Forall P m -> Forall P (JsMap.delete k m).
Proof.
  intros H. induction H as [|[k' v'] m Hx Hm IH]; simpl; [constructor|].
  destruct (String.eqb k' k); [assumption | constructor; assumption].
Qed.

Lemma Forall_afterLookup (P : string * CacheEntry -> Prop) (k : string) (useCache : bool)
    (cache : JsMap.t CacheEntry) :
  Forall P cache -> Forall P (afterLookup k useCache cache).
Proof.
  intros H. unfold afterLookup.
  destruct (useCache && JsMap.has k cache); [now apply Forall_delete | exact H].
Qed.

Lemma Forall_afterStore (P : string * CacheEntry -> Prop) (k : string) (e : CacheEntry)
    (cache : JsMap.t CacheEntry) :
  P (k, e) -> Forall P cache -> Forall P (afterStore k e cache).
Proof.
  intros He H. unfold afterStore. cbv zeta.
  pose proof (Forall_set P k e cache He H) as Hset.
  destruct (100 <? JsMap.size (JsMap.set k e cache)); [|exact Hset].
  destruct (JsMap.firstKey (JsMap.set k e cache)); [now apply Forall_delete | exact Hset].
Qed.

Lemma runCalls_cached_rows (calls : list Call) (s : State) :
  Forall (fun entry => 0 < length (result (snd entry)) < 1000) (queryCache (self s)) ->
  Forall (fun entry => 0 < length (result (snd entry)) < 1000)
    (queryCache (self (runCalls calls s))).
Proof.
  revert s. induction calls as [|[query useCache|] calls IH]; intros s Hsmall; simpl.
  - exact Hsmall.
  - apply IH.
    destruct (executeSqlQuery query useCache s) as [o s'] eqn:H.
    apply executeSqlQuery_cases in H. cbv zeta in H.
    destruct H as (r & _ & _ & _ & _ & _ & _ & _ & Hcases). simpl.
    pose proof (Forall_afterLookup _ (generateCacheKey query) useCache _ Hsmall) as Hlook.
    destruct Hcases as [(entry & _ & _ & _ & _ & -> & _) | (_ & _ & _ & _ & Hres)];
      [exact Hsmall|].
    destruct Hres as [(rows & t & _ & [(Hyes & now & ->) | (_ & ->)]) | (t & m & c & _ & ->)];
      try exact Hlook.
    apply Forall_afterStore; [|exact Hlook]. simpl.
    apply andb_prop in Hyes as [Hyes Hlt]. apply andb_prop in Hyes as [_ Hgt].
    apply Nat.ltb_lt in Hlt, Hgt. lia.
  - apply IH. constructor.
Qed.

(** X23.  Every result the cache holds has between 1 and 999 rows: on an
    agent that started new, after any sequence of [executeSqlQuery] and
    [clearCache] calls. *)
Theorem cached_results_have_1_to_999_rows (schemas : JsMap.t TableSchema)
    (limiter : JsMap.t (list Z)) (w : World) (calls : list Call) :
  Forall (fun entry => 0 < length (result (snd entry)) < 1000)
    (queryCache (self (runCalls calls (mkState (newAgent schemas) limiter w)))).
Proof.
  apply runCalls_cached_rows. constructor.
Qed.

(* ================================================================== *)
(** * The further properties at concrete inputs *)
(* ================================================================== *)

(** X2: a statement against a missing table. *)
Lemma executeQuery_other_error_is_not_retried_witness :
  fst (executeQuery "SELECT 1" (startState secondsClock failingDatabase steadyModel))
  = Throw noSuchTable /\
  trace (world (snd (executeQuery "SELECT 1"
                       (startState secondsClock failingDatabase steadyModel))))
  = [EvExecute "SELECT 1"] /\
  dbCalls (world (snd (executeQuery "SELECT 1"
                         (startState secondsClock failingDatabase steadyModel))))
  = 1.
Proof.
  apply (executeQuery_other_error_is_not_retried "SELECT 1"
           (startState secondsClock failingDatabase steadyModel) noSuchTable);
    reflexivity.
Defined.

(** X3: a database that is down. *)
Lemma executeQuery_gives_up_after_three_witness :
  exists new,
    fst (executeQuery "SELECT 1" (startState secondsClock downDatabase steadyModel))
    = Throw resetError /\
    trace (world (snd (executeQuery "SELECT 1"
                         (startState secondsClock downDatabase steadyModel))))
    = ([] ++ new)%list /\
    executions new = ["SELECT 1"; "SELECT 1"; "SELECT 1"] /\
    delays new = [2000; 4000]%Z /\
    poolEnds new = 1.
Proof.
  apply (executeQuery_gives_up_after_three "SELECT 1"
           (startState secondsClock downDatabase steadyModel)
           resetError resetError resetError);
    reflexivity.
Defined.

(** X5: the first call on a new agent. *)
Lemma queryHistory_stays_within_capacity_witness :
  length (queryHistory
            (self (snd (executeSqlQuery "SELECT 1" true
                          (startState secondsClock steadyDatabase steadyModel)))))
  <= 1000.
Proof.
  apply (proj1 queryHistory_stays_within_capacity "SELECT 1" true
           (startState secondsClock steadyDatabase steadyModel)).
  simpl. lia.
Defined.

(** X6: a fresh execution is recorded. *)
Lemma queryHistory_records_all_but_cache_hits_witness :
  exists entry,
    queryHistory
      (self (snd (executeSqlQuery "SELECT 1" true
                    (startState secondsClock steadyDatabase steadyModel))))
    = pushHistory 1000 entry [] /\
    History.query entry = "SELECT 1" /\
    History.success entry = true.
Proof.
  destruct (queryHistory_records_all_but_cache_hits "SELECT 1" true
              (startState secondsClock steadyDatabase steadyModel)
              (QueryResult.mk true (Some oneRow) 1000%Z (Some false) (Some 1) None None))
    as [_ Hfresh]; [vm_compute; reflexivity|].
  destruct Hfresh as (entry & Hhistory & Hquery & Hsuccess & _); [discriminate|].
  exists entry. split; [exact Hhistory|]. split; [exact Hquery | exact Hsuccess].
Defined.

(** X8: a statement that finds nothing. *)
Lemma cache_miss_replaces_the_entry_witness :
  JsMap.get (generateCacheKey "SELECT 1")
    (queryCache
       (self (snd (executeSqlQuery "SELECT 1" true
                     (startState secondsClock emptyDatabase steadyModel)))))
  = None.
Proof.
  apply (cache_miss_replaces_the_entry "SELECT 1"
           (startState secondsClock emptyDatabase steadyModel)
           (QueryResult.mk true (Some []) 1000%Z (Some false) (Some 0) None None)).
  - constructor.
  - vm_compute. reflexivity.
  - discriminate.
Defined.

(** X9: a statement against a missing table, with an expired entry under
    its key. *)
Lemma executeSqlQuery_reports_database_error_witness :
  (exists executionTime,
      fst (executeSqlQuery companyNames true
             (cachedState companyNames oneRow slowClock failingDatabase steadyModel))
      = Return (QueryResult.mk false None executionTime None None
                  (Some (friendlyMessage noSuchTable)) (Some "ER_NO_SUCH_TABLE"))) /\
  queryCache
    (self (snd (executeSqlQuery companyNames true
                  (cachedState companyNames oneRow slowClock failingDatabase steadyModel))))
  = [].
Proof.
  destruct (executeSqlQuery_reports_database_error companyNames true
              (cachedState companyNames oneRow slowClock failingDatabase steadyModel)
              noSuchTable)
    as (Hresult & _ & Hcache & _).
  - intros _ entry Hget. injection Hget as <-. unfold fresh. vm_compute. discriminate.
  - reflexivity.
  - reflexivity.
  - split; [exact Hresult | exact Hcache].
Defined.

(** X11: two statements with the same key. *)
Lemma generateCacheKey_determines_37_bytes_witness :
  substring0 37 "SELECT companyName FROM company WHERE companyId = 1"
  = substring0 37 "SELECT companyName FROM company WHERE status = 'active'".
Proof.
  apply (generateCacheKey_determines_37_bytes
           "SELECT companyName FROM company WHERE companyId = 1"
           "SELECT companyName FROM company WHERE status = 'active'").
  reflexivity.
Defined.



(** X16: a request without administrator rights. *)
Lemma postDirectSql_sends_only_validated_witness :
  exists reply,
    fst (postDirectSql asciiUpper (Direct.mkRequest false (Some "DROP TABLE company") false)
           stillState)
    = Return reply /\
    Reply.statusCode reply = 403.
Proof.
  destruct (postDirectSql_sends_only_validated asciiUpper
              (Direct.mkRequest false (Some "DROP TABLE company") false) stillState)
    as (reply & new & n & Hreply & _ & _ & _ & Hadmin & _).
  exists reply. split; [exact Hreply|]. apply Hadmin. reflexivity.
Defined.


(** X19: a statement that received the clause. *)
Lemma guard_is_idempotent_witness :
  validateAndOptimizeQuery asciiUpper "SELECT companyName FROM company LIMIT 100"
  = Return "SELECT companyName FROM company LIMIT 100".
Proof.
  apply (guard_is_idempotent asciiUpper "SELECT companyName FROM company"
           "SELECT companyName FROM company LIMIT 100" asciiUpper_limit_clause).
  reflexivity.
Defined.

(** X20: two tables to choose from. *)
Lemma selectTables_stays_within_available_witness :
  exists selected,
    selectTables asciiLower "show company names" (Some ["company"; "projects"])
      (startState secondsClock steadyDatabase steadyModel)
    = (Return selected, startState secondsClock steadyDatabase steadyModel) /\
    selected <> [] /\
    (In "company" selected -> In "company" ["company"; "projects"]).
Proof.
  destruct (selectTables_stays_within_available asciiLower "show company names"
              ["company"; "projects"] (startState secondsClock steadyDatabase steadyModel))
    as (selected & Hrun & _ & _ & Hsub & Hsome).
  exists selected. split; [exact Hrun|]. split; [apply Hsome; discriminate | apply Hsub].
Defined.

(** X21: a question about companies. *)
Lemma selectCategory_prefers_highest_keyword_score_witness :
  exists earlier entry later,
    getCategoryMapping = (earlier ++ entry :: later)%list /\
    Forall (fun e => scoreOf (asciiLower "show company names") e
                     < scoreOf (asciiLower "show company names") entry) earlier /\
    Forall (fun e => scoreOf (asciiLower "show company names") e
                     <= scoreOf (asciiLower "show company names") entry) later /\
    scoreOf (asciiLower "show company names") entry
    = list_sum (map String.length
                  (filter (includes (asciiLower "show company names"))
                     (CategoryData.keywords (snd entry)))) /\
    selectCategory asciiLower "show company names"
      (startState secondsClock steadyDatabase steadyModel)
    = (Return (Selection.mk (fst entry) (Some (CategoryData.tables (snd entry)))),
       startState secondsClock steadyDatabase steadyModel).
Proof.
  apply (selectCategory_prefers_highest_keyword_score asciiLower "show company names"
           (startState secondsClock steadyDatabase steadyModel)).
  exists (hd (EmptyString, CategoryData.mk [] []) getCategoryMapping).
  split; [left; reflexivity | vm_compute; lia].
Defined.

(** X22: a question without keywords, and a model that is out of quota. *)
Lemma selectCategory_asks_model_without_keywords_witness :
  fst (selectCategory asciiLower "Reply with the single word constructor"
         (startState secondsClock steadyDatabase exhaustedModel))
  = Return (Selection.mk "General" (Some [])).
Proof.
  destruct (selectCategory_asks_model_without_keywords asciiLower
              "Reply with the single word constructor"
              (startState secondsClock steadyDatabase exhaustedModel))
    as (_ & _ & Hfst); [repeat constructor | exact Hfst].
Defined.
